(** * npm-trusted-publisher

    A shallow embedding of the browser extension (Controller [popup.js],
    Page Agent [content.js], Coordinator [service-worker.js]) and of the two
    batch scripts (the Node checker and [publish-unpublished.sh]), followed
    by the properties of the specification that were checked against it.

    Conventions.
    - A string is the UTF-8 encoding of the text (the literals of the
      sources are ASCII).  [trim], [parseInt] and the dot of a regular
      expression know the white space and the line terminators of
      ECMAScript by their UTF-8 bytes, and [length] counts UTF-16 code
      units; [toLowerCase] maps the ASCII letters only.
    - A number is an exact integer.  The model agrees with JavaScript as
      long as the numbers are safe integers (of magnitude below 2^53);
      properties that print or parse a number say so.
    - A handler is run to completion before the next event is looked at
      (the awaits inside one handler are not interleaved with other events).
    - Every effect a handler has on the outside world (a write of the shared
      record, a tab navigation, a status line, a timer, a message) is
      logged, in program order, in an effect trace.
    - [content.js] holds two copies of the script; the later one, which has
      the delete mode and the challenge wait, is the one embedded. *)

From Stdlib Require Import List String Ascii ZArith Lia Bool Arith.
From Stdlib Require Import DecimalString DecimalPos Permutation.
Import ListNotations.
Local Open Scope string_scope.
Local Open Scope nat_scope.
Local Open Scope list_scope.

(* ------------------------------------------------------------------ *)
(** ** JavaScript built-ins used by the sources *)

Module Js.

Definition LF : ascii := ascii_of_nat 10.

(** The white space and line terminators of ECMAScript that are one byte
    of UTF-8: TAB, LF, VT, FF, CR and SP. *)
Definition isWhiteSpace (c : ascii) : bool :=
  let n := nat_of_ascii c in
  Nat.eqb n 9 || Nat.eqb n 10 || Nat.eqb n 11 || Nat.eqb n 12 || Nat.eqb n 13
  || Nat.eqb n 32.

(** The one of two bytes: U+00A0. *)
Definition isWhiteSpace2 (a b : ascii) : bool :=
  Nat.eqb (nat_of_ascii a) 194 && Nat.eqb (nat_of_ascii b) 160.

(** Those of three bytes: U+1680; U+2000 to U+200A, U+2028, U+2029 and
    U+202F; U+205F; U+3000; U+FEFF. *)
Definition isWhiteSpace3 (a b c : ascii) : bool :=
  let a := nat_of_ascii a in
  let b := nat_of_ascii b in
  let c := nat_of_ascii c in
  (Nat.eqb a 225 && Nat.eqb b 154 && Nat.eqb c 128)
  || (Nat.eqb a 226 && Nat.eqb b 128
      && ((Nat.leb 128 c && Nat.leb c 138) || Nat.eqb c 168 || Nat.eqb c 169
          || Nat.eqb c 175))
  || (Nat.eqb a 226 && Nat.eqb b 129 && Nat.eqb c 159)
  || (Nat.eqb a 227 && Nat.eqb b 128 && Nat.eqb c 128)
  || (Nat.eqb a 239 && Nat.eqb b 187 && Nat.eqb c 191).

Section Strip.

(** The two- and three-byte white space, as the bytes come in the list. *)
Variable two : ascii -> ascii -> bool.
Variable three : ascii -> ascii -> ascii -> bool.

(** The list without the white space it starts with. *)
Fixpoint strip (l : list ascii) : list ascii :=
  match l with
  | [] => []
  | a :: t =>
      if isWhiteSpace a then strip t
      else
        match t with
        | [] => l
        | b :: u =>
            if two a b then strip u
            else
              match u with
              | [] => l
              | c :: v => if three a b c then strip v else l
              end
        end
  end.

End Strip.

(** [s.trimStart()], on the bytes. *)
Definition trimStartL (l : list ascii) : list ascii :=
  strip isWhiteSpace2 isWhiteSpace3 l.

(** [s.trimEnd()], on the bytes in reverse order. *)
Definition trimEndRevL (l : list ascii) : list ascii :=
  strip (fun b a => isWhiteSpace2 a b) (fun c b a => isWhiteSpace3 a b c) l.

(** [s.trim()] *)
Definition trim (s : string) : string :=
  string_of_list_ascii
    (rev (trimEndRevL (rev (trimStartL (list_ascii_of_string s))))).

(** The UTF-16 code units of the code point a byte begins: none for a
    continuation byte, two for the lead byte of a four-byte sequence. *)
Definition codeUnits (c : ascii) : nat :=
  let n := nat_of_ascii c in
  if Nat.leb 128 n && Nat.leb n 191 then 0
  else if Nat.leb 240 n then 2 else 1.

(** [s.length] *)
Fixpoint length (s : string) : nat :=
  match s with
  | EmptyString => 0
  | String c t => codeUnits c + length t
  end.

(** [s.split(sep)] for a one-character separator. *)
Fixpoint split (sep : ascii) (s : string) : list string :=
  match s with
  | EmptyString => [EmptyString]
  | String c t =>
      if Ascii.eqb c sep then EmptyString :: split sep t
      else match split sep t with
           | h :: r => String c h :: r
           | [] => [String c EmptyString]
           end
  end.

(** [s.startsWith(p)] *)
Definition startsWith (s p : string) : bool := String.prefix p s.

(** [s.includes(p)] on strings. *)
Fixpoint strIncludes (s p : string) : bool :=
  String.prefix p s ||
  match s with
  | EmptyString => false
  | String _ t => strIncludes t p
  end.

(** [l.join(sep)] *)
Fixpoint join (sep : string) (l : list string) : string :=
  match l with
  | [] => ""
  | [x] => x
  | x :: r => (x ++ sep ++ join sep r)%string
  end.

(** [arr.includes(x)] on arrays of strings. *)
Definition includes (l : list string) (x : string) : bool :=
  existsb (String.eqb x) l.

(** [arr.push(x)] *)
Definition push (l : list string) (x : string) : list string := l ++ [x].

(** [if (!arr.includes(x)) arr.push(x)] *)
Definition pushUnique (l : list string) (x : string) : list string :=
  if includes l x then l else push l x.

(** [arr.filter((p) => p !== x)] *)
Definition without (l : list string) (x : string) : list string :=
  filter (fun p => negb (String.eqb p x)) l.

(** Truthiness of [arr[i]] for an array of strings: [undefined] and the
    empty string are falsy. *)
Definition truthy (o : option string) : bool :=
  match o with
  | None => false
  | Some s => negb (String.eqb s "")
  end.

Definition digit (c : ascii) : option Z :=
  let n := nat_of_ascii c in
  if (Nat.leb 48 n) && (Nat.leb n 57) then Some (Z.of_nat (n - 48)) else None.

Fixpoint digits (acc : Z) (l : list ascii) : Z :=
  match l with
  | [] => acc
  | c :: t => match digit c with
              | Some d => digits (10 * acc + d) t
              | None => acc
              end
  end.

Definition unsignedInt (l : list ascii) : option Z :=
  match l with
  | [] => None
  | c :: _ => match digit c with
              | Some _ => Some (digits 0 l)
              | None => None
              end
  end.

(** [parseInt(s, 10)]; [None] is NaN.  The value is the exact integer the
    digits denote, which is what JavaScript returns when that is a safe
    integer. *)
Definition parseInt10 (s : string) : option Z :=
  match trimStartL (list_ascii_of_string s) with
  | [] => None
  | c :: t =>
      if Ascii.eqb c "-" then option_map Z.opp (unsignedInt t)
      else if Ascii.eqb c "+" then unsignedInt t
      else unsignedInt (c :: t)
  end.

(** [s.toLowerCase()] on the ASCII letters; other characters are left as
    they are.  The sources search the result for ASCII text only
    ([set up connection], [setup connection]), and the two characters
    beyond ASCII whose lower case has an ASCII letter cannot take part in
    such a match: U+212A gives [k], which the texts do not hold, and
    U+0130 gives [i] followed by a combining dot. *)
Definition lowerAscii (c : ascii) : ascii :=
  let n := nat_of_ascii c in
  if (Nat.leb 65 n) && (Nat.leb n 90) then ascii_of_nat (n + 32) else c.

Fixpoint toLowerCase (s : string) : string :=
  match s with
  | EmptyString => EmptyString
  | String c t => String (lowerAscii c) (toLowerCase t)
  end.

(** [n || d] for a number [n]: NaN and zero are falsy. *)
Definition numberOr (n : option Z) (d : Z) : Z :=
  match n with
  | None => d
  | Some z => if Z.eqb z 0 then d else z
  end.

(** [Number.MAX_SAFE_INTEGER] and [Number.isSafeInteger] on integers. *)
Definition MAX_SAFE_INTEGER : Z := 9007199254740991.
Definition isSafeInteger (z : Z) : bool := (Z.abs z <=? MAX_SAFE_INTEGER)%Z.

(** [`${z}`] for an integer: its decimal digits, which is what JavaScript
    prints for a safe integer (from 10^21 on it prints an exponent). *)
Definition showZ (z : Z) : string := NilZero.string_of_int (Z.to_int z).

End Js.

(* ------------------------------------------------------------------ *)
(** ** The shared persisted record (key [trustedPublisherState]) *)

Inductive Status : Type := idle | running | paused.

Definition Status_eqb (a b : Status) : bool :=
  match a, b with
  | idle, idle | running, running | paused, paused => true
  | _, _ => false
  end.

Record Config : Type := mkConfig {
  owner : string;
  repository : string;
  workflow : string;
  environment : string;
  mode : option string;          (* absent from the records the Controller writes *)
  navigationMode : string;
  autoSubmit : bool;
  delay : Z
}.

Record State : Type := mkState {
  status : Status;
  packages : list string;
  currentIndex : nat;
  completed : list string;
  failed : list string;
  skipped : list string;
  config : Config
}.

Definition set_status (v : Status) (s : State) : State :=
  mkState v (packages s) (currentIndex s) (completed s) (failed s) (skipped s) (config s).
Definition set_packages (v : list string) (s : State) : State :=
  mkState (status s) v (currentIndex s) (completed s) (failed s) (skipped s) (config s).
Definition set_currentIndex (v : nat) (s : State) : State :=
  mkState (status s) (packages s) v (completed s) (failed s) (skipped s) (config s).
Definition set_completed (v : list string) (s : State) : State :=
  mkState (status s) (packages s) (currentIndex s) v (failed s) (skipped s) (config s).
Definition set_failed (v : list string) (s : State) : State :=
  mkState (status s) (packages s) (currentIndex s) (completed s) v (skipped s) (config s).
Definition set_skipped (v : list string) (s : State) : State :=
  mkState (status s) (packages s) (currentIndex s) (completed s) (failed s) v (config s).
Definition set_config (v : Config) (s : State) : State :=
  mkState (status s) (packages s) (currentIndex s) (completed s) (failed s) (skipped s) v.

(** [state.packages[state.currentIndex]] ([None] is [undefined]). *)
Definition currentPackage (s : State) : option string :=
  nth_error (packages s) (currentIndex s).

(** [`https://www.npmjs.com/package/${pkg}/access`] *)
Definition accessUrl (pkg : string) : string :=
  ("https://www.npmjs.com/package/" ++ pkg ++ "/access")%string.

(** The record written on installation and the Controller's initial copy. *)
Definition defaultConfig : Config :=
  mkConfig "dxos" "dxos" "publish-all.yml" "" None "manual" false 2.
Definition defaultState : State :=
  mkState idle [] 0 [] [] [] defaultConfig.

(** The [packageResult] message.  An absent flag is [false]. *)
Module Msg.
Record t : Type := mk {
  success : bool;
  packageName : string;
  error : option string;
  completed : bool;
  alreadyConfigured : bool;
  notFound : bool;
  waiting : bool
}.
End Msg.

(** What a component does to the outside world. *)
Inductive Effect : Type :=
| Persist (s : State)                      (* chrome.storage.local.set *)
| Navigate (url : string)                  (* chrome.tabs.update / location.href *)
| ShowStatus (message kind : string)       (* the Controller's status line *)
| SetTimeout (ms : Z)                      (* a timer armed by the handler *)
| NavigateAfter (ms : Z) (url : string)    (* setTimeout(() => location.href = url, ms) *)
| UpdateUI
| Send (m : Msg.t)                         (* chrome.runtime.sendMessage *)
| StartObserver (pkg : string)
| Click (control : string)
| SendNameless (error : string)            (* a waiting report whose packageName is undefined *)
| AwaitChallenge                           (* waitForChallengeCompletion *)
| Rerun.                                   (* handlePageLoad calls itself *)

(** State passing with an effect trace. *)
Definition M (A : Type) : Type := State -> A * State * list Effect.

Definition ret {A} (a : A) : M A := fun s => (a, s, []).
Definition bind {A B} (m : M A) (f : A -> M B) : M B :=
  fun s =>
    let '(a, s1, tr1) := m s in
    let '(b, s2, tr2) := f a s1 in
    (b, s2, tr1 ++ tr2).
Definition get : M State := fun s => (s, s, []).
Definition modify (f : State -> State) : M unit := fun s => (tt, f s, []).
Definition emit (e : Effect) : M unit := fun s => (tt, s, [e]).

Declare Scope m_scope.
Delimit Scope m_scope with m.
Notation "x <- m ;; k" := (bind m (fun x => k))
  (at level 61, m at next level, right associativity) : m_scope.
Notation "m ;; k" := (bind m (fun _ => k))
  (at level 61, right associativity) : m_scope.

Definition stateOf {A} (r : A * State * list Effect) : State := snd (fst r).
Definition traceOf {A} (r : A * State * list Effect) : list Effect := snd r.

(** The records written to storage, in order. *)
Fixpoint persisted (tr : list Effect) : list State :=
  match tr with
  | [] => []
  | Persist s :: r => s :: persisted r
  | _ :: r => persisted r
  end.

(** The navigations issued, in order. *)
Fixpoint navigations (tr : list Effect) : list string :=
  match tr with
  | [] => []
  | Navigate u :: r => u :: navigations r
  | _ :: r => navigations r
  end.

(* ------------------------------------------------------------------ *)
(** ** Controller ([extension/popup/popup.js]) *)

Module Popup.
Local Open Scope m_scope.

(** The values of the popup's input elements. *)
Record Form : Type := mkForm {
  f_owner : string;
  f_repository : string;
  f_workflow : string;
  f_environment : string;
  f_navigationMode : string;
  f_autoSubmit : string;
  f_delay : string;
  f_packages : string
}.

Definition showStatus (message kind : string) : M unit :=
  emit (ShowStatus message kind).

Definition updateUI : M unit := emit UpdateUI.

(** [saveState]: the record handed to [chrome.storage.local.set] is the
    Controller's copy as it is at the call. *)
Definition saveState : M unit :=
  s <- get ;; emit (Persist s).

(** The object literal built by [saveConfig] (it has no [mode] property). *)
Definition configOfForm (f : Form) : Config :=
  mkConfig (Js.trim (f_owner f)) (Js.trim (f_repository f))
           (Js.trim (f_workflow f)) (Js.trim (f_environment f))
           None
           (f_navigationMode f)
           (String.eqb (f_autoSubmit f) "true")
           (Js.numberOr (Js.parseInt10 (f_delay f)) 2).

Definition saveConfig (f : Form) : M unit :=
  modify (set_config (configOfForm f)) ;; saveState.

Definition parsePackages (text : string) : list string :=
  filter (fun line => negb (String.eqb line "") && negb (Js.startsWith line "#"))
         (map Js.trim (Js.split Js.LF text)).

(** The [change] listener of the package text area. *)
Definition onPackagesChange (f : Form) : M unit :=
  modify (set_packages (parsePackages (f_packages f))) ;; saveState ;; updateUI.

(** [processCurrentPackage].  An active tab is taken to exist. *)
Definition processCurrentPackage : M unit :=
  s <- get ;;
  if negb (Status_eqb (status s) running) then ret tt
  else if List.length (packages s) <=? currentIndex s then
    modify (set_status idle) ;; saveState ;; updateUI ;;
    showStatus "All packages processed!" "success"
  else
    let pkg := nth (currentIndex s) (packages s) "" in
    showStatus ("Processing: " ++ pkg)%string "info" ;;
    emit (Navigate (accessUrl pkg)) ;;
    updateUI.

Definition resetProgress (s : State) : State :=
  set_skipped [] (set_failed [] (set_completed [] (set_currentIndex 0 s))).

Definition handleStart (f : Form) : M unit :=
  saveConfig f ;;
  modify (set_packages (parsePackages (f_packages f))) ;;
  s <- get ;;
  if Nat.eqb (List.length (packages s)) 0 then
    showStatus "Please enter at least one package" "error"
  else if String.eqb (owner (config s)) "" || String.eqb (repository (config s)) ""
          || String.eqb (workflow (config s)) "" then
    showStatus "Please fill in all GitHub configuration fields" "error"
  else
    modify (fun s => resetProgress (set_status running s)) ;;
    saveState ;; updateUI ;;
    processCurrentPackage.

Definition handlePause : M unit :=
  modify (set_status paused) ;; saveState ;; updateUI ;;
  showStatus "Paused" "warning".

Definition handleResume : M unit :=
  modify (set_status running) ;; saveState ;; updateUI ;;
  showStatus "Resumed" "info" ;;
  processCurrentPackage.

Definition handleReset : M unit :=
  modify (fun s => resetProgress (set_status idle s)) ;;
  saveState ;; updateUI ;;
  showStatus "Reset complete" "info".

Definition handleNext : M unit :=
  s <- get ;;
  (match currentPackage s with
   | Some currentPkg =>
       if Js.truthy (Some currentPkg)
          && negb (Js.includes (completed s) currentPkg)
          && negb (Js.includes (failed s) currentPkg)
       then modify (fun s => set_completed (Js.push (completed s) currentPkg) s)
       else ret tt
   | None => ret tt
   end) ;;
  modify (fun s => set_currentIndex (S (currentIndex s)) s) ;;
  saveState ;;
  s <- get ;;
  if List.length (packages s) <=? currentIndex s then
    modify (set_status idle) ;; saveState ;; updateUI ;;
    showStatus "All packages processed!" "success"
  else
    updateUI ;; processCurrentPackage.

(** [nextBtn.disabled] as [updateUI] sets it. *)
Definition nextDisabled (s : State) : bool :=
  negb (Status_eqb (status s) running)
  || negb (String.eqb (navigationMode (config s)) "manual").

(** The delay of the advance timer, in milliseconds, and its rendering
    in the status line. *)
Definition advanceDelayMs (m : Msg.t) (s : State) : Z :=
  if Msg.alreadyConfigured m || Msg.notFound m then 500
  else (delay (config s) * 1000)%Z.

Definition advanceDelayText (m : Msg.t) (s : State) : string :=
  if Msg.alreadyConfigured m || Msg.notFound m then "0.5"
  else Js.showZ (delay (config s)).

Definition handlePackageResult (m : Msg.t) : M unit :=
  let packageName := Msg.packageName m in
  (if Msg.success m then
     (if Msg.alreadyConfigured m && negb (Msg.completed m) then
        modify (fun s => set_skipped (Js.pushUnique (skipped s) packageName) s) ;;
        modify (fun s => set_completed (Js.without (completed s) packageName) s) ;;
        showStatus ("Already configured: " ++ packageName)%string "info"
      else if Msg.notFound m then
        modify (fun s => set_skipped (Js.pushUnique (skipped s) packageName) s) ;;
        showStatus ("Not found (404): " ++ packageName)%string "warning"
      else
        modify (fun s => set_completed (Js.pushUnique (completed s) packageName) s) ;;
        modify (fun s => set_skipped (Js.without (skipped s) packageName) s) ;;
        showStatus ("Success: " ++ packageName)%string "success") ;;
     s <- get ;;
     let shouldAutoAdvance :=
       Msg.alreadyConfigured m || Msg.notFound m
       || (String.eqb (navigationMode (config s)) "auto"
           && Status_eqb (status s) running) in
     if shouldAutoAdvance && Status_eqb (status s) running then
       modify (fun s => set_currentIndex (S (currentIndex s)) s) ;;
       saveState ;;
       s <- get ;;
       if currentIndex s <? List.length (packages s) then
         showStatus ("Waiting " ++ advanceDelayText m s
                     ++ "s before next package...")%string "info" ;;
         emit (SetTimeout (advanceDelayMs m s))
       else
         modify (set_status idle) ;; saveState ;;
         showStatus "All packages processed!" "success"
     else ret tt
   else
     modify (fun s => set_failed (Js.pushUnique (failed s) packageName) s) ;;
     showStatus ("Failed: " ++ packageName ++ " - "
                 ++ match Msg.error m with Some e => e | None => "undefined" end)%string
                "error") ;;
  saveState ;; updateUI.

(** The callback of the timer armed by [handlePackageResult]. *)
Definition advanceTimer : M unit :=
  s <- get ;;
  if Status_eqb (status s) running then processCurrentPackage else ret tt.

(** The [chrome.storage.onChanged] listener: the stored record carries every
    property, so the spread replaces the Controller's copy by it. *)
Definition onStorageChanged (newState : State) : M unit :=
  modify (fun _ => newState) ;; updateUI ;;
  s <- get ;;
  if Status_eqb (status s) idle && (List.length (packages s) <=? currentIndex s) then
    showStatus "All packages processed!" "success"
  else if Status_eqb (status s) running then
    match currentPackage s with
    | Some currentPkg =>
        if Js.truthy (Some currentPkg)
        then showStatus ("Processing: " ++ currentPkg)%string "info"
        else ret tt
    | None => ret tt
    end
  else ret tt.

End Popup.

(* ------------------------------------------------------------------ *)
(** ** Page Agent ([extension/content/content.js]) *)

Module Content.
Local Open Scope m_scope.

(** What the classifiers read from the DOM at one instant. *)
Record Document : Type := mkDocument {
  title : string;                 (* document.title *)
  bodyText : string;              (* document.body?.textContent || '' *)
  hasH1 : bool;                   (* querySelector('h1') *)
  hasPackageClass : bool;         (* querySelector('[class*="package"]') *)
  hasAccessLink : bool;           (* querySelector('[href*="/access"]') *)
  buttons : list string;          (* textContent of every button, in order *)
  alerts : list string;           (* textContent of the alert/toast regions *)
  notification : option string;   (* #notification[role="alert"] *)
  hasMainWrapper : bool;          (* querySelector('.main-wrapper') *)
  hasTurnstileIframe : bool;
  hasTurnstileWidget : bool;
  hasOtpInput : bool;
  formFields : list string        (* ids of the form inputs that exist *)
}.

(** The double quote character, and the two JSON error bodies looked for:
    the key [message] and the value [Not Found], both quoted, separated by a
    colon, without and with a space after it. *)
Definition dq : string := String (ascii_of_nat 34) EmptyString.
Definition notFoundJson : string :=
  (dq ++ "message" ++ dq ++ ":" ++ dq ++ "Not Found" ++ dq)%string.
Definition notFoundJsonSpaced : string :=
  (dq ++ "message" ++ dq ++ ": " ++ dq ++ "Not Found" ++ dq)%string.

Definition isNotFoundPage (d : Document) : bool :=
  if Js.strIncludes (bodyText d) notFoundJson
     || Js.strIncludes (bodyText d) notFoundJsonSpaced then true
  else if Js.strIncludes (title d) "404" || Js.strIncludes (title d) "not found" then true
  else
    let hasPackageHeader := hasH1 d || hasPackageClass d in
    let hasSettingsTab := hasAccessLink d || negb (Nat.eqb (List.length (buttons d)) 0) in
    if negb hasPackageHeader && negb hasSettingsTab
       && (Js.length (bodyText d) <? 500) then true
    else false.

Definition isAlreadyConfigured (c : Config) (d : Document) : bool :=
  let hasOwnerRepo :=
    Js.strIncludes (bodyText d) (owner c ++ "/" ++ repository c)%string in
  let hasWorkflow := Js.strIncludes (bodyText d) (workflow c) in
  if negb hasOwnerRepo || negb hasWorkflow then false
  else
    let hasEditButton := existsb (fun t => String.eqb (Js.trim t) "Edit") (buttons d) in
    let hasDeleteButton := existsb (fun t => String.eqb (Js.trim t) "Delete") (buttons d) in
    hasEditButton && hasDeleteButton.

Definition hasDeleteButton (d : Document) : bool :=
  existsb (fun t => String.eqb (Js.trim t) "Delete") (buttons d).

(** [clickDeleteButton]: whether a control was clicked. *)
Definition clickDeleteButton (d : Document) : bool := hasDeleteButton d.

Definition clickSetupButton (d : Document) : bool :=
  existsb (fun t => Js.strIncludes (Js.toLowerCase t) "set up connection"
                    || Js.strIncludes (Js.toLowerCase t) "setup connection") (buttons d).

Definition clickGitHubActionsButton (d : Document) : bool :=
  existsb (fun t => Js.strIncludes t "GitHub Actions") (buttons d).

Definition hasTurnstileChallenge (d : Document) : bool :=
  if Js.strIncludes (title d) "Just a moment" then true
  else if hasMainWrapper d && Js.strIncludes (bodyText d) "Verify you are human" then true
  else if hasTurnstileIframe d then true
  else if hasTurnstileWidget d then true
  else if hasOtpInput d then true
  else if Js.strIncludes (bodyText d) "Ray ID:" then true
  else false.

Definition checkForSuccess (d : Document) : bool :=
  existsb (fun text => Js.strIncludes text "Successfully"
                       || Js.strIncludes text "successfully") (alerts d).

Definition checkForError (d : Document) : option string :=
  match notification d with
  | Some text =>
      if Js.strIncludes text "error" || Js.strIncludes text "Error"
         || Js.strIncludes text "failed" then Some text else None
  | None => None
  end.

Definition isAccessPage (pathname : string) : bool :=
  Js.strIncludes pathname "/access".

Definition oidcFields : list string :=
  ["oidc_repositoryOwner"; "oidc_repositoryName"; "oidc_workflowName";
   "oidc_githubEnvironmentName"].

(** [fillForm]: whether at least one of the four inputs exists (and was set). *)
Definition fillForm (d : Document) : bool :=
  let filled := List.length (filter (Js.includes (formFields d)) oidcFields) in
  0 <? filled.

(** [waitForChallengeCompletion]: the challenge is looked at every 500 ms;
    [challengeAt k] is [hasTurnstileChallenge()] at the [k]-th look, taken at
    [500 * k] ms.  The result is [(cleared, looks)]. *)
Definition challengeTimeout : Z := 120000.

Fixpoint checkChallenge (fuel : nat) (challengeAt : nat -> bool) (k : nat)
  : option (bool * nat) :=
  match fuel with
  | O => None
  | S fuel' =>
      if negb (challengeAt k) then Some (true, k)
      else if (challengeTimeout <? 500 * Z.of_nat k)%Z then Some (false, k)
      else checkChallenge fuel' challengeAt (S k)
  end.

Definition waitForChallengeCompletion (challengeAt : nat -> bool)
  : option (bool * nat) :=
  checkChallenge 242 challengeAt 0.

(** What one run of [handlePageLoad] observes, at the instants it looks. *)
Record PageView : Type := mkPageView {
  pathname : string;                       (* window.location.pathname *)
  urlPackage : option string;              (* getPackageName() *)
  onLoad : Document;                       (* when the handler starts *)
  settled : Document;                      (* after the 1 s settle wait *)
  afterChallenge : Document;               (* delete mode, after the challenge wait *)
  storedAfterChallenge : option State;     (* the record re-read after that wait *)
  atClick : Document;                      (* when Delete is clicked *)
  afterClick : Document;                   (* 1 s after the click *)
  formAppears : bool;                      (* #oidc_repositoryOwner within 10 s *)
  atReveal : Document;                     (* when the reveal control is looked for *)
  formAppearsAfterReveal : bool;           (* ... within 5 s of the reveal click *)
  atFill : Document;                       (* when the form is filled *)
  atSubmit : Document;                     (* 500 ms later, when submit is clicked *)
  observing : bool                         (* the observer guard, on entry *)
}.

Definition send (m : Msg.t) : M unit := emit (Send m).

Definition waitingMsg (pkg : string) (text : string) : Msg.t :=
  Msg.mk false pkg (Some text) false false false true.

Definition failureMsg (pkg : string) (text : string) : Msg.t :=
  Msg.mk false pkg (Some text) false false false false.

Definition notFoundMsg (pkg : string) : Msg.t :=
  Msg.mk true pkg None false false true false.

Definition completedMsg (pkg : string) : Msg.t :=
  Msg.mk true pkg None true false false false.

Definition alreadyConfiguredMsg (pkg : string) (alreadyConfigured completed : bool) : Msg.t :=
  Msg.mk true pkg None completed alreadyConfigured false false.

(** The tail shared, verbatim, by the four advancing branches: bump the
    cursor, then either finish or store and arm the 500 ms navigation. *)
Definition advance : M unit :=
  modify (fun s => set_currentIndex (S (currentIndex s)) s) ;;
  s <- get ;;
  if List.length (packages s) <=? currentIndex s then
    modify (set_status idle) ;;
    s <- get ;; emit (Persist s)
  else
    emit (Persist s) ;;
    emit (NavigateAfter 500 (accessUrl (nth (currentIndex s) (packages s) ""))).

(** [setupSuccessObserver], guarded by [observing]. *)
Definition setupSuccessObserver (observing : bool) (pkg : string) : M unit :=
  if observing then ret tt else emit (StartObserver pkg).

(** The branches of [handlePageLoad] once the page is known to show the
    expected package [packageName]; the local [state] is the monad's state. *)
Definition deleteMode (pv : PageView) (packageName : string) : M unit :=
  let challenged := hasTurnstileChallenge (settled pv) in
  (if challenged then
     send (waitingMsg packageName "Waiting for challenge completion...") ;;
     emit AwaitChallenge
   else ret tt) ;;
  if challenged &&
     match storedAfterChallenge pv with
     | Some st => negb (Status_eqb (status st) running)
     | None => true
     end
  then ret tt
  else
    let d := if challenged then afterChallenge pv else settled pv in
    if negb (hasDeleteButton d) then
      modify (fun s => set_skipped (Js.pushUnique (skipped s) packageName) s) ;;
      advance ;;
      send (alreadyConfiguredMsg packageName true false)
    else
      setupSuccessObserver (observing pv) packageName ;;
      if negb (clickDeleteButton (atClick pv)) then
        send (failureMsg packageName "Failed to click Delete button")
      else
        emit (Click "Delete") ;;
        if hasTurnstileChallenge (afterClick pv) then emit AwaitChallenge else ret tt.

Definition configureMode (pv : PageView) (packageName : string) : M unit :=
  s <- get ;;
  if isAlreadyConfigured (config s) (settled pv) then
    let wasCompletedThisSession := Js.includes (completed s) packageName in
    (if wasCompletedThisSession then ret tt
     else modify (fun s => set_skipped (Js.pushUnique (skipped s) packageName) s)) ;;
    advance ;;
    send (alreadyConfiguredMsg packageName (negb wasCompletedThisSession)
                               wasCompletedThisSession)
  else
    found <- (if formAppears pv then ret true
              else (if clickGitHubActionsButton (atReveal pv)
                    then emit (Click "GitHub Actions") else ret tt) ;;
                   ret (formAppearsAfterReveal pv)) ;;
    if negb found then send (failureMsg packageName "Could not find form fields")
    else if negb (fillForm (atFill pv)) then
      send (failureMsg packageName "Failed to fill form")
    else
      setupSuccessObserver (observing pv) packageName ;;
      if autoSubmit (config s)
      then (if clickSetupButton (atSubmit pv) then emit (Click "Set up connection") else ret tt)
      else ret tt.

Definition handlePageLoadBody (pv : PageView) : M unit :=
  state <- get ;;
  if hasTurnstileChallenge (onLoad pv) then
    (match currentPackage state with
     | Some pkg => send (waitingMsg pkg "Waiting for Cloudflare challenge...")
     | None => emit (SendNameless "Waiting for Cloudflare challenge...")
     end) ;;
    emit AwaitChallenge ;;
    emit Rerun
  else if negb (isAccessPage (pathname pv)) then ret tt
  else
    match urlPackage pv with
    | None => ret tt
    | Some packageName =>
        let expected :=
          match currentPackage state with
          | Some expectedPackage => String.eqb packageName expectedPackage
          | None => false
          end in
        if negb expected then ret tt
        else if isNotFoundPage (settled pv) then
          modify (fun s => set_skipped (Js.pushUnique (skipped s) packageName) s) ;;
          advance ;;
          send (notFoundMsg packageName)
        else if checkForSuccess (settled pv) then
          modify (fun s => set_completed (Js.pushUnique (completed s) packageName) s) ;;
          advance ;;
          send (completedMsg packageName)
        else if match mode (config state) with
                | Some m => String.eqb m "delete"
                | None => false
                end
        then deleteMode pv packageName
        else configureMode pv packageName
    end.

(** [handlePageLoad]: [stored] is what [chrome.storage.local.get] returns. *)
Definition handlePageLoad (stored : option State) (pv : PageView) : list Effect :=
  match stored with
  | None => []
  | Some state =>
      if negb (Status_eqb (status state) running) then []
      else traceOf (handlePageLoadBody pv state)
  end.

(** The result observer's callback on a mutation: [d] is the DOM then,
    [stored] the record read back for the direct write. *)
Definition observerCallback (stored : option State) (d : Document) (packageName : string)
  : list Effect :=
  if checkForSuccess d then
    Send (completedMsg packageName) ::
    match stored with
    | Some state =>
        [Persist (set_completed (Js.pushUnique (completed state) packageName) state)]
    | None => []
    end
  else
    match checkForError d with
    | Some error => [Send (failureMsg packageName error)]
    | None => []
    end.

End Content.

(* ------------------------------------------------------------------ *)
(** ** Coordinator ([extension/background/service-worker.js]) *)

Module ServiceWorker.
Local Open Scope m_scope.

(** [handle404Skip].  When the cursor is past the list the source pushes
    [undefined], which is no package name; the list of names is then left
    as it is. *)
Definition handle404Skip : M unit :=
  s <- get ;;
  (match currentPackage s with
   | Some packageName =>
       modify (fun s => set_skipped (Js.pushUnique (skipped s) packageName) s)
   | None => ret tt
   end) ;;
  modify (fun s => set_currentIndex (S (currentIndex s)) s) ;;
  s <- get ;;
  if List.length (packages s) <=? currentIndex s then
    modify (set_status idle) ;;
    s <- get ;; emit (Persist s)
  else
    emit (Persist s) ;;
    emit (Navigate (accessUrl (nth (currentIndex s) (packages s) ""))).

(** The [tabs.onUpdated] listener for a completed load of [url] titled
    [tabTitle]; [delivered] tells whether the content script took the
    [pageLoaded] message, [probe] is the injected snippet's answer. *)
Definition onTabUpdated (stored : option State) (url tabTitle : string)
           (delivered : bool) (probe : option bool) : list Effect :=
  if negb (Js.strIncludes url "npmjs.com/package/") || negb (Js.strIncludes url "/access")
  then []
  else
    match stored with
    | None => []
    | Some state =>
        if negb (Status_eqb (status state) running) then []
        else
          let is404 := Js.strIncludes tabTitle "404" || Js.strIncludes tabTitle "Not Found"
                       || String.eqb tabTitle "" in
          if is404 then traceOf (handle404Skip state)
          else if delivered then []
          else match probe with
               | Some true => traceOf (handle404Skip state)
               | _ => []
               end
    end.

End ServiceWorker.

(** The record in storage after a component ran with trace [tr]. *)
Definition storedAfter (before : State) (tr : list Effect) : State :=
  last (persisted tr) before.

(* ------------------------------------------------------------------ *)
(** ** Batch checker (the Node script) *)

Module Checker.

(** How [fetch] ends: a response with its HTTP status, or a thrown error. *)
Inductive FetchResult : Type :=
| Response (status : Z)
| FetchError.

Definition CONCURRENCY : nat := 20.

Record Results : Type := mkResults {
  published : list string;
  unpublished : list string
}.

Section Registry.

(** The registry's answer to [fetch(`https://registry.npmjs.org/${name}`)]. *)
Variable fetch : string -> FetchResult.

Definition checkPackageExists (packageName : string) : bool :=
  match fetch packageName with
  | Response status => Z.eqb status 200
  | FetchError => false
  end.

(** [packages.slice(i, j)] *)
Definition slice (i j : nat) (l : list string) : list string :=
  firstn (j - i) (skipn i l).

(** The body of [for (const { pkg, exists } of batchResults)]. *)
Definition record (results : Results) (r : string * bool) : Results :=
  if snd r
  then mkResults (Js.push (published results) (fst r)) (unpublished results)
  else mkResults (published results) (Js.push (unpublished results) (fst r)).

(** [for (let i = 0; i < packages.length; i += CONCURRENCY)]; [None] when
    the fuel runs out before the loop ends. *)
Fixpoint batchLoop (fuel i : nat) (packages : list string) (results : Results)
  : option Results :=
  if i <? List.length packages then
    match fuel with
    | O => None
    | S fuel' =>
        let batch := slice i (i + CONCURRENCY) packages in
        let batchResults := map (fun pkg => (pkg, checkPackageExists pkg)) batch in
        batchLoop fuel' (i + CONCURRENCY) packages (fold_left record batchResults results)
    end
  else Some results.

(** The classification done by [main] on the sorted list of names. *)
Definition classify (packages : list string) : option Results :=
  batchLoop (List.length packages) 0 packages (mkResults [] []).

(** The content written to [unpublished-packages.txt] (nothing is written
    when every package is published). *)
Definition unpublishedFile (results : Results) : option string :=
  if 0 <? List.length (unpublished results)
  then Some (Js.join (String Js.LF EmptyString) (unpublished results)
             ++ String Js.LF EmptyString)%string
  else None.

End Registry.
End Checker.

(* ------------------------------------------------------------------ *)
(** ** Publisher ([scripts/publish-unpublished.sh]) *)

Module Publisher.

(** What the script does to its environment, in order. *)
Inductive ShEffect : Type :=
| Echo (line : string)
| OpItemGet (i : nat)                            (* the i-th call of the secrets CLI *)
| PnpmPublish (pkg otp : string)
| Sleep (seconds : nat)
| WriteFile (path content : string).

Record Result : Type := mkResult {
  trace : list ShEffect;
  SUCCEEDED : list string;
  FAILED : list string;
  exitCode : Z
}.

Definition SLEEP_SECONDS : nat := 5.

Definition showNat (n : nat) : string := NilZero.string_of_uint (Nat.to_uint n).

Definition isIfsBlank (c : ascii) : bool :=
  let n := nat_of_ascii c in Nat.eqb n 32 || Nat.eqb n 9.

Fixpoint dropBlanks (l : list ascii) : list ascii :=
  match l with
  | [] => []
  | c :: t => if isIfsBlank c then dropBlanks t else l
  end.

(** The value [read -r pkg] assigns for one line. *)
Definition readField (line : string) : string :=
  string_of_list_ascii (rev (dropBlanks (rev (dropBlanks (list_ascii_of_string line))))).

(** The values the [while read -r pkg] loop sees: one per line that ends in
    a newline. *)
Definition readLines (content : string) : list string :=
  map readField (removelast (Js.split Js.LF content)).

Definition rule : string := "==========================================".

(** The iterations of the loop over [lines], numbered as [$i] is, after
    [i] iterations have been done. *)
Fixpoint attempts (i : nat) (lines : list string) : list (nat * string) :=
  match lines with
  | [] => []
  | pkg :: rest => (S i, pkg) :: attempts (S i) rest
  end.

(** The publish commands in a trace, as (package, passcode), in order. *)
Fixpoint publishes (tr : list ShEffect) : list (string * string) :=
  match tr with
  | [] => []
  | PnpmPublish pkg otp :: r => (pkg, otp) :: publishes r
  | _ :: r => publishes r
  end.

(** The files written in a trace, as (path, content), in order. *)
Fixpoint writes (tr : list ShEffect) : list (string * string) :=
  match tr with
  | [] => []
  | WriteFile path content :: r => (path, content) :: writes r
  | _ :: r => writes r
  end.

Section Environment.

(** The passcode captured by [$(op item get ...)] in iteration [i]. *)
Variable op : nat -> string.
(** Whether [pnpm ... publish] succeeds in iteration [i]. *)
Variable pnpm : nat -> string -> string -> bool.

(** Whether the publish of attempt [a] (iteration number and package)
    succeeds, and whether it fails. *)
Definition accepted (a : nat * string) : bool := pnpm (fst a) (snd a) (op (fst a)).
Definition rejected (a : nat * string) : bool := negb (accepted a).

(** The loop from iteration [i] on; [tr] and the two arrays are what has
    been done so far.  The commands run in the body are taken not to read
    the loop's standard input (the list file).  The result is [inl] when the loop ran to its end and
    [inr] when the script exited inside it. *)
Fixpoint publishLoop (i TOTAL : nat) (lines : list string)
         (tr : list ShEffect) (succeeded failed : list string) : Result + Result :=
  match lines with
  | [] => inl (mkResult tr succeeded failed 0)
  | pkg :: rest =>
      let i := S i in
      let tr := tr ++ [Echo rule;
                       Echo ("[" ++ showNat i ++ "/" ++ showNat TOTAL ++ "] Publishing " ++ pkg)%string;
                       Echo rule;
                       OpItemGet i] in
      let OTP := op i in
      if String.eqb OTP "" then
        inr (mkResult (tr ++ [Echo "Error: Could not get OTP from 1Password"])
                      succeeded failed 1)
      else
        let tr := tr ++ [PnpmPublish pkg OTP] in
        let ok := pnpm i pkg OTP in
        let tr := tr ++ [Echo ((if ok then "✓ Successfully published "
                                else "✗ Failed to publish ") ++ pkg)%string] in
        let succeeded := if ok then Js.push succeeded pkg else succeeded in
        let failed := if ok then failed else Js.push failed pkg in
        let tr := if i <? TOTAL
                  then tr ++ [Echo ("Waiting " ++ showNat SLEEP_SECONDS ++ "s before next publish...")%string;
                              Sleep SLEEP_SECONDS]
                  else tr in
        publishLoop i TOTAL rest (tr ++ [Echo ""]) succeeded failed
  end.

(** The lines echoed by the block guarded by [${#FAILED[@]} -gt 0]. *)
Definition failedBlock (failed : list string) : list ShEffect :=
  [Echo ""; Echo "Failed packages:"]
  ++ map (fun pkg => Echo ("  - " ++ pkg)%string) failed
  ++ [Echo "";
      Echo "To retry failed packages, run:";
      Echo ("  printf '%s\n' " ++ Js.join " " failed ++ " > failed-packages.txt")%string;
      Echo "  ./tools/npm-trusted-publisher/publish-unpublished.sh failed-packages.txt"].

Definition summary (succeeded failed : list string) : list ShEffect :=
  [Echo rule; Echo "SUMMARY"; Echo rule;
   Echo ("Succeeded: " ++ showNat (List.length succeeded))%string;
   Echo ("Failed: " ++ showNat (List.length failed))%string]
  ++ (if 0 <? List.length failed then failedBlock failed else [])
  ++ [Echo rule].

(** The script: [file] is the content of [$PACKAGES_FILE] ([None] when it
    does not exist), [opInstalled] the outcome of [command -v op]. *)
Definition main (PACKAGES_FILE : string) (file : option string) (opInstalled : bool)
  : Result :=
  match file with
  | None => mkResult [Echo ("Error: " ++ PACKAGES_FILE ++ " not found")%string] [] [] 1
  | Some content =>
      if negb opInstalled then
        mkResult [Echo "Error: 1Password CLI (op) not found. Install it from https://1password.com/downloads/command-line/"]
                 [] [] 1
      else
        let lines := readLines content in
        let TOTAL := List.length lines in
        let tr := [Echo ("Publishing " ++ showNat TOTAL ++ " packages...")%string; Echo ""] in
        match publishLoop 0 TOTAL lines tr [] [] with
        | inr r => r
        | inl r =>
            mkResult (trace r ++ summary (SUCCEEDED r) (FAILED r))
                     (SUCCEEDED r) (FAILED r) 0
        end
  end.

End Environment.
End Publisher.

(* ------------------------------------------------------------------ *)
(** ** Runs of the extension over the shared record

    Every Controller handler ends by storing its copy, and every record
    stored by the Page Agent or the Coordinator replaces the Controller's
    copy through [onStorageChanged]; between two events the Controller's
    copy and the stored record are therefore the same record, and a run
    threads that one record through the events. *)

Module Run.

(** The operations that happen while a run is under way.  [start] and
    [reset] are not among them: they overwrite the record and so begin
    (or abandon) a run. *)
Inductive Op : Type :=
| Pause
| Resume
| Next
| Result (m : Msg.t)                          (* the Controller receives packageResult *)
| Timer                                       (* the Controller's advance timer fires *)
| SaveConfig (f : Popup.Form)
| EditPackages (f : Popup.Form)
| PageLoad (pv : Content.PageView)            (* the Page Agent handles a page load *)
| Observed (d : Content.Document) (pkg : string)   (* the result observer fires *)
| TabUpdated (url tabTitle : string) (delivered : bool) (probe : option bool).

Definition step (op : Op) (s : State) : State :=
  match op with
  | Pause => stateOf (Popup.handlePause s)
  | Resume => stateOf (Popup.handleResume s)
  | Next => stateOf (Popup.handleNext s)
  | Result m => stateOf (Popup.handlePackageResult m s)
  | Timer => stateOf (Popup.advanceTimer s)
  | SaveConfig f => stateOf (Popup.saveConfig f s)
  | EditPackages f => stateOf (Popup.onPackagesChange f s)
  | PageLoad pv => storedAfter s (Content.handlePageLoad (Some s) pv)
  | Observed d pkg => storedAfter s (Content.observerCallback (Some s) d pkg)
  | TabUpdated url tabTitle delivered probe =>
      storedAfter s (ServiceWorker.onTabUpdated (Some s) url tabTitle delivered probe)
  end.

Definition start (f : Popup.Form) (s : State) : State :=
  stateOf (Popup.handleStart f s).

Definition reset (s : State) : State := stateOf (Popup.handleReset s).

Fixpoint run (ops : list Op) (s : State) : State :=
  match ops with
  | [] => s
  | op :: rest => run rest (step op s)
  end.

(** [start] passes both of its validations. *)
Definition startAccepted (f : Popup.Form) : bool :=
  let c := Popup.configOfForm f in
  negb (Nat.eqb (List.length (Popup.parsePackages (Popup.f_packages f))) 0)
  && negb (String.eqb (owner c) "" || String.eqb (repository c) ""
           || String.eqb (workflow c) "").

(** The bucket updates of the three branches of a successful report in
    [handlePackageResult]. *)
Definition bucketsAfterSuccess (m : Msg.t) (s : State) : State :=
  let packageName := Msg.packageName m in
  if Msg.alreadyConfigured m && negb (Msg.completed m) then
    set_completed (Js.without (completed s) packageName)
      (set_skipped (Js.pushUnique (skipped s) packageName) s)
  else if Msg.notFound m then
    set_skipped (Js.pushUnique (skipped s) packageName) s
  else
    set_skipped (Js.without (skipped s) packageName)
      (set_completed (Js.pushUnique (completed s) packageName) s).

(** Whether the Controller advances the cursor on receiving [m]. *)
Definition advancesOn (m : Msg.t) (s : State) : bool :=
  Msg.success m
  && (Msg.alreadyConfigured m || Msg.notFound m
      || (String.eqb (navigationMode (config s)) "auto" && Status_eqb (status s) running))
  && Status_eqb (status s) running.

(** An operation is in step with the cursor when a result that advances
    the cursor reports on the package at the cursor, and the package list
    is not edited under the run. *)
Definition inStep (op : Op) (s : State) : bool :=
  match op with
  | Result m =>
      if advancesOn m s then
        match currentPackage s with
        | Some p => String.eqb (Msg.packageName m) p
        | None => true
        end
      else true
  | EditPackages _ => false
  | _ => true
  end.

Fixpoint allInStep (ops : list Op) (s : State) : bool :=
  match ops with
  | [] => true
  | op :: rest => inStep op s && allInStep rest (step op s)
  end.

(** Completion of a run. *)
Definition atCompletion (s : State) : Prop :=
  status s = idle /\ List.length (packages s) <= currentIndex s.

(** In how many of the three outcome buckets a name is. *)
Definition bucketCount (s : State) (p : string) : nat :=
  (if Js.includes (completed s) p then 1 else 0)
  + (if Js.includes (failed s) p then 1 else 0)
  + (if Js.includes (skipped s) p then 1 else 0).

Definition classified (s : State) (p : string) : bool :=
  Js.includes (completed s) p || Js.includes (failed s) p || Js.includes (skipped s) p.

(** Every name in the list is non-empty, and every package before the
    cursor is in some bucket. *)
Definition processed (s : State) : Prop :=
  (forall p, In p (packages s) -> p <> "")
  /\ (forall i p, i < currentIndex s -> nth_error (packages s) i = Some p ->
                  classified s p = true).

End Run.

(* ------------------------------------------------------------------ *)
(** ** Concrete records, forms, pages and runs used below *)

Module Examples.

(** A run over [a] and [b] that has just been started, in manual mode. *)
Definition started : State :=
  mkState running ["a"; "b"] 0 [] [] [] defaultConfig.

(** A record in which [a] has been skipped and is the package at the cursor. *)
Definition skippedAtCursor : State :=
  mkState running ["a"; "b"] 0 [] [] ["a"] defaultConfig.

(** A record in which [a] has been completed and is the package at the cursor. *)
Definition completedAtCursor : State :=
  mkState running ["a"; "b"] 0 ["a"] [] [] defaultConfig.

(** The popup's inputs with another owner and an empty package area. *)
Definition emptyListForm : Popup.Form :=
  Popup.mkForm "acme" "tools" "release.yml" "" "manual" "false" "2" "".

(** The popup's inputs for a run over [a] and [b], manual and automatic. *)
Definition twoPackages : string := ("a" ++ String Js.LF "b")%string.
Definition manualForm : Popup.Form :=
  Popup.mkForm "dxos" "dxos" "publish-all.yml" "" "manual" "false" "2" twoPackages.
Definition autoForm : Popup.Form :=
  Popup.mkForm "dxos" "dxos" "publish-all.yml" "" "auto" "true" "2" "a".

(** Pages. *)
Definition emptyDocument : Content.Document :=
  Content.mkDocument "" "" false false false [] [] None false false false false [].
Definition packageDocument : Content.Document :=
  Content.mkDocument "a - npm" "a settings" true true true ["GitHub Actions"] [] None
                     false false false false [].
Definition challengeDocument : Content.Document :=
  Content.mkDocument "Just a moment..." "" false false false [] [] None
                     false false false false [].
Definition notFoundDocument : Content.Document :=
  Content.mkDocument "npm" Content.notFoundJson false false false [] [] None
                     false false false false [].
Definition successDocument : Content.Document :=
  Content.mkDocument "a - npm" "a settings" true true true ["Edit"; "Delete"]
                     ["Successfully added trusted publisher"] None
                     false false false false [].

(** A page load on which every look sees the same document [d]. *)
Definition stillPage (path : string) (pkg : option string) (d : Content.Document)
  : Content.PageView :=
  Content.mkPageView path pkg d d d None d d false d false d d false.

Definition challengePage : Content.PageView :=
  stillPage "/package/a/access" (Some "a") challengeDocument.
Definition notFoundPage : Content.PageView :=
  stillPage "/package/a/access" (Some "a") notFoundDocument.

Definition challengeText : string := "Waiting for Cloudflare challenge...".

(** A registry on which only [@dxos/a] exists. *)
Definition onlyA (name : string) : Checker.FetchResult :=
  if String.eqb name "@dxos/a" then Checker.Response 200 else Checker.Response 404.

(** A secrets CLI that always answers, one that answers nothing the second
    time, and a package manager whose publish fails for [b]. *)
Definition passcode (i : nat) : string := "123456".
Definition passcodeOnce (i : nat) : string :=
  if Nat.eqb i 2 then "" else "123456".
Definition publishFailsForB (i : nat) (pkg otp : string) : bool :=
  negb (String.eqb pkg "b").

(** A list file with [a] and [b], one per line. *)
Definition listFile : string :=
  ("a" ++ String Js.LF "b" ++ String Js.LF "")%string.

(** A run in which the form could not be found for [a], the operator had
    the form filled by hand, and the observer then reported success. *)
Definition failedThenCompleted : list Run.Op :=
  [Run.Result (Content.failureMsg "a" "Could not find form fields");
   Run.Result (Content.completedMsg "a")].

(** A run in which [a] is not found: the Page Agent skips it and moves the
    cursor, and the Controller then handles the report the Page Agent sent. *)
Definition notFoundThenReported : list Run.Op :=
  [Run.PageLoad notFoundPage; Run.Result (Content.notFoundMsg "a")].

(** A run in which [a] is not found and the operator presses next on [b]. *)
Definition notFoundThenNext : list Run.Op :=
  [Run.PageLoad notFoundPage; Run.Next].

End Examples.

(* ------------------------------------------------------------------ *)
(** ** Sentences of the specification, as they are written *)

Module Spec.

(** No name is in more than one outcome bucket. *)
Definition exclusive (s : State) : Prop :=
  forall p, Run.bucketCount s p <= 1.

(** "Reclassifying a package ... always removes it from the other bucket":
    an operation that records an outcome leaves no name in two buckets. *)
Definition keepsExclusive (op : Run.Op) : Prop :=
  forall s, exclusive s -> exclusive (Run.step op s).

(** "Given an empty package list, start is rejected before any state
    mutation": the record is what it was and nothing was stored. *)
Definition startRejectedUntouched (f : Popup.Form) (s : State) : Prop :=
  Popup.parsePackages (Popup.f_packages f) = [] ->
  stateOf (Popup.handleStart f s) = s /\
  persisted (traceOf (Popup.handleStart f s)) = [].

(** "next force-marks the current package completed if not already
    classified": the name is pushed exactly when it is in no bucket. *)
Definition nextMarksIffUnclassified (s : State) : Prop :=
  forall p, currentPackage s = Some p ->
    (completed (stateOf (Popup.handleNext s)) = Js.push (completed s) p
     <-> Run.classified s p = false).

(** "at completion every package name appears in exactly one of
    completed/failed/skipped". *)
Definition completeMeansExactlyOne (s : State) : Prop :=
  Run.atCompletion s -> forall p, In p (packages s) -> Run.bucketCount s p = 1.

(** "only add a name to one bucket after a membership check on that
    bucket; they remove nothing": the bucket is what it was, or has one
    name, that was not in it, pushed at its end. *)
Definition onlyAdds (before after : list string) : Prop :=
  after = before
  \/ exists p, Js.includes before p = false /\ after = Js.push before p.


End Spec.

(** Whether the list starts with white space, of one, two or three bytes. *)
Definition startsBlank (two : ascii -> ascii -> bool)
           (three : ascii -> ascii -> ascii -> bool) (l : list ascii) : bool :=
  match l with
  | [] => false
  | a :: t =>
      Js.isWhiteSpace a
      || match t with
         | [] => false
         | b :: u =>
             two a b
             || match u with
                | [] => false
                | c :: _ => three a b c
                end
         end
  end.

Module PopupView.

(** [loadState]: what is put in the input elements from the record.  An
    element is taken to return the string that was assigned to it. *)
Definition formOfState (s : State) : Popup.Form :=
  Popup.mkForm (owner (config s)) (repository (config s)) (workflow (config s))
               (environment (config s)) (navigationMode (config s))
               (if autoSubmit (config s) then "true" else "false")
               (Js.showZ (delay (config s)))
               (Js.join (String Js.LF EmptyString) (packages s)).

(** A name that the package area gives back as it is: trimmed, not empty,
    not a comment line, on one line. *)
Definition cleanName (p : string) : Prop :=
  Js.trim p = p /\ p <> "" /\ Js.startsWith p "#" = false
  /\ ~ In Js.LF (list_ascii_of_string p).

End PopupView.
Module Progress.

(** The cursor moved by one, and the run idle when that was the last
    package: the tail the Page Agent and the Coordinator share. *)
Definition advanced (s : State) : State :=
  let s1 := set_currentIndex (S (currentIndex s)) s in
  if List.length (packages s) <=? S (currentIndex s) then set_status idle s1 else s1.

(** The three buckets hold no name twice. *)
Definition bucketsNoDup (s : State) : Prop :=
  NoDup (completed s) /\ NoDup (failed s) /\ NoDup (skipped s).

(** The cursor is within the list, and on a package while running. *)
Definition cursorInBounds (s : State) : Prop :=
  currentIndex s <= List.length (packages s)
  /\ (status s = running -> currentIndex s < List.length (packages s)).

(** What the popup lets the operator do: [next] only while its button is
    enabled; the package area is left alone during a run. *)
Definition permitted (op : Run.Op) (s : State) : bool :=
  match op with
  | Run.Next => negb (Popup.nextDisabled s)
  | Run.EditPackages _ => false
  | _ => true
  end.

Fixpoint allPermitted (ops : list Run.Op) (s : State) : bool :=
  match ops with
  | [] => true
  | op :: rest => permitted op s && allPermitted rest (Run.step op s)
  end.

(** Whether a trace navigates or arms a timer. *)
Fixpoint schedules (tr : list Effect) : bool :=
  match tr with
  | [] => false
  | Navigate _ :: _ | NavigateAfter _ _ :: _ | SetTimeout _ :: _ => true
  | _ :: r => schedules r
  end.

(** The operations no operator triggers: a report reaching the
    Controller, its advance timer, a page load handled by the Page Agent
    and a tab update handled by the Coordinator. *)
Definition automatic (op : Run.Op) : bool :=
  match op with
  | Run.Result _ | Run.Timer | Run.PageLoad _ | Run.TabUpdated _ _ _ _ => true
  | _ => false
  end.

(** The effects of an operation of a run. *)
Definition effects (op : Run.Op) (s : State) : list Effect :=
  match op with
  | Run.Pause => traceOf (Popup.handlePause s)
  | Run.Resume => traceOf (Popup.handleResume s)
  | Run.Next => traceOf (Popup.handleNext s)
  | Run.Result m => traceOf (Popup.handlePackageResult m s)
  | Run.Timer => traceOf (Popup.advanceTimer s)
  | Run.SaveConfig f => traceOf (Popup.saveConfig f s)
  | Run.EditPackages f => traceOf (Popup.onPackagesChange f s)
  | Run.PageLoad pv => Content.handlePageLoad (Some s) pv
  | Run.Observed d pkg => Content.observerCallback (Some s) d pkg
  | Run.TabUpdated url tabTitle delivered probe =>
      ServiceWorker.onTabUpdated (Some s) url tabTitle delivered probe
  end.

(** What an advancing branch of the Page Agent does after its bucket
    update [x]: store the advanced record, arm the navigation to the next
    package unless the list is exhausted, and send its report. *)
Definition advanceTrace (x : State) (report : Msg.t) : list Effect :=
  Persist (advanced x)
  :: (if List.length (packages x) <=? S (currentIndex x) then []
      else [NavigateAfter 500 (accessUrl (nth (S (currentIndex x)) (packages x) ""))])
  ++ [Send report].

(** The messages sent in a trace. *)
Fixpoint sent (tr : list Effect) : list Msg.t :=
  match tr with
  | [] => []
  | Send m :: r => m :: sent r
  | _ :: r => sent r
  end.

End Progress.

Module MoreExamples.
Import Examples.

(** The popup's inputs with a package list and no owner. *)
Definition noOwnerForm : Popup.Form :=
  Popup.mkForm "  " "dxos" "publish-all.yml" "" "manual" "false" "2" twoPackages.

(** A page on which the trusted publisher of the default configuration is
    set up already. *)
Definition configuredDocument : Content.Document :=
  Content.mkDocument "a - npm" "Trusted publisher dxos/dxos publish-all.yml"
                     true true true ["Edit"; "Delete"] [] None
                     false false false false [].

Definition successPage : Content.PageView :=
  stillPage "/package/a/access" (Some "a") successDocument.
Definition configuredPage : Content.PageView :=
  stillPage "/package/a/access" (Some "a") configuredDocument.
Definition plainPage : Content.PageView :=
  stillPage "/package/a/access" (Some "a") packageDocument.

(** A run over [a] and [b] in delete mode. *)
Definition deleting : State :=
  mkState running ["a"; "b"] 0 [] [] []
          (mkConfig "dxos" "dxos" "publish-all.yml" "" (Some "delete") "manual" false 2).

(** A paused run, and a run with [a] completed and [b] failed. *)
Definition pausedRun : State :=
  mkState paused ["a"; "b"] 1 ["a"] [] [] defaultConfig.
Definition mixedRun : State :=
  mkState running ["a"; "b"; "c"] 2 ["a"] ["b"] [] defaultConfig.

End MoreExamples.

Module PopupUi.

(** What [updateUI] writes into the popup (the width of the progress bar,
    a floating-point percentage, is left out). *)
Record View : Type := mkView {
  startDisabled : bool;
  pauseDisabled : bool;
  resumeDisabled : bool;
  nextDisabled : bool;
  progressText : string;
  currentPackageText : string;
  completedCount : nat;
  skippedCount : nat;
  failedCount : nat;
  pendingCount : nat
}.

Definition updateUI (s : State) : View :=
  let isRunning := Status_eqb (status s) running in
  let isPaused := Status_eqb (status s) paused in
  let isManualMode := String.eqb (navigationMode (config s)) "manual" in
  let total := List.length (packages s) in
  let current := Nat.min (currentIndex s + 1) total in
  mkView isRunning (negb isRunning) (negb isPaused)
         (negb isRunning || negb isManualMode)
         (Publisher.showNat current ++ " of " ++ Publisher.showNat total)%string
         (match currentPackage s with
          | Some currentPkg => currentPkg
          | None => ""
          end)
         (List.length (completed s))
         (List.length (skipped s))
         (List.length (failed s))
         (* Math.max(0, a - b - c - d) *)
         (List.length (packages s) - List.length (completed s)
          - List.length (failed s) - List.length (skipped s)).

(** The items [renderResults] lists for a tab. *)
Definition resultItems (type : string) (s : State) : list string :=
  if String.eqb type "completed" then completed s
  else if String.eqb type "failed" then failed s
  else if String.eqb type "skipped" then skipped s
  else if String.eqb type "pending" then
    filter (fun p => negb (Js.includes (completed s) p)
                     && negb (Js.includes (failed s) p)
                     && negb (Js.includes (skipped s) p)) (packages s)
  else [].

(** The markup [renderResults] produces: one [div] of class [result-item]
    and of the tab's class per item. *)
Definition renderResults (type : string) (s : State) : string :=
  Js.join "" (map (fun pkg => ("<div class=" ++ Content.dq ++ "result-item " ++ type
                               ++ Content.dq ++ ">" ++ pkg ++ "</div>")%string)
                  (resultItems type s)).

End PopupUi.

Module PublisherTrace.
Import Publisher.

(** The seconds slept in a trace. *)
Fixpoint slept (tr : list ShEffect) : nat :=
  match tr with
  | [] => 0
  | Sleep n :: r => n + slept r
  | _ :: r => slept r
  end.

(** The calls of the secrets CLI in a trace. *)
Fixpoint opCalls (tr : list ShEffect) : list nat :=
  match tr with
  | [] => []
  | OpItemGet i :: r => i :: opCalls r
  | _ :: r => opCalls r
  end.

(** A line that [read -r] gives back as it is: no blank at either end,
    no line feed inside. *)
Definition plainLine (p : string) : Prop :=
  readField p = p /\ ~ In Js.LF (list_ascii_of_string p).

End PublisherTrace.

(* ------------------------------------------------------------------ *)
(** ** Batch checker: which packages are probed (the Node script's [main]) *)

Module CheckerMain.

(** An entry of the package manager's JSON listing. *)
Record Listed : Type := mkListed {
  name : option string;        (* p.name, possibly undefined *)
  path : string                (* p.path *)
}.

Section Manifests.

(** [manifest dir] is [None] when [dir/package.json] does not exist, and
    otherwise tells whether its [private] property is exactly [true].
    Every manifest that exists is taken to parse. *)
Variable manifest : string -> option bool.

(** [JSON.parse(output).filter((p) => p.name?.startsWith('@dxos/'))], as
    (name, path) pairs. *)
Definition packagesData (listing : list Listed) : list (string * string) :=
  flat_map (fun p => match name p with
                     | Some n => if Js.startsWith n "@dxos/" then [(n, path p)] else []
                     | None => []
                     end) listing.

Definition isPrivate (pkg : string * string) : bool :=
  match manifest (snd pkg) with
  | Some true => true
  | _ => false
  end.

(** The loop that double-checks the private flag: [(packages,
    skippedPrivate)] before [packages.sort()]. *)
Definition select (listing : list Listed) : list string * list string :=
  fold_left (fun acc pkg =>
               if isPrivate pkg then (fst acc, Js.push (snd acc) (fst pkg))
               else (Js.push (fst acc) (fst pkg), snd acc))
            (packagesData listing) ([], []).

End Manifests.
End CheckerMain.

(* ------------------------------------------------------------------ *)
(** ** Shell checker ([scripts/check-unpublished.sh]) *)

Module ShellChecker.

(** How [curl -s -o /dev/null -w "%{http_code}"] ends: with the status
    code it printed, or with a non-zero exit status of its own. *)
Inductive Curl : Type :=
| HttpCode (code : string)
| CurlFailed (exitStatus : Z).

Inductive ShEffect : Type :=
| Echo (line : string)
| Printf (text : string)
| NpmView (pkg : string)
| CurlProbe (pkg : string)
| FindDir (pkg : string)
| WriteFile (path content : string).

Record Lists : Type := mkLists {
  PUBLISHED : list string;
  UNPUBLISHED : list string;
  ERRORS : list string
}.

(** The script ran to its end, or [set -e] ended it. *)
Inductive Outcome : Type :=
| Completed (tr : list ShEffect) (l : Lists)
| Aborted (tr : list ShEffect) (exitStatus : Z).

Definition rule : string := "============================================".
Definition CR : string := String (ascii_of_nat 13) EmptyString.
Definition LFs : string := String Js.LF EmptyString.

(** [$TOTAL]: the lines [echo "$PACKAGES" | wc -l] counts; an empty list
    still echoes one (empty) line. *)
Definition total (names : list string) : nat :=
  match names with
  | [] => 1
  | _ => List.length names
  end.

Section Environment.

Variable npmView : string -> bool.          (* npm view "$pkg" version succeeds *)
Variable curl : string -> Curl.
Variable pkgDir : string -> string.         (* $PKG_DIR, empty when none is found *)

(** The [for pkg in $PACKAGES] loop from iteration [i] on.  The names are
    the lines of [$PACKAGES], each taken to be one word without glob
    characters, as package names are. *)
Fixpoint checkLoop (i TOTAL : nat) (names : list string)
         (tr : list ShEffect) (l : Lists) : Outcome :=
  match names with
  | [] => Completed tr l
  | pkg :: rest =>
      let i := S i in
      let tr := tr ++ [Printf (CR ++ "[" ++ Publisher.showNat i ++ "/"
                               ++ Publisher.showNat TOTAL ++ "] Checking " ++ pkg
                               ++ "...                    ")%string;
                       NpmView pkg] in
      if npmView pkg then
        checkLoop i TOTAL rest tr
                  (mkLists (Js.push (PUBLISHED l) pkg) (UNPUBLISHED l) (ERRORS l))
      else
        let tr := tr ++ [CurlProbe pkg] in
        match curl pkg with
        | CurlFailed exitStatus => Aborted tr exitStatus
        | HttpCode HTTP_STATUS =>
            if String.eqb HTTP_STATUS "404" then
              checkLoop i TOTAL rest tr
                        (mkLists (PUBLISHED l) (Js.push (UNPUBLISHED l) pkg) (ERRORS l))
            else if String.eqb HTTP_STATUS "200" then
              checkLoop i TOTAL rest tr
                        (mkLists (Js.push (PUBLISHED l) pkg) (UNPUBLISHED l) (ERRORS l))
            else
              checkLoop i TOTAL rest tr
                        (mkLists (PUBLISHED l) (UNPUBLISHED l)
                                 (Js.push (ERRORS l)
                                          (pkg ++ " (HTTP " ++ HTTP_STATUS ++ ")")%string))
        end
  end.

(** The content [printf '%s\n' "${UNPUBLISHED[@]}"] writes. *)
Definition printfLines (l : list string) : string :=
  fold_right (fun p rest => (p ++ LFs ++ rest)%string) "" l.

Definition option2 (pkg : string) : list ShEffect :=
  FindDir pkg ::
  (if String.eqb (pkgDir pkg) "" then []
   else [Echo ("  # " ++ pkg)%string;
         Echo ("  cd " ++ pkgDir pkg
               ++ " && pnpm publish --no-git-checks --access public && cd -")%string;
         Echo ""]).

Definition unpublishedBlock (unpublished : list string) : list ShEffect :=
  [Echo rule; Echo "UNPUBLISHED PACKAGES"; Echo rule]
  ++ map (fun pkg => Echo ("  " ++ pkg)%string) unpublished
  ++ [Echo ""; Echo rule; Echo "TO PUBLISH THESE PACKAGES"; Echo rule; Echo "";
      Echo "Option 1: Publish all unpublished packages:"; Echo "";
      Echo ("  for pkg in " ++ Js.join " " unpublished ++ "; do")%string;
      Echo ("    pnpm --filter " ++ Content.dq ++ "$pkg" ++ Content.dq
            ++ " publish --no-git-checks --access public")%string;
      Echo "  done"; Echo "";
      Echo "Option 2: Publish individually (run from package directory):"; Echo ""]
  ++ flat_map option2 unpublished
  ++ [Echo ""; Echo "Saving unpublished package list to: unpublished-packages.txt";
      WriteFile "unpublished-packages.txt" (printfLines unpublished)].

Definition errorsBlock (errors : list string) : list ShEffect :=
  [Echo ""; Echo rule; Echo "ERRORS (could not determine status)"; Echo rule]
  ++ map (fun err => Echo ("  " ++ err)%string) errors.

Definition report (l : Lists) : list ShEffect :=
  [Echo ""; Echo ""; Echo rule; Echo "RESULTS"; Echo rule; Echo "";
   Echo ("Published packages: " ++ Publisher.showNat (List.length (PUBLISHED l)))%string;
   Echo ("Unpublished packages: " ++ Publisher.showNat (List.length (UNPUBLISHED l)))%string]
  ++ (if 0 <? List.length (ERRORS l)
      then [Echo ("Errors: " ++ Publisher.showNat (List.length (ERRORS l)))%string]
      else [])
  ++ [Echo ""]
  ++ (if 0 <? List.length (UNPUBLISHED l) then unpublishedBlock (UNPUBLISHED l) else [])
  ++ (if 0 <? List.length (ERRORS l) then errorsBlock (ERRORS l) else []).

(** The script, from the list of names the first pipeline produced. *)
Definition main (names : list string) : Outcome :=
  let TOTAL := total names in
  let tr := [Echo "Fetching list of publishable packages...";
             Echo ("Found " ++ Publisher.showNat TOTAL ++ " packages to check.")%string;
             Echo ""] in
  match checkLoop 0 TOTAL names tr (mkLists [] [] []) with
  | Aborted tr exitStatus => Aborted tr exitStatus
  | Completed tr l => Completed (tr ++ report l) l
  end.

(** The verdict on one name. *)
Definition isPublished (pkg : string) : bool :=
  npmView pkg || match curl pkg with
                 | HttpCode c => String.eqb c "200"
                 | CurlFailed _ => false
                 end.
Definition isUnpublished (pkg : string) : bool :=
  negb (npmView pkg) && match curl pkg with
                        | HttpCode c => String.eqb c "404"
                        | CurlFailed _ => false
                        end.
Definition isError (pkg : string) : bool :=
  negb (npmView pkg) && match curl pkg with
                        | HttpCode c => negb (String.eqb c "404") && negb (String.eqb c "200")
                        | CurlFailed _ => false
                        end.
Definition curlFails (pkg : string) : bool :=
  negb (npmView pkg) && match curl pkg with
                        | HttpCode _ => false
                        | CurlFailed _ => true
                        end.
Definition errorText (pkg : string) : string :=
  match curl pkg with
  | HttpCode c => (pkg ++ " (HTTP " ++ c ++ ")")%string
  | CurlFailed _ => pkg
  end.

End Environment.

(** The files written and the probes made in a trace. *)
Fixpoint writes (tr : list ShEffect) : list (string * string) :=
  match tr with
  | [] => []
  | WriteFile path content :: r => (path, content) :: writes r
  | _ :: r => writes r
  end.

Fixpoint curlProbes (tr : list ShEffect) : list string :=
  match tr with
  | [] => []
  | CurlProbe pkg :: r => pkg :: curlProbes r
  | _ :: r => curlProbes r
  end.

End ShellChecker.

Module ScriptExamples.

Definition listing : list CheckerMain.Listed :=
  [CheckerMain.mkListed (Some "@dxos/a") "packages/a";
   CheckerMain.mkListed (Some "left-pad") "vendor/left-pad";
   CheckerMain.mkListed None "packages/x";
   CheckerMain.mkListed (Some "@dxos/secret") "packages/secret";
   CheckerMain.mkListed (Some "@dxos/b") "packages/b"].

Definition manifests (dir : string) : option bool :=
  if String.eqb dir "packages/secret" then Some true
  else if String.eqb dir "packages/b" then None else Some false.

Definition names : list string := ["@dxos/a"; "@dxos/b"; "@dxos/c"].
Definition npmKnowsA (pkg : string) : bool := String.eqb pkg "@dxos/a".
Definition curlSays (pkg : string) : ShellChecker.Curl :=
  if String.eqb pkg "@dxos/b" then ShellChecker.HttpCode "404"
  else ShellChecker.HttpCode "503".
Definition curlDown (pkg : string) : ShellChecker.Curl :=
  if String.eqb pkg "@dxos/b" then ShellChecker.CurlFailed 7
  else ShellChecker.HttpCode "404".
Definition noDir (pkg : string) : string := "".

Definition unpublishedAB : Checker.Results :=
  Checker.mkResults [] ["@dxos/a"; "@dxos/b"].

End ScriptExamples.

(* ------------------------------------------------------------------ *)
(** ** Page Agent: the package name in the address *)

Module ContentUrl.

(** The line terminators, which the dot of a regular expression does not
    match: LF and CR, and U+2028 and U+2029 by their three bytes. *)
Definition isLineTerminator (c : ascii) : bool :=
  let n := nat_of_ascii c in Nat.eqb n 10 || Nat.eqb n 13.

Definition isLineTerminator3 (a b c : ascii) : bool :=
  Nat.eqb (nat_of_ascii a) 226 && Nat.eqb (nat_of_ascii b) 128
  && (Nat.eqb (nat_of_ascii c) 168 || Nat.eqb (nat_of_ascii c) 169).

(** Whether [s] starts with a line terminator. *)
Definition atLineTerminator (s : string) : bool :=
  match s with
  | String a (String b (String c _)) => isLineTerminator a || isLineTerminator3 a b c
  | String a _ => isLineTerminator a
  | EmptyString => false
  end.

(** [s] without the leading [p], when it starts with it. *)
Fixpoint stripPrefix (p s : string) : option string :=
  match p with
  | EmptyString => Some s
  | String a p' =>
      match s with
      | EmptyString => None
      | String b s' => if Ascii.eqb a b then stripPrefix p' s' else None
      end
  end.

(** [(.+?)\/access] at the start of [s]: the shortest non-empty run of
    characters, none a line terminator, that is followed by [/access]. *)
Fixpoint lazyUntilAccess (s : string) : option string :=
  match s with
  | EmptyString => None
  | String c t =>
      if atLineTerminator s then None
      else if String.prefix "/access" t then Some (String c EmptyString)
      else option_map (String c) (lazyUntilAccess t)
  end.

(** The capture of [/\/package\/(.+?)\/access/] matched at the start of [s]. *)
Definition matchAt (s : string) : option string :=
  match stripPrefix "/package/" s with
  | Some rest => lazyUntilAccess rest
  | None => None
  end.

(** [s.match(/\/package\/(.+?)\/access/)]: the capture of the leftmost match. *)
Fixpoint firstMatch (s : string) : option string :=
  match matchAt s with
  | Some capture => Some capture
  | None =>
      match s with
      | EmptyString => None
      | String _ t => firstMatch t
      end
  end.

Section Decoding.

(** [decodeURIComponent], taken not to throw. *)
Variable decodeURIComponent : string -> string.

Definition getPackageName (pathname : string) : option string :=
  option_map decodeURIComponent (firstMatch pathname).

End Decoding.

(** *** The pathname of an address

    [window.location.pathname] is what the URL parser of the browser makes
    of the address the tab was sent to.  What follows is the parser of the
    URL Standard for an [https] address, from the end of the host on. *)

Definition isC0ControlOrSpace (c : ascii) : bool := Nat.leb (nat_of_ascii c) 32.

Definition isTabOrNewline (c : ascii) : bool :=
  let n := nat_of_ascii c in Nat.eqb n 9 || Nat.eqb n 10 || Nat.eqb n 13.

Fixpoint dropWhile (f : ascii -> bool) (l : list ascii) : list ascii :=
  match l with
  | [] => []
  | c :: t => if f c then dropWhile f t else l
  end.

(** The parser first drops the C0 controls and spaces at both ends of its
    input, then every tab and newline in it. *)
Definition preprocess (input : string) : string :=
  string_of_list_ascii
    (filter (fun c => negb (isTabOrNewline c))
       (rev (dropWhile isC0ControlOrSpace
               (rev (dropWhile isC0ControlOrSpace (list_ascii_of_string input)))))).

(** The path percent-encode set, on the bytes of the text: the C0 controls
    and the space, every byte from 127 up (DEL, and the bytes of the code
    points beyond it), and the characters double quote, [#], [<], [>],
    [?], [^], the backquote, [{] and [}]. *)
Definition inPathPercentEncodeSet (c : ascii) : bool :=
  let n := nat_of_ascii c in
  Nat.leb n 32 || Nat.leb 127 n || Nat.eqb n 34 || Nat.eqb n 35 || Nat.eqb n 60
  || Nat.eqb n 62 || Nat.eqb n 63 || Nat.eqb n 94 || Nat.eqb n 96 || Nat.eqb n 123
  || Nat.eqb n 125.

Definition hexDigit (n : nat) : ascii :=
  ascii_of_nat (if n <? 10 then 48 + n else 55 + n).

(** [%] and the two upper-case hexadecimal digits of the byte. *)
Definition percentEncode (c : ascii) : string :=
  let n := nat_of_ascii c in
  String "%" (String (hexDigit (n / 16)) (String (hexDigit (n mod 16)) EmptyString)).

Definition encodePathByte (c : ascii) : string :=
  if inPathPercentEncodeSet c then percentEncode c else String c EmptyString.

(** Single-dot and double-dot path segments, [%2e] standing for a dot
    whatever the case of its letter. *)
Definition isSingleDot (segment : string) : bool :=
  String.eqb segment "." || String.eqb (Js.toLowerCase segment) "%2e".

Definition isDoubleDot (segment : string) : bool :=
  let l := Js.toLowerCase segment in
  String.eqb l ".." || String.eqb l ".%2e" || String.eqb l "%2e."
  || String.eqb l "%2e%2e".

Definition isSlash (c : ascii) : bool :=
  let n := nat_of_ascii c in Nat.eqb n 47 || Nat.eqb n 92.

Definition endsPath (c : ascii) : bool :=
  let n := nat_of_ascii c in Nat.eqb n 63 || Nat.eqb n 35.

(** What the path state does with the segment in [buffer] when it meets a
    slash ([slash] true), or the end of the path. *)
Definition closeSegment (path : list string) (buffer : string) (slash : bool)
  : list string :=
  if isDoubleDot buffer then
    if slash then removelast path else removelast path ++ [""]
  else if isSingleDot buffer then
    if slash then path else path ++ [""]
  else path ++ [buffer].

(** The path state: a slash or a backslash ends a segment, [?] and [#] end
    the path, any other byte goes to the buffer, percent-encoded if need
    be. *)
Fixpoint pathState (s : string) (path : list string) (buffer : string)
  : list string :=
  match s with
  | EmptyString => closeSegment path buffer false
  | String c t =>
      if isSlash c then pathState t (closeSegment path buffer true) ""
      else if endsPath c then closeSegment path buffer false
      else pathState t path (buffer ++ encodePathByte c)
  end.

(** The path, serialized: a slash before each segment. *)
Definition serializePath (path : list string) : string :=
  fold_right (fun segment rest => ("/" ++ segment ++ rest)%string) "" path.

(** [new URL(url).pathname] for an address written as
    [https://www.npmjs.com] followed by nothing, a path, a query or a
    fragment, which is how the Controller writes every address it opens;
    [None] for an address written otherwise. *)
Definition pathname (url : string) : option string :=
  match stripPrefix "https://www.npmjs.com" (preprocess url) with
  | None => None
  | Some EmptyString => Some (serializePath (pathState "" [] ""))
  | Some (String c t as rest) =>
      if isSlash c then Some (serializePath (pathState t [] ""))
      else if endsPath c then Some (serializePath (pathState rest [] ""))
      else None
  end.

(** A byte the parser copies to the path as it is, other than the
    backslash, which it reads as a slash, and the percent sign, which can
    spell a dot: a printable ASCII character other than the space, the
    double quote and [# % < > ? \ ^ ` { }]. *)
Definition isPathLiteral (c : ascii) : bool :=
  negb (inPathPercentEncodeSet c)
  && negb (Nat.eqb (nat_of_ascii c) 92) && negb (Nat.eqb (nat_of_ascii c) 37).

(** The path of the access page of [pkg], when the parser leaves the name
    as it is. *)
Definition accessPath (pkg : string) : string :=
  ("/package/" ++ pkg ++ "/access")%string.

End ContentUrl.

(* ================================================================== *)
(** * Properties *)

(** ** Arrays of names *)

Section ArrayFacts.
Implicit Types (l : list string) (x y : string).

Lemma includes_In l x : Js.includes l x = true <-> In x l.
Proof.
  unfold Js.includes. rewrite existsb_exists. split.
  - intros [y [Hy He]]. apply String.eqb_eq in He. now subst.
  - intros H. exists x. split; [assumption | apply String.eqb_refl].
Qed.

Lemma includes_false l x : Js.includes l x = false <-> ~ In x l.
Proof.
  rewrite <- includes_In. destruct (Js.includes l x); split; congruence.
Qed.

Lemma push_In l x y : In y (Js.push l x) <-> In y l \/ y = x.
Proof.
  unfold Js.push. rewrite in_app_iff. cbn. intuition congruence.
Qed.

Lemma pushUnique_In l x y : In y (Js.pushUnique l x) <-> In y l \/ y = x.
Proof.
  unfold Js.pushUnique. destruct (Js.includes l x) eqn:E.
  - apply includes_In in E. split; [tauto | intros [H | ->]; assumption].
  - apply push_In.
Qed.

Lemma without_In l x y : In y (Js.without l x) <-> In y l /\ y <> x.
Proof.
  unfold Js.without. rewrite filter_In, negb_true_iff, String.eqb_neq. tauto.
Qed.

Lemma includes_pushUnique l x y :
  Js.includes (Js.pushUnique l x) y = Js.includes l y || String.eqb y x.
Proof.
  apply eq_true_iff_eq.
  rewrite orb_true_iff, !includes_In, pushUnique_In, String.eqb_eq. tauto.
Qed.

Lemma includes_push l x y :
  Js.includes (Js.push l x) y = Js.includes l y || String.eqb y x.
Proof.
  apply eq_true_iff_eq.
  rewrite orb_true_iff, !includes_In, push_In, String.eqb_eq. tauto.
Qed.

Lemma includes_without l x y :
  Js.includes (Js.without l x) y = Js.includes l y && negb (String.eqb y x).
Proof.
  apply eq_true_iff_eq.
  rewrite andb_true_iff, !includes_In, without_In, negb_true_iff, String.eqb_neq. tauto.
Qed.

End ArrayFacts.

(** Unfolding of the state-passing combinators, and case analysis on the
    conditions a handler branches on. *)
Ltac unfold_m :=
  unfold stateOf, traceOf, storedAfter, bind, ret, get, modify, emit,
    Popup.showStatus, Popup.updateUI, Popup.saveState, Content.send in *.

Ltac atom c :=
  lazymatch c with
  | negb ?x => atom x
  | andb ?x _ => atom x
  | orb ?x _ => atom x
  | _ => c
  end.

Ltac break_if :=
  match goal with
  | |- context [if ?c then _ else _] =>
      lazymatch c with
      | context [if _ then _ else _] => fail
      | context [match _ with _ => _ end] => fail
      | _ => let a := atom c in destruct a eqn:?
      end
  | |- context [match ?c with _ => _ end] =>
      lazymatch c with
      | context [if _ then _ else _] => fail
      | context [match _ with _ => _ end] => fail
      | _ => let a := atom c in destruct a eqn:?
      end
  end.

Ltac cbn_m :=
  cbn -[String.append String.eqb Js.includes Js.pushUnique Js.push Js.without
        Js.trim Js.strIncludes Nat.leb Nat.ltb Nat.eqb Js.showZ accessUrl nth
        Popup.parsePackages Popup.configOfForm
        Content.isNotFoundPage Content.hasTurnstileChallenge Content.checkForSuccess
        Content.checkForError Content.isAlreadyConfigured Content.hasDeleteButton
        Content.clickDeleteButton Content.clickSetupButton
        Content.clickGitHubActionsButton Content.fillForm Content.isAccessPage].

Ltac unfold_handlers :=
  unfold Run.step, Run.start, Run.reset,
    Popup.handlePause, Popup.handleResume, Popup.handleNext, Popup.handleReset,
    Popup.handlePackageResult, Popup.advanceTimer, Popup.saveConfig,
    Popup.onPackagesChange, Popup.processCurrentPackage,
    Content.handlePageLoad, Content.handlePageLoadBody, Content.deleteMode,
    Content.configureMode, Content.advance, Content.setupSuccessObserver,
    Content.observerCallback,
    ServiceWorker.onTabUpdated, ServiceWorker.handle404Skip in *.

Ltac crunch :=
  unfold_m; repeat (cbn_m; break_if); cbn_m; try congruence.

(** ** Controller: closed forms of the handlers *)

Section ControllerFacts.
Import Popup.

Lemma processCurrentPackage_state s :
  stateOf (processCurrentPackage s) =
  if Status_eqb (status s) running && (List.length (packages s) <=? currentIndex s)
  then set_status idle s else s.
Proof. unfold processCurrentPackage. crunch; reflexivity. Qed.

Lemma handleNext_state s :
  stateOf (handleNext s) =
  let pushed :=
    match currentPackage s with
    | Some currentPkg =>
        if Js.truthy (Some currentPkg)
           && negb (Js.includes (completed s) currentPkg)
           && negb (Js.includes (failed s) currentPkg)
        then set_completed (Js.push (completed s) currentPkg) s else s
    | None => s
    end in
  let moved := set_currentIndex (S (currentIndex s)) pushed in
  if List.length (packages s) <=? S (currentIndex s)
  then set_status idle moved else moved.
Proof. unfold handleNext, processCurrentPackage. crunch; reflexivity. Qed.

Lemma handleNext_navigations s :
  Status_eqb (status s) running = true ->
  navigations (traceOf (handleNext s)) =
  if List.length (packages s) <=? S (currentIndex s) then []
  else [accessUrl (nth (S (currentIndex s)) (packages s) "")].
Proof.
  intros Hrun. unfold handleNext, processCurrentPackage. crunch; reflexivity.
Qed.

Lemma handlePackageResult_failure s m :
  Msg.success m = false ->
  stateOf (handlePackageResult m s) =
  set_failed (Js.pushUnique (failed s) (Msg.packageName m)) s.
Proof. intros H. unfold handlePackageResult. rewrite H. crunch; reflexivity. Qed.

Lemma handlePackageResult_success s m :
  Msg.success m = true ->
  stateOf (handlePackageResult m s) =
  let s1 := Run.bucketsAfterSuccess m s in
  if Run.advancesOn m s then
    let s2 := set_currentIndex (S (currentIndex s)) s1 in
    if S (currentIndex s) <? List.length (packages s) then s2
    else set_status idle s2
  else s1.
Proof.
  intros H. unfold handlePackageResult, Run.advancesOn, Run.bucketsAfterSuccess.
  rewrite H. crunch; reflexivity.
Qed.

End ControllerFacts.

(** ** The Controller's commands *)

Section ControllerCommands.
Import Popup Examples.

(** C6, as written, fails: [a] is already classified (skipped), and [next]
    still pushes it on [completed]. *)
Lemma next_marks_a_skipped_package :
  nextDisabled skippedAtCursor = false /\
  ~ Spec.nextMarksIffUnclassified skippedAtCursor.
Proof.
  split; [reflexivity |].
  intros H. specialize (H "a" eq_refl).
  destruct H as [H _]. specialize (H eq_refl). discriminate H.
Qed.

(** C6, amended: with the button enabled (the run is running, in manual
    mode), [next] pushes the package at the cursor on [completed] exactly
    when it is a non-empty name that is neither in [completed] nor in
    [failed] ([skipped] is not consulted); it leaves [failed] and [skipped]
    alone, moves the cursor by one, and then either goes idle without
    navigating (cursor at the end) or stays running and navigates to the
    next package's URL. *)
Theorem next_marks_unless_completed_or_failed s :
  nextDisabled s = false ->
  let s' := stateOf (handleNext s) in
  completed s' =
    match currentPackage s with
    | Some p =>
        if negb (String.eqb p "") && negb (Js.includes (completed s) p)
           && negb (Js.includes (failed s) p)
        then completed s ++ [p] else completed s
    | None => completed s
    end
  /\ failed s' = failed s /\ skipped s' = skipped s
  /\ currentIndex s' = S (currentIndex s)
  /\ (if List.length (packages s) <=? S (currentIndex s)
      then status s' = idle /\ navigations (traceOf (handleNext s)) = []
      else status s' = running
           /\ navigations (traceOf (handleNext s)) =
              [accessUrl (nth (S (currentIndex s)) (packages s) "")]).
Proof.
  intros Hen s'. unfold nextDisabled in Hen.
  apply orb_false_iff in Hen. destruct Hen as [Hrun _].
  apply negb_false_iff in Hrun.
  assert (Hst : status s = running) by (destruct (status s); cbn in Hrun; congruence).
  pose proof (handleNext_navigations s Hrun) as Hnav.
  subst s'. rewrite handleNext_state.
  destruct (List.length (packages s) <=? S (currentIndex s)); rewrite Hnav;
    destruct (currentPackage s) as [p |]; cbn -[String.eqb Js.includes];
    try destruct (negb (String.eqb p "") && negb (Js.includes (completed s) p)
                  && negb (Js.includes (failed s) p));
    cbn -[accessUrl]; repeat split; auto.
Qed.

Lemma next_marks_unless_completed_or_failed_witness :
  nextDisabled started = false
  /\ completed (stateOf (handleNext started)) = ["a"]
  /\ currentIndex (stateOf (handleNext started)) = 1.
Proof.
  destruct (next_marks_unless_completed_or_failed started eq_refl)
    as (Hc & _ & _ & Hi & _).
  split; [reflexivity | split; [exact Hc | exact Hi]].
Defined.

End ControllerCommands.

(** ** The Controller's start command *)

Section StartCommand.
Import Popup Examples.

(** C3, as written, fails: with an empty package area [start] has already
    overwritten and stored the configuration when it rejects. *)
Lemma start_rejected_after_config_saved :
  parsePackages (f_packages emptyListForm) = [] /\
  ~ Spec.startRejectedUntouched emptyListForm defaultState.
Proof.
  split; [reflexivity |].
  intros H. destruct (H eq_refl) as [_ Hp]. discriminate Hp.
Qed.

(** C3, amended: when the parsed package list is empty, [start] is rejected
    with an error status line before status, cursor and outcome buckets are
    touched and without navigating; the configuration, however, has already
    been replaced by the form's values and stored (with the old package
    list), and the Controller's copy of the package list is the empty
    parsed list. *)
Theorem start_rejected_keeps_progress f s :
  parsePackages (f_packages f) = [] ->
  let r := handleStart f s in
  status (stateOf r) = status s
  /\ currentIndex (stateOf r) = currentIndex s
  /\ completed (stateOf r) = completed s
  /\ failed (stateOf r) = failed s
  /\ skipped (stateOf r) = skipped s
  /\ config (stateOf r) = configOfForm f
  /\ packages (stateOf r) = []
  /\ persisted (traceOf r) = [set_config (configOfForm f) s]
  /\ navigations (traceOf r) = []
  /\ In (ShowStatus "Please enter at least one package" "error") (traceOf r).
Proof.
  intros H r. subst r. unfold handleStart, saveConfig. unfold_m. cbn_m.
  rewrite H. cbn. intuition.
Qed.

Lemma start_rejected_keeps_progress_witness :
  parsePackages (f_packages emptyListForm) = []
  /\ status (stateOf (handleStart emptyListForm Examples.started)) = running
  /\ owner (config (stateOf (handleStart emptyListForm Examples.started))) = "acme".
Proof.
  pose proof (start_rejected_keeps_progress emptyListForm Examples.started eq_refl)
    as (Hs & _ & _ & _ & _ & Hc & _).
  split; [reflexivity | split; [exact Hs | now rewrite Hc]].
Defined.

End StartCommand.

(** ** Reports from the Page Agent *)

Section PackageResults.
Import Popup Examples.

Lemma buckets_of_packageResult s m :
  Msg.success m = true ->
  completed (stateOf (handlePackageResult m s)) = completed (Run.bucketsAfterSuccess m s)
  /\ skipped (stateOf (handlePackageResult m s)) = skipped (Run.bucketsAfterSuccess m s)
  /\ failed (stateOf (handlePackageResult m s)) = failed s.
Proof.
  intros H. rewrite (handlePackageResult_success s m H).
  unfold Run.bucketsAfterSuccess.
  destruct (Run.advancesOn m s), (S (currentIndex s) <? List.length (packages s)),
    (Msg.alreadyConfigured m && negb (Msg.completed m)), (Msg.notFound m);
    cbn; auto.
Qed.

Lemma exclusive_one_bucket l p : (if Js.includes l p then 1 else 0) + 0 + 0 <= 1.
Proof. destruct (Js.includes l p); lia. Qed.

(** C1, as written, fails: the not-found branch of the Controller, its
    [next] command and the observer's direct write each put [a] in a second
    bucket without taking it out of the first. *)
Lemma outcome_recorded_without_removal :
  ~ Spec.keepsExclusive (Run.Result (Content.notFoundMsg "a"))
  /\ ~ Spec.keepsExclusive Run.Next
  /\ ~ Spec.keepsExclusive (Run.Observed successDocument "a").
Proof.
  repeat split; intros H.
  - assert (E : Spec.exclusive completedAtCursor).
    { intros p. unfold Run.bucketCount. cbn -[Js.includes].
      change (Js.includes [] p) with false. apply exclusive_one_bucket. }
    specialize (H _ E "a"). vm_compute in H. lia.
  - assert (E : Spec.exclusive skippedAtCursor).
    { intros p. unfold Run.bucketCount. cbn -[Js.includes].
      change (Js.includes [] p) with false.
      destruct (Js.includes ["a"] p); cbn; lia. }
    specialize (H _ E "a"). vm_compute in H. lia.
  - assert (E : Spec.exclusive skippedAtCursor).
    { intros p. unfold Run.bucketCount. cbn -[Js.includes].
      change (Js.includes [] p) with false.
      destruct (Js.includes ["a"] p); cbn; lia. }
    specialize (H _ E "a"). vm_compute in H. lia.
Qed.

(** Whatever its [waiting] flag says, a report with [success] false puts
    its package in [failed]. *)
Lemma unsuccessful_report_fails_package s m :
  Msg.success m = false ->
  In (Msg.packageName m) (failed (stateOf (handlePackageResult m s))).
Proof.
  intros H. rewrite (handlePackageResult_failure s m H). cbn.
  apply pushUnique_In. now right.
Qed.

(** C2 (the code departs from it): on a challenge page the Page Agent sends
    the waiting report, waits and runs again, and the Controller, on
    receiving that very report, puts the current package in [failed]. *)
Theorem waiting_report_lands_in_failed :
  Content.handlePageLoad (Some started) challengePage =
    [Send (Content.waitingMsg "a" challengeText); AwaitChallenge; Rerun]
  /\ failed started = []
  /\ failed (stateOf (handlePackageResult (Content.waitingMsg "a" challengeText) started))
     = ["a"].
Proof. repeat split; reflexivity. Qed.

End PackageResults.

(** ** The challenge wait *)

Section ChallengeWait.
Import Content.

Lemma checkChallenge_ends challengeAt fuel k :
  1 <= fuel -> 242 <= fuel + k ->
  exists cleared looks,
    checkChallenge fuel challengeAt k = Some (cleared, looks)
    /\ k <= looks /\ looks <= Nat.max k 241
    /\ (if cleared then challengeAt looks = false
        else (challengeTimeout < 500 * Z.of_nat looks)%Z).
Proof.
  revert k. induction fuel as [| fuel IH]; intros k Hf Hk; [lia |].
  cbn -[Z.mul Z.ltb Z.of_nat]. destruct (challengeAt k) eqn:Ec; cbn -[Z.mul Z.ltb Z.of_nat].
  - unfold challengeTimeout in *.
    destruct (120000 <? 500 * Z.of_nat k)%Z eqn:Et.
    + apply Z.ltb_lt in Et. exists false, k. repeat split; lia.
    + apply Z.ltb_ge in Et.
      destruct (IH (S k)) as (c & n & Hr & Hlo & Hhi & Hc); try lia.
      exists c, n. repeat split; try assumption; lia.
  - exists true, k. repeat split; try lia; assumption.
Qed.

(** The wait always ends, after at most 242 looks (the last one at 120.5 s):
    either the challenge was seen gone, or the time-out had passed. *)
Lemma waitForChallengeCompletion_ends challengeAt :
  exists cleared looks,
    waitForChallengeCompletion challengeAt = Some (cleared, looks)
    /\ looks <= 241
    /\ (if cleared then challengeAt looks = false
        else (challengeTimeout < 500 * Z.of_nat looks)%Z).
Proof.
  destruct (checkChallenge_ends challengeAt 242 0) as (c & n & Hr & _ & Hhi & Hc);
    try lia.
  exists c, n. repeat split; try assumption; lia.
Qed.

End ChallengeWait.

(** ** The Page Agent on a not-found page *)

Section NotFoundBranch.
Import Content.

(** C8: on the page of the expected package, classified as not-found, the
    Page Agent pushes the name on [skipped] unless it is there already,
    moves the cursor by one and stores the record; when the cursor has
    reached the end the stored record is idle and nothing is scheduled,
    otherwise the navigation to the next package's URL is armed with a
    500 ms delay; it then reports the outcome with [notFound] set.  No
    Controller command takes part. *)
Theorem not_found_page_is_skipped state pv packageName :
  status state = running ->
  hasTurnstileChallenge (onLoad pv) = false ->
  isAccessPage (pathname pv) = true ->
  urlPackage pv = Some packageName ->
  currentPackage state = Some packageName ->
  isNotFoundPage (settled pv) = true ->
  let skipped' :=
    if Js.includes (skipped state) packageName then skipped state
    else skipped state ++ [packageName] in
  let moved := set_currentIndex (S (currentIndex state)) (set_skipped skipped' state) in
  handlePageLoad (Some state) pv =
    (if List.length (packages state) <=? S (currentIndex state)
     then [Persist (set_status idle moved); Send (notFoundMsg packageName)]
     else [Persist moved;
           NavigateAfter 500 (accessUrl (nth (S (currentIndex state)) (packages state) ""));
           Send (notFoundMsg packageName)])
  /\ Msg.success (notFoundMsg packageName) = true
  /\ Msg.notFound (notFoundMsg packageName) = true.
Proof.
  intros Hrun Hch Hacc Hurl Hcur Hnf skipped' moved.
  split; [| split; reflexivity].
  unfold handlePageLoad, handlePageLoadBody, advance.
  rewrite Hrun. unfold_m. cbn_m. rewrite Hch, Hacc, Hurl, Hcur.
  rewrite String.eqb_refl. cbn_m. rewrite Hnf. cbn_m.
  subst moved skipped'. unfold Js.pushUnique, Js.push.
  destruct (Js.includes (skipped state) packageName);
    destruct (List.length (packages state) <=? S (currentIndex state)); reflexivity.
Qed.

Lemma not_found_page_is_skipped_witness :
  handlePageLoad (Some Examples.started) Examples.notFoundPage =
    [Persist (mkState running ["a"; "b"] 1 [] [] ["a"] defaultConfig);
     NavigateAfter 500 "https://www.npmjs.com/package/b/access";
     Send (notFoundMsg "a")].
Proof.
  exact (proj1 (not_found_page_is_skipped Examples.started Examples.notFoundPage "a"
                  eq_refl eq_refl eq_refl eq_refl eq_refl eq_refl)).
Defined.

End NotFoundBranch.

(** ** The cursor during a run *)

Section Cursor.

Lemma step_cursor op s :
  currentIndex (Run.step op s) = currentIndex s
  \/ currentIndex (Run.step op s) = S (currentIndex s).
Proof.
  destruct op; unfold_handlers; crunch; auto.
Qed.

(** Every Controller handler of a run leaves in storage the record it
    leaves in the Controller's copy. *)
Lemma controller_stores_its_copy s :
  storedAfter s (traceOf (Popup.handlePause s)) = stateOf (Popup.handlePause s)
  /\ storedAfter s (traceOf (Popup.handleResume s)) = stateOf (Popup.handleResume s)
  /\ storedAfter s (traceOf (Popup.handleNext s)) = stateOf (Popup.handleNext s)
  /\ (forall m, storedAfter s (traceOf (Popup.handlePackageResult m s))
                = stateOf (Popup.handlePackageResult m s))
  /\ storedAfter s (traceOf (Popup.advanceTimer s)) = stateOf (Popup.advanceTimer s)
  /\ (forall f, storedAfter s (traceOf (Popup.saveConfig f s))
                = stateOf (Popup.saveConfig f s))
  /\ (forall f, storedAfter s (traceOf (Popup.onPackagesChange f s))
                = stateOf (Popup.onPackagesChange f s)).
Proof.
  repeat split; intros; unfold_handlers; crunch; reflexivity.
Qed.

(** [reset] puts the cursor back at 0 and empties the buckets, as an
    accepted [start] does: the two begin, or abandon, a run. *)
Lemma start_and_reset_rewind s :
  currentIndex (Run.reset s) = 0 /\ completed (Run.reset s) = []
  /\ failed (Run.reset s) = [] /\ skipped (Run.reset s) = []
  /\ status (Run.reset s) = idle.
Proof. unfold_handlers. crunch. repeat split. Qed.

End Cursor.

Section RunFrame.

Ltac names_eq :=
  unfold currentPackage in *;
  repeat match goal with
         | H : String.eqb _ _ = true |- _ => apply String.eqb_eq in H; subst
         | H : Some _ = Some _ |- _ => injection H as H; subst
         | H : ?a = Some _, H' : ?a = Some _ |- _ => rewrite H in H'
         | H : ?a = Some _, H' : ?a = None |- _ => rewrite H in H'; discriminate
         end.

Ltac bools :=
  unfold Run.classified; cbn_m;
  rewrite ?includes_pushUnique, ?includes_push, ?includes_without, ?String.eqb_refl;
  repeat match goal with
         | |- context [Js.includes ?l ?x] => destruct (Js.includes l x)
         | |- context [String.eqb ?a ?b] => destruct (String.eqb a b)
         end;
  cbn; try reflexivity; try congruence; auto.

Lemma step_frame op s :
  Run.inStep op s = true ->
  packages (Run.step op s) = packages s
  /\ (forall p, Run.classified s p = true -> Run.classified (Run.step op s) p = true)
  /\ (currentIndex (Run.step op s) = currentIndex s
      \/ (currentIndex (Run.step op s) = S (currentIndex s)
          /\ forall p, currentPackage s = Some p -> p <> "" ->
                       Run.classified (Run.step op s) p = true)).
Proof.
  destruct op; unfold Run.inStep, Run.advancesOn, currentPackage; unfold_handlers;
    crunch; intros Hin; try discriminate Hin.
  all: split; [reflexivity |].
  all: split; [intros p; bools |].
  all: try (left; reflexivity).
  all: right; split; [reflexivity |]; intros p Hp Hne; names_eq; try contradiction.
  all: bools.
Qed.

End RunFrame.

(** ** Runs *)

Section Runs.
Import Examples.

Lemma parsePackages_nonempty text p :
  In p (Popup.parsePackages text) -> p <> "".
Proof.
  unfold Popup.parsePackages. rewrite filter_In. intros [_ H] ->.
  cbn in H. discriminate H.
Qed.

Lemma start_accepted f s :
  Run.startAccepted f = true ->
  Run.start f s =
  mkState running (Popup.parsePackages (Popup.f_packages f)) 0 [] [] []
          (Popup.configOfForm f).
Proof.
  unfold Run.startAccepted, Run.start, Popup.handleStart, Popup.resetProgress.
  unfold_handlers. crunch; intros H; try discriminate H; try reflexivity.
  exfalso.
  match goal with
  | H1 : (_ =? 0) = false, H2 : (_ <=? 0) = true |- _ =>
      apply Nat.eqb_neq in H1; apply Nat.leb_le in H2; lia
  end.
Qed.

Lemma start_processed f s :
  Run.startAccepted f = true -> Run.processed (Run.start f s).
Proof.
  intros H. rewrite (start_accepted f s H). split; cbn.
  - intros p. apply parsePackages_nonempty.
  - intros i p Hi. lia.
Qed.

Lemma step_processed op s :
  Run.inStep op s = true -> Run.processed s -> Run.processed (Run.step op s).
Proof.
  intros Hin [Hne Hcl].
  destruct (step_frame op s Hin) as (Hpk & Hmono & Hidx).
  split; rewrite Hpk; [exact Hne |].
  intros i p Hi Hp.
  destruct Hidx as [Hsame | [Hnext Hcur]].
  - apply Hmono. apply (Hcl i p); [lia | exact Hp].
  - rewrite Hnext in Hi.
    destruct (Nat.eq_dec i (currentIndex s)) as [-> | Hlt].
    + apply Hcur; [exact Hp |]. apply Hne. eapply nth_error_In. exact Hp.
    + apply Hmono. apply (Hcl i p); [lia | exact Hp].
Qed.

Lemma run_processed ops : forall s,
  Run.allInStep ops s = true -> Run.processed s -> Run.processed (Run.run ops s).
Proof.
  induction ops as [| op ops IH]; intros s Hall Hp; cbn in *; [exact Hp |].
  apply andb_true_iff in Hall. destruct Hall as [Hop Hrest].
  apply IH; [exact Hrest |]. now apply step_processed.
Qed.

Lemma classified_bucketCount s p :
  Run.classified s p = true <-> 1 <= Run.bucketCount s p.
Proof.
  unfold Run.classified, Run.bucketCount.
  destruct (Js.includes (completed s) p), (Js.includes (failed s) p),
    (Js.includes (skipped s) p); cbn; split; intros; try lia; congruence.
Qed.

(** C5, as written, fails.  In the first run [a] ends in [failed] and in
    [completed]; in the second the cursor passes [b], which ends in no
    bucket. *)
Lemma completed_run_without_exactly_one_bucket :
  ~ Spec.completeMeansExactlyOne (Run.run failedThenCompleted (Run.start autoForm defaultState))
  /\ ~ Spec.completeMeansExactlyOne
        (Run.run notFoundThenReported (Run.start manualForm defaultState)).
Proof.
  split; intros H.
  - assert (C : Run.atCompletion
                  (Run.run failedThenCompleted (Run.start autoForm defaultState)))
      by (split; vm_compute; [reflexivity | lia]).
    specialize (H C "a"). vm_compute in H. specialize (H (or_introl eq_refl)).
    discriminate H.
  - assert (C : Run.atCompletion
                  (Run.run notFoundThenReported (Run.start manualForm defaultState)))
      by (split; vm_compute; [reflexivity | lia]).
    specialize (H C "b"). vm_compute in H. specialize (H (or_intror (or_introl eq_refl))).
    discriminate H.
Qed.

(** C5, amended: in a run begun by an accepted [start], in which every
    report that moves the Controller's cursor is about the package at the
    cursor and the package list is not edited, every package name of a
    completed run is in at least one of [completed], [failed], [skipped]
    (it can be in more than one). *)
Theorem completed_run_classifies_every_package f s0 ops :
  Run.startAccepted f = true ->
  Run.allInStep ops (Run.start f s0) = true ->
  let s := Run.run ops (Run.start f s0) in
  Run.atCompletion s ->
  forall p, In p (packages s) -> 1 <= Run.bucketCount s p.
Proof.
  intros Hacc Hall s [_ Hend] p Hin.
  apply classified_bucketCount.
  destruct (run_processed ops _ Hall (start_processed f s0 Hacc)) as [_ Hcl].
  destruct (In_nth_error _ _ Hin) as [i Hi].
  apply (Hcl i p); [| exact Hi].
  assert (i < List.length (packages s)) by (apply nth_error_Some; fold s; congruence).
  fold s. lia.
Qed.

Lemma completed_run_classifies_every_package_witness :
  1 <= Run.bucketCount (Run.run notFoundThenNext (Run.start manualForm defaultState)) "b".
Proof.
  apply (completed_run_classifies_every_package manualForm defaultState notFoundThenNext).
  - reflexivity.
  - reflexivity.
  - split; vm_compute; [reflexivity | lia].
  - vm_compute. right. left. reflexivity.
Defined.

(** The closing step of [resume]: the tab goes to the package at the cursor. *)
Lemma handleResume_navigations s :
  navigations (traceOf (Popup.handleResume s)) =
  match currentPackage s with
  | Some pkg => [accessUrl pkg]
  | None => []
  end.
Proof.
  unfold Popup.handleResume, Popup.processCurrentPackage, currentPackage.
  unfold_m. cbn_m.
  destruct (List.length (packages s) <=? currentIndex s) eqn:E; cbn_m.
  - apply Nat.leb_le in E. apply nth_error_None in E. now rewrite E.
  - apply Nat.leb_gt in E.
    now rewrite (nth_error_nth' (packages s) EmptyString E).
Qed.

Lemma run_cursor ops : forall s, currentIndex s <= currentIndex (Run.run ops s).
Proof.
  induction ops as [| op ops IH]; intros s; cbn; [lia |].
  specialize (IH (Run.step op s)). destruct (step_cursor op s); lia.
Qed.

(** C7: an operation of a run leaves the cursor where it is or moves it
    forward by one, so over a run the cursor never decreases; [pause] and
    [resume] leave the cursor and the three buckets untouched, and [resume]
    sends the tab to the URL of the package at the cursor. *)
Theorem cursor_only_moves_forward :
  (forall op s, currentIndex (Run.step op s) = currentIndex s
                \/ currentIndex (Run.step op s) = S (currentIndex s))
  /\ (forall ops s, currentIndex s <= currentIndex (Run.run ops s))
  /\ (forall s, let s' := Run.step Run.Pause s in
                status s' = paused /\ currentIndex s' = currentIndex s
                /\ completed s' = completed s /\ failed s' = failed s
                /\ skipped s' = skipped s)
  /\ (forall s, let s' := Run.step Run.Resume s in
                currentIndex s' = currentIndex s
                /\ completed s' = completed s /\ failed s' = failed s
                /\ skipped s' = skipped s
                /\ navigations (traceOf (Popup.handleResume s)) =
                   match currentPackage s with
                   | Some pkg => [accessUrl pkg]
                   | None => []
                   end).
Proof.
  split; [exact step_cursor |].
  split; [exact run_cursor |].
  split.
  - intros s. unfold_handlers. crunch. repeat split.
  - intros s. cbn zeta. rewrite handleResume_navigations.
    unfold_handlers. crunch; repeat split.
Qed.

End Runs.

(** ** The batch checker *)

Section CheckerFacts.
Import Checker.
Variable fetch : string -> FetchResult.


Lemma checkPackageExists_iff name :
  checkPackageExists fetch name = true <-> fetch name = Response 200.
Proof.
  unfold checkPackageExists. destruct (fetch name) as [st |].
  - rewrite Z.eqb_eq. split; [intros -> | intros [= ->]]; reflexivity.
  - split; discriminate.
Qed.

Lemma fold_record batch : forall results,
  fold_left (record) (map (fun pkg => (pkg, checkPackageExists fetch pkg)) batch) results =
  mkResults (published results ++ filter (checkPackageExists fetch) batch)
            (unpublished results ++ filter (fun p => negb (checkPackageExists fetch p)) batch).
Proof.
  induction batch as [| pkg batch IH]; intros [pub unpub]; cbn.
  - now rewrite !app_nil_r.
  - rewrite IH. unfold record, Js.push. cbn.
    destruct (checkPackageExists fetch pkg); cbn; now rewrite <- ?app_assoc.
Qed.

Lemma batchLoop_filter fuel : forall i packages results,
  List.length packages - i <= fuel ->
  batchLoop fetch fuel i packages results =
  Some (mkResults (published results ++ filter (checkPackageExists fetch) (skipn i packages))
                  (unpublished results ++ filter (fun p => negb (checkPackageExists fetch p)) (skipn i packages))).
Proof.
  induction fuel as [| fuel IH]; intros i packages results Hfuel.
  - cbn -[Nat.ltb]. destruct (i <? List.length packages) eqn:E.
    + apply Nat.ltb_lt in E. lia.
    + apply Nat.ltb_ge in E. rewrite (skipn_all2 packages E). cbn.
      rewrite !app_nil_r. now destruct results.
  - cbn -[Nat.ltb]. destruct (i <? List.length packages) eqn:E.
    + apply Nat.ltb_lt in E. rewrite IH by (unfold CONCURRENCY; lia).
      rewrite fold_record. cbn [published unpublished]. unfold slice.
      replace (i + CONCURRENCY - i) with CONCURRENCY by lia.
      rewrite <- !app_assoc, <- !filter_app.
      replace (i + CONCURRENCY) with (CONCURRENCY + i) by lia.
      rewrite <- skipn_skipn, firstn_skipn. reflexivity.
    + apply Nat.ltb_ge in E. rewrite (skipn_all2 packages E). cbn.
      rewrite !app_nil_r. now destruct results.
Qed.

(** C10: a probe counts as published exactly when the registry answers
    with status 200; any other status and a failed fetch count as
    unpublished.  The batch loop ends and splits the probed names, in
    order, into the published and the unpublished list, so that every
    probed name is in exactly one of the two. *)
Theorem probe_is_published_iff_status_200 packages :
  (forall name, checkPackageExists fetch name = true <-> fetch name = Response 200)
  /\ (forall name, fetch name = FetchError -> checkPackageExists fetch name = false)
  /\ classify fetch packages =
     Some (mkResults (filter (checkPackageExists fetch) packages)
                     (filter (fun p => negb (checkPackageExists fetch p)) packages))
  /\ (forall p, In p packages ->
        (In p (filter (checkPackageExists fetch) packages)
         /\ ~ In p (filter (fun p => negb (checkPackageExists fetch p)) packages)
         /\ fetch p = Response 200)
        \/ (In p (filter (fun p => negb (checkPackageExists fetch p)) packages)
            /\ ~ In p (filter (checkPackageExists fetch) packages)
            /\ fetch p <> Response 200)).
Proof.
  split; [exact checkPackageExists_iff |].
  split; [intros name H; unfold checkPackageExists; now rewrite H |].
  split.
  - unfold classify. rewrite batchLoop_filter by lia. reflexivity.
  - intros p Hin. rewrite !filter_In.
    destruct (checkPackageExists fetch p) eqn:E; [left | right]; cbn.
    + repeat split; try assumption.
      * intros [_ H]. discriminate H.
      * now apply checkPackageExists_iff.
    + repeat split; try assumption.
      * intros [_ H]. discriminate H.
      * intros H. apply checkPackageExists_iff in H. congruence.
Qed.

End CheckerFacts.

(** The scenario of the specification: of [@dxos/a] and [@dxos/b] only the
    first exists. *)
Example checker_scenario :
  Checker.classify Examples.onlyA ["@dxos/a"; "@dxos/b"] =
    Some (Checker.mkResults ["@dxos/a"] ["@dxos/b"])
  /\ Checker.unpublishedFile (Checker.mkResults ["@dxos/a"] ["@dxos/b"]) =
     Some ("@dxos/b" ++ String Js.LF "")%string.
Proof. split; reflexivity. Qed.

(** ** The publisher *)

Section PublisherTraces.
Import Publisher.

Lemma publishes_app tr1 tr2 : publishes (tr1 ++ tr2) = publishes tr1 ++ publishes tr2.
Proof.
  induction tr1 as [| e tr1 IH]; [reflexivity |].
  destruct e; cbn; now rewrite IH.
Qed.

Lemma writes_app tr1 tr2 : writes (tr1 ++ tr2) = writes tr1 ++ writes tr2.
Proof.
  induction tr1 as [| e tr1 IH]; [reflexivity |].
  destruct e; cbn; now rewrite IH.
Qed.


Lemma writes_echoes l : writes (map Echo l) = [].
Proof. induction l; cbn; auto. Qed.

End PublisherTraces.

Section PublisherFacts.
Import Publisher.
Variable op : nat -> string.
Variable pnpm : nat -> string -> string -> bool.


(** What the loop leaves behind, whichever way it ends. *)
Lemma publishLoop_spec TOTAL lines : forall i tr succeeded failed,
  match publishLoop op pnpm i TOTAL lines tr succeeded failed with
  | inl r =>
      exitCode r = 0%Z
      /\ (forall a, In a (attempts i lines) -> op (fst a) <> "")
      /\ SUCCEEDED r = succeeded ++ map snd (filter (accepted op pnpm) (attempts i lines))
      /\ FAILED r = failed ++ map snd (filter (rejected op pnpm) (attempts i lines))
      /\ publishes (trace r) =
         publishes tr ++ map (fun a => (snd a, op (fst a))) (attempts i lines)
      /\ writes (trace r) = writes tr
  | inr r =>
      exitCode r = 1%Z
      /\ exists pre pkg post,
           lines = pre ++ pkg :: post
           /\ (forall a, In a (attempts i pre) -> op (fst a) <> "")
           /\ op (S (i + List.length pre)) = ""
           /\ SUCCEEDED r = succeeded ++ map snd (filter (accepted op pnpm) (attempts i pre))
           /\ FAILED r = failed ++ map snd (filter (rejected op pnpm) (attempts i pre))
           /\ publishes (trace r) =
              publishes tr ++ map (fun a => (snd a, op (fst a))) (attempts i pre)
           /\ writes (trace r) = writes tr
           /\ exists before,
                trace r = before ++ [OpItemGet (S (i + List.length pre));
                                     Echo "Error: Could not get OTP from 1Password"]
  end.
Proof.
  induction lines as [| pkg rest IH]; intros i tr succeeded failed.
  - cbn. rewrite !app_nil_r. repeat split; auto.
  - cbn [publishLoop]. destruct (String.eqb (op (S i)) "") eqn:Eotp.
    + apply String.eqb_eq in Eotp. cbn [exitCode SUCCEEDED FAILED trace].
      split; [reflexivity |]. exists [], pkg, rest. cbn [attempts filter map List.length].
      rewrite Nat.add_0_r, !app_nil_r.
      split; [reflexivity |].
      split; [intros a [] |].
      split; [exact Eotp |].
      split; [reflexivity |].
      split; [reflexivity |].
      split; [rewrite !publishes_app; cbn; now rewrite !app_nil_r |].
      split; [rewrite !writes_app; cbn; now rewrite !app_nil_r |].
      exists (tr ++ [Echo rule;
                     Echo ("[" ++ showNat (S i) ++ "/" ++ showNat TOTAL
                           ++ "] Publishing " ++ pkg)%string;
                     Echo rule]).
      rewrite <- !app_assoc. reflexivity.
    + apply String.eqb_neq in Eotp.
      match goal with
      | |- match publishLoop _ _ _ _ _ ?tr' ?s' ?f' with _ => _ end =>
          specialize (IH (S i) tr' s' f');
          assert (Hp : publishes tr' = publishes tr ++ [(pkg, op (S i))])
            by (destruct (S i <? TOTAL); rewrite !publishes_app; cbn;
                now rewrite ?app_nil_r);
          assert (Hw : writes tr' = writes tr)
            by (destruct (S i <? TOTAL); rewrite !writes_app; cbn;
                now rewrite ?app_nil_r);
          destruct (publishLoop op pnpm (S i) TOTAL rest tr' s' f') as [r | r]
      end.
      * destruct IH as (He & Hotp & Hs & Hf & Hpub & Hwr).
        split; [exact He |].
        split; [intros a [<- | Ha]; [exact Eotp | now apply Hotp] |].
        cbn [attempts filter map]. unfold rejected, accepted. cbn [fst snd].
        rewrite Hs, Hf, Hpub, Hwr, Hp, Hw.
        destruct (pnpm (S i) pkg (op (S i))); cbn [negb map snd]; unfold Js.push;
          rewrite <- ?app_assoc; cbn; auto.
      * destruct IH as (He & pre & p & post & Hl & Hotp & Hempty & Hs & Hf & Hpub & Hwr & Hlast).
        split; [exact He |].
        exists (pkg :: pre), p, post. cbn [List.length attempts filter map].
        rewrite Nat.add_succ_r. cbn [Nat.add] in Hempty, Hlast.
        split; [now rewrite Hl |].
        split; [intros a [<- | Ha]; [exact Eotp | now apply Hotp] |].
        split; [exact Hempty |].
        unfold rejected, accepted. cbn [fst snd].
        rewrite Hs, Hf, Hpub, Hwr, Hp, Hw.
        destruct (pnpm (S i) pkg (op (S i))); cbn [negb map snd]; unfold Js.push;
          rewrite <- ?app_assoc; cbn; auto.
Qed.

Lemma attempts_app l1 : forall i l2,
  attempts i (l1 ++ l2) = attempts i l1 ++ attempts (i + List.length l1) l2.
Proof.
  induction l1 as [| x l1 IH]; intros i l2; cbn.
  - now rewrite Nat.add_0_r.
  - rewrite IH. now rewrite Nat.add_succ_r.
Qed.

Lemma attempts_reaches l : forall i k,
  k < List.length l -> exists p, In (S (i + k), p) (attempts i l).
Proof.
  induction l as [| x l IH]; intros i k Hk; cbn in *; [lia |].
  destruct k as [| k].
  - exists x. left. now rewrite Nat.add_0_r.
  - destruct (IH (S i) k) as [p Hp]; [lia |].
    exists p. right. now rewrite Nat.add_succ_r.
Qed.

Lemma same_prefix (pre : list string) : forall pre' x x' post post',
  pre ++ x :: post = pre' ++ x' :: post' ->
  List.length pre = List.length pre' -> pre = pre'.
Proof.
  induction pre as [| a pre IH]; intros [| a' pre'] x x' post post' H Hlen;
    cbn in *; try discriminate; [reflexivity |].
  injection H as -> H. f_equal. eapply IH; [exact H | lia].
Qed.

(** C9: when the secrets CLI returns an empty passcode for a package (and
    returned one for every package before it), the script stops there with
    exit status 1, its last output being the error message; the publish
    commands issued, and the entries of the SUCCEEDED and FAILED arrays,
    are those of the packages before it only. *)
Theorem empty_passcode_aborts PACKAGES_FILE content pre pkg post :
  readLines content = pre ++ pkg :: post ->
  (forall a, In a (attempts 0 pre) -> op (fst a) <> "") ->
  op (S (List.length pre)) = "" ->
  let r := main op pnpm PACKAGES_FILE (Some content) true in
  exitCode r = 1%Z
  /\ (exists before,
        trace r = before ++ [OpItemGet (S (List.length pre));
                             Echo "Error: Could not get OTP from 1Password"])
  /\ publishes (trace r) = map (fun a => (snd a, op (fst a))) (attempts 0 pre)
  /\ SUCCEEDED r = map snd (filter (accepted op pnpm) (attempts 0 pre))
  /\ FAILED r = map snd (filter (rejected op pnpm) (attempts 0 pre)).
Proof.
  intros Hlines Hpre Hempty r. subst r. unfold main. cbn [negb].
  rewrite Hlines.
  set (TOTAL := List.length (pre ++ pkg :: post)).
  set (tr0 := [Echo ("Publishing " ++ showNat TOTAL ++ " packages...")%string; Echo ""]).
  pose proof (publishLoop_spec TOTAL (pre ++ pkg :: post) 0 tr0 [] []) as Hspec.
  destruct (publishLoop op pnpm 0 TOTAL (pre ++ pkg :: post) tr0 [] []) as [r | r].
  - exfalso. destruct Hspec as (_ & Hall & _).
    apply (Hall (S (List.length pre), pkg)); [| exact Hempty].
    rewrite attempts_app. apply in_or_app. right. cbn. now left.
  - destruct Hspec as (He & pre' & pkg' & post' & Hl & Hotp & Hemp' & Hs & Hf & Hpub & Hwr & Hlast).
    cbn [Nat.add] in Hemp', Hlast.
    assert (Hlen : List.length pre = List.length pre').
    { destruct (Nat.lt_trichotomy (List.length pre) (List.length pre')) as [Hlt | [Heq | Hgt]];
        [| exact Heq |]; exfalso.
      - destruct (attempts_reaches pre' 0 (List.length pre) Hlt) as [p Hp].
        apply (Hotp _ Hp). exact Hempty.
      - destruct (attempts_reaches pre 0 (List.length pre') Hgt) as [p Hp].
        apply (Hpre _ Hp). exact Hemp'. }
    pose proof (same_prefix _ _ _ _ _ _ Hl Hlen) as Heq. subst pre'.
    cbn [app] in Hs, Hf, Hpub.
    split; [exact He |]. split; [exact Hlast |].
    split; [exact Hpub |]. split; [exact Hs | exact Hf].
Qed.




End PublisherFacts.

Lemma empty_passcode_aborts_witness :
  Publisher.exitCode (Publisher.main Examples.passcodeOnce Examples.publishFailsForB
                 "unpublished-packages.txt" (Some Examples.listFile) true) = 1%Z.
Proof.
  refine (proj1 (empty_passcode_aborts Examples.passcodeOnce Examples.publishFailsForB
                   "unpublished-packages.txt" Examples.listFile ["a"] "b" [] _ _ _)).
  - reflexivity.
  - intros a [<- | []]. discriminate.
  - reflexivity.
Defined.



Section Strings.

Lemma chars_of_string l : list_ascii_of_string (string_of_list_ascii l) = l.
Proof. apply list_ascii_of_string_of_list_ascii. Qed.

Lemma string_of_chars s : string_of_list_ascii (list_ascii_of_string s) = s.
Proof. apply string_of_list_ascii_of_string. Qed.

Section Stripping.
Variable two : ascii -> ascii -> bool.
Variable three : ascii -> ascii -> ascii -> bool.

Lemma strip_fixed l : startsBlank two three l = false -> Js.strip two three l = l.
Proof.
  destruct l as [| a [| b [| c v]]]; cbn; try reflexivity;
    destruct (Js.isWhiteSpace a); try discriminate; try reflexivity;
    destruct (two a b); try discriminate; try reflexivity;
    destruct (three a b c); try discriminate; reflexivity.
Qed.

(** Stripping takes a prefix away and leaves a list that does not start
    with white space. *)
Lemma strip_spec n : forall l,
  List.length l <= n ->
  startsBlank two three (Js.strip two three l) = false
  /\ exists ws, l = ws ++ Js.strip two three l.
Proof.
  induction n as [| n IH]; intros l Hn.
  - destruct l; [| cbn in Hn; lia]. split; [reflexivity | now exists []].
  - destruct l as [| a t]; [split; [reflexivity | now exists []] |].
    cbn in Hn. cbn [Js.strip].
    destruct (Js.isWhiteSpace a) eqn:Ea.
    { destruct (IH t ltac:(lia)) as [H [ws E]]. split; [exact H |].
      exists (a :: ws). cbn. now rewrite <- E. }
    destruct t as [| b u].
    { split; [cbn; now rewrite Ea | now exists []]. }
    cbn in Hn. destruct (two a b) eqn:E2.
    { destruct (IH u ltac:(lia)) as [H [ws E]]. split; [exact H |].
      exists (a :: b :: ws). cbn. now rewrite <- E. }
    destruct u as [| c v].
    { split; [cbn; now rewrite Ea, E2 | now exists []]. }
    cbn in Hn. destruct (three a b c) eqn:E3.
    { destruct (IH v ltac:(lia)) as [H [ws E]]. split; [exact H |].
      exists (a :: b :: c :: ws). cbn. now rewrite <- E. }
    split; [cbn; now rewrite Ea, E2, E3 | now exists []].
Qed.

Lemma strip_head l : startsBlank two three (Js.strip two three l) = false.
Proof. exact (proj1 (strip_spec (List.length l) l (le_n _))). Qed.

Lemma strip_suffix l : exists ws, l = ws ++ Js.strip two three l.
Proof. exact (proj2 (strip_spec (List.length l) l (le_n _))). Qed.

(** A list that starts with white space still does when it is extended. *)
Lemma startsBlank_prefix x z :
  startsBlank two three (x ++ z) = false -> startsBlank two three x = false.
Proof.
  destruct x as [| a [| b [| c v]]]; cbn; try reflexivity;
    destruct (Js.isWhiteSpace a); try discriminate; try reflexivity;
    destruct (two a b); try discriminate; try reflexivity; auto.
Qed.

End Stripping.

Lemma trim_chars s :
  list_ascii_of_string (Js.trim s) =
  rev (Js.trimEndRevL (rev (Js.trimStartL (list_ascii_of_string s)))).
Proof. unfold Js.trim. apply chars_of_string. Qed.

Lemma trim_idempotent s : Js.trim (Js.trim s) = Js.trim s.
Proof.
  unfold Js.trim at 1. rewrite trim_chars.
  set (a := Js.trimStartL (list_ascii_of_string s)).
  set (y := Js.trimEndRevL (rev a)).
  assert (Hstart : Js.trimStartL (rev y) = rev y).
  { apply strip_fixed.
    destruct (strip_suffix (fun b a => Js.isWhiteSpace2 a b)
                (fun c b a => Js.isWhiteSpace3 a b c) (rev a)) as [ws E].
    fold (Js.trimEndRevL (rev a)) in E. fold y in E.
    apply (startsBlank_prefix _ _ (rev y) (rev ws)).
    rewrite <- rev_app_distr, <- E, rev_involutive. apply strip_head. }
  rewrite Hstart, rev_involutive.
  assert (Hend : Js.trimEndRevL y = y) by (apply strip_fixed, strip_head).
  rewrite Hend. reflexivity.
Qed.

(** A character of one byte that is not white space stops [trimStart]. *)
Lemma trimStartL_ascii c t :
  nat_of_ascii c < 128 -> Js.isWhiteSpace c = false ->
  Js.trimStartL (c :: t) = c :: t.
Proof.
  intros Hc Hw. apply strip_fixed. cbn. rewrite Hw.
  assert (H2 : forall b, Js.isWhiteSpace2 c b = false).
  { intros b. unfold Js.isWhiteSpace2.
    destruct (Nat.eqb_spec (nat_of_ascii c) 194); [lia | reflexivity]. }
  assert (H3 : forall b d, Js.isWhiteSpace3 c b d = false).
  { intros b d. unfold Js.isWhiteSpace3.
    destruct (Nat.eqb_spec (nat_of_ascii c) 225); [lia |].
    destruct (Nat.eqb_spec (nat_of_ascii c) 226); [lia |].
    destruct (Nat.eqb_spec (nat_of_ascii c) 227); [lia |].
    destruct (Nat.eqb_spec (nat_of_ascii c) 239); [lia |]. reflexivity. }
  destruct t as [| b [| d v]]; cbn; rewrite ?H2, ?H3; reflexivity.
Qed.

End Strings.

Section PackageArea.
Import Popup PopupView.

Lemma trim_keeps_chars s c :
  In c (list_ascii_of_string (Js.trim s)) -> In c (list_ascii_of_string s).
Proof.
  rewrite trim_chars. intros H. apply in_rev in H.
  destruct (strip_suffix (fun b a => Js.isWhiteSpace2 a b)
              (fun c b a => Js.isWhiteSpace3 a b c)
              (rev (Js.trimStartL (list_ascii_of_string s)))) as [ws E].
  assert (H1 : In c (rev (Js.trimStartL (list_ascii_of_string s))))
    by (rewrite E; apply in_or_app; now right).
  apply in_rev in H1.
  destruct (strip_suffix Js.isWhiteSpace2 Js.isWhiteSpace3 (list_ascii_of_string s))
    as [ws' E'].
  rewrite E'. apply in_or_app. now right.
Qed.

Lemma split_no_separator sep s :
  Forall (fun line => ~ In sep (list_ascii_of_string line)) (Js.split sep s).
Proof.
  induction s as [| c s IH]; cbn.
  - constructor; [intros [] | constructor].
  - destruct (Ascii.eqb c sep) eqn:E.
    + constructor; [intros [] | exact IH].
    + apply Ascii.eqb_neq in E.
      destruct (Js.split sep s) as [| h r]; cbn.
      * constructor; [| constructor]. cbn. intros [H | []]. congruence.
      * inversion IH as [| ? ? Hh Hr]; subst. constructor; [| exact Hr].
        cbn. intros [H | H]; [congruence | now apply Hh].
Qed.

(** X1. Every name [parsePackages] returns is trimmed, not empty, not a
    comment line and free of line breaks. *)
Theorem parsePackages_names_are_clean text p :
  In p (parsePackages text) -> cleanName p.
Proof.
  unfold parsePackages, cleanName. rewrite filter_In, in_map_iff.
  intros [[line [<- Hline]] Hkeep].
  apply andb_true_iff in Hkeep. destruct Hkeep as [Hne Hhash].
  apply negb_true_iff in Hne, Hhash. apply String.eqb_neq in Hne.
  repeat split; auto using trim_idempotent.
  intros HLF. apply trim_keeps_chars in HLF.
  pose proof (split_no_separator Js.LF text) as Hall.
  rewrite Forall_forall in Hall. exact (Hall line Hline HLF).
Qed.

Lemma parsePackages_names_are_clean_witness :
  cleanName "@dxos/a".
Proof.
  apply (parsePackages_names_are_clean
           ("  @dxos/a " ++ String Js.LF "# note")%string "@dxos/a").
  vm_compute. left. reflexivity.
Defined.

Lemma split_line sep p rest :
  ~ In sep (list_ascii_of_string p) ->
  Js.split sep (p ++ String sep rest)%string = p :: Js.split sep rest.
Proof.
  induction p as [| c p IH]; cbn; intros H.
  - now rewrite Ascii.eqb_refl.
  - destruct (Ascii.eqb c sep) eqn:E.
    + apply Ascii.eqb_eq in E. exfalso. apply H. now left.
    + rewrite IH by (intros Hin; apply H; now right). reflexivity.
Qed.

Lemma split_last sep p :
  ~ In sep (list_ascii_of_string p) -> Js.split sep p = [p].
Proof.
  induction p as [| c p IH]; cbn; intros H; [reflexivity |].
  destruct (Ascii.eqb c sep) eqn:E.
  - apply Ascii.eqb_eq in E. exfalso. apply H. now left.
  - rewrite IH by (intros Hin; apply H; now right). reflexivity.
Qed.

Lemma split_join sep l :
  l <> [] ->
  Forall (fun p => ~ In sep (list_ascii_of_string p)) l ->
  Js.split sep (Js.join (String sep EmptyString) l) = l.
Proof.
  induction l as [| x l IH]; intros Hne Hall; [congruence |].
  inversion Hall as [| ? ? Hx Hl]; subst.
  destruct l as [| y l].
  - cbn. now apply split_last.
  - change (Js.join (String sep "") (x :: y :: l))
      with (x ++ String sep (Js.join (String sep "") (y :: l)))%string.
    rewrite split_line by exact Hx. f_equal. apply IH; [discriminate | exact Hl].
Qed.

(** X2. The package area gives back the list it was filled from: parsing
    the lines [loadState] writes for a list of clean names returns that
    list. *)
Theorem parsePackages_of_loaded_list s :
  Forall cleanName (packages s) ->
  parsePackages (f_packages (formOfState s)) = packages s.
Proof.
  cbn [formOfState f_packages]. generalize (packages s) as l. intros l Hall.
  unfold parsePackages. destruct l as [| x l]; [reflexivity |].
  rewrite split_join.
  - induction Hall as [| p r (Ht & Hne & Hh & _) _ IH]; [reflexivity |].
    cbn [map filter]. rewrite Ht, Hh. apply String.eqb_neq in Hne. rewrite Hne.
    cbn. now rewrite IH.
  - discriminate.
  - eapply Forall_impl; [| exact Hall]. intros p (_ & _ & _ & H). exact H.
Qed.

End PackageArea.

Section DelayField.

Lemma digits_acc d : forall p,
  Js.digits (Z.pos p) (list_ascii_of_string (NilEmpty.string_of_uint d)) =
  Z.pos (Pos.of_uint_acc d p).
Proof.
  induction d; intros p; cbn -[Z.mul Z.add Pos.mul Pos.add];
    try reflexivity;
    match goal with
    | |- context [Js.digit ?c] =>
        let v := eval vm_compute in (Js.digit c) in change (Js.digit c) with v
    end; cbv iota beta;
    match goal with
    | |- Js.digits ?a _ = Z.pos (Pos.of_uint_acc _ ?q) =>
        replace a with (Z.pos q) by lia
    end; apply IHd.
Qed.

Lemma digits_zero d :
  Js.digits 0 (list_ascii_of_string (NilEmpty.string_of_uint d)) =
  Z.of_N (Pos.of_uint d).
Proof.
  induction d; cbn -[Z.mul Z.add Pos.mul Pos.add Pos.of_uint_acc];
    try reflexivity;
    match goal with
    | |- context [Js.digit ?c] =>
        let v := eval vm_compute in (Js.digit c) in change (Js.digit c) with v
    end; cbv iota beta;
    match goal with
    | |- Js.digits ?a _ = _ =>
        let k := eval cbv in a in change a with k
    end; try exact IHd; apply digits_acc.
Qed.

Lemma uint_head d :
  d <> Decimal.Nil ->
  exists c t, list_ascii_of_string (NilEmpty.string_of_uint d) = c :: t
              /\ Js.digit c <> None /\ Js.trimStartL (c :: t) = c :: t
              /\ Ascii.eqb c "-" = false /\ Ascii.eqb c "+" = false.
Proof.
  destruct d; [congruence | ..]; intros _; cbn [NilEmpty.string_of_uint list_ascii_of_string];
    eexists; eexists; (split; [reflexivity |]); repeat split;
    try discriminate; apply trimStartL_ascii; (reflexivity || (cbn; lia)).
Qed.

Lemma unsignedInt_of_pos p :
  Js.unsignedInt (list_ascii_of_string (NilEmpty.string_of_uint (Pos.to_uint p))) =
  Some (Z.pos p).
Proof.
  destruct (uint_head (Pos.to_uint p) (DecimalPos.Unsigned.to_uint_nonnil p))
    as (c & t & E & Hd & _).
  unfold Js.unsignedInt. rewrite E. destruct (Js.digit c); [| congruence].
  rewrite <- E, digits_zero, DecimalPos.Unsigned.of_to. reflexivity.
Qed.

(** Reading back the decimal rendering of an integer gives the integer. *)
Lemma parseInt10_showZ z : Js.parseInt10 (Js.showZ z) = Some z.
Proof.
  unfold Js.showZ, Js.parseInt10. destruct z as [| p | p]; [reflexivity | |];
    cbn [Z.to_int NilZero.string_of_int];
    pose proof (DecimalPos.Unsigned.to_uint_nonnil p) as Hnn;
    destruct (uint_head _ Hnn) as (c & t & E & Hd & Hw & Hm & Hp);
    assert (Es : NilZero.string_of_uint (Pos.to_uint p)
                 = NilEmpty.string_of_uint (Pos.to_uint p))
      by (destruct (Pos.to_uint p); [congruence | reflexivity ..]);
    rewrite Es.
  - rewrite E, Hw, Hm, Hp, <- E. apply unsignedInt_of_pos.
  - cbn [list_ascii_of_string].
    rewrite trimStartL_ascii by (reflexivity || (cbn; lia)).
    change (Ascii.eqb "-" "-") with true. cbn iota.
    rewrite unsignedInt_of_pos. reflexivity.
Qed.

End DelayField.

Section LoadAndSave.
Import Popup PopupView.

(** X3. Saving the configuration right after loading it changes nothing
    but the [mode] property, which is dropped: the four text fields are
    kept when they are trimmed, the delay when it is a safe integer other
    than zero. *)
Theorem config_survives_load_and_save s :
  Js.trim (owner (config s)) = owner (config s) ->
  Js.trim (repository (config s)) = repository (config s) ->
  Js.trim (workflow (config s)) = workflow (config s) ->
  Js.trim (environment (config s)) = environment (config s) ->
  Js.isSafeInteger (delay (config s)) = true ->
  delay (config s) <> 0%Z ->
  configOfForm (formOfState s) =
  mkConfig (owner (config s)) (repository (config s)) (workflow (config s))
           (environment (config s)) None (navigationMode (config s))
           (autoSubmit (config s)) (delay (config s)).
Proof.
  intros Ho Hr Hw He _ Hd. unfold configOfForm, formOfState.
  cbn [f_owner f_repository f_workflow f_environment f_navigationMode
       f_autoSubmit f_delay].
  rewrite Ho, Hr, Hw, He, parseInt10_showZ. f_equal.
  - now destruct (autoSubmit (config s)).
  - unfold Js.numberOr. destruct (Z.eqb_spec (delay (config s)) 0); congruence.
Qed.

(** The delay kept in the configuration is never zero. *)
Lemma saved_delay_not_zero f : delay (configOfForm f) <> 0%Z.
Proof.
  unfold configOfForm. cbn [delay]. unfold Js.numberOr.
  destruct (Js.parseInt10 (f_delay f)) as [z |]; [| discriminate].
  destruct (Z.eqb_spec z 0); [discriminate | assumption].
Qed.

(** X4. An accepted [start] forgets all earlier progress: the record it
    leaves depends on the form alone (running, cursor 0, empty buckets); it
    is the record last stored, and the tab is sent to the first package. *)
Theorem accepted_start_begins_afresh f s :
  Run.startAccepted f = true ->
  let r := handleStart f s in
  stateOf r = mkState running (parsePackages (f_packages f)) 0 [] [] [] (configOfForm f)
  /\ storedAfter s (traceOf r) = stateOf r
  /\ navigations (traceOf r) = [accessUrl (nth 0 (parsePackages (f_packages f)) "")].
Proof.
  unfold Run.startAccepted, handleStart, resetProgress.
  unfold_handlers. crunch; intros H; try discriminate H; repeat split.
  all: exfalso;
    match goal with
    | H1 : (_ =? 0) = false, H2 : (_ <=? 0) = true |- _ =>
        apply Nat.eqb_neq in H1; apply Nat.leb_le in H2; lia
    end.
Qed.

(** X5. With a package list but an empty owner, repository or workflow,
    [start] is rejected: status, cursor and buckets stay, nothing is
    navigated to; the record stored has the form's configuration and the
    old package list, while the Controller's copy already has the new
    list. *)
Theorem start_rejected_without_github_fields f s :
  parsePackages (f_packages f) <> [] ->
  owner (configOfForm f) = "" \/ repository (configOfForm f) = ""
  \/ workflow (configOfForm f) = "" ->
  let r := handleStart f s in
  status (stateOf r) = status s /\ currentIndex (stateOf r) = currentIndex s
  /\ completed (stateOf r) = completed s /\ failed (stateOf r) = failed s
  /\ skipped (stateOf r) = skipped s
  /\ packages (stateOf r) = parsePackages (f_packages f)
  /\ persisted (traceOf r) = [set_config (configOfForm f) s]
  /\ navigations (traceOf r) = []
  /\ In (ShowStatus "Please fill in all GitHub configuration fields" "error") (traceOf r).
Proof.
  intros Hne Hempty. unfold handleStart, saveConfig. unfold_m. cbn_m.
  destruct (parsePackages (f_packages f)) as [| p l] eqn:E; [congruence |].
  cbn_m.
  assert (Hc : (String.eqb (owner (configOfForm f)) "" 
                || String.eqb (repository (configOfForm f)) ""
                || String.eqb (workflow (configOfForm f)) "") = true).
  { destruct Hempty as [-> | [-> | ->]]; cbn; rewrite ?orb_true_r; reflexivity. }
  rewrite Hc. cbn. intuition.
Qed.

End LoadAndSave.

Lemma parsePackages_of_loaded_list_witness :
  Popup.parsePackages (Popup.f_packages (PopupView.formOfState Examples.started))
  = ["a"; "b"].
Proof.
  apply (parsePackages_of_loaded_list Examples.started).
  repeat constructor; try discriminate; cbn; intuition discriminate.
Defined.

Lemma config_survives_load_and_save_witness :
  Popup.configOfForm (PopupView.formOfState Examples.started) = defaultConfig.
Proof.
  apply (config_survives_load_and_save Examples.started); try reflexivity.
  discriminate.
Defined.

Lemma accepted_start_begins_afresh_witness :
  navigations (traceOf (Popup.handleStart Examples.manualForm Examples.skippedAtCursor))
  = ["https://www.npmjs.com/package/a/access"].
Proof.
  exact (proj2 (proj2 (accepted_start_begins_afresh Examples.manualForm
                         Examples.skippedAtCursor eq_refl))).
Defined.

Section StepCases.
Import Progress.

(** What a page load can do to the record: nothing, or move past the
    package at the cursor after putting it in [skipped] or [completed]
    (or finding it in [completed] already). *)
Lemma pageLoad_cases pv s :
  Run.step (Run.PageLoad pv) s = s
  \/ (status s = running
      /\ exists p, currentPackage s = Some p /\ Content.urlPackage pv = Some p
         /\ (Run.step (Run.PageLoad pv) s =
               advanced (set_skipped (Js.pushUnique (skipped s) p) s)
             \/ Run.step (Run.PageLoad pv) s =
                  advanced (set_completed (Js.pushUnique (completed s) p) s)
             \/ (Js.includes (completed s) p = true
                 /\ Run.step (Run.PageLoad pv) s = advanced s))).
Proof.
  unfold advanced. unfold_handlers. crunch; auto.
  all: right; (split; [now destruct (status s) |]).
  all: repeat match goal with
       | H : String.eqb ?a ?b = true |- _ => apply String.eqb_eq in H; subst
       end.
  all: eexists; (split; [reflexivity |]); (split; [reflexivity |]).
  all: try (left; reflexivity).
  all: try (right; left; reflexivity).
  all: right; right; split; [assumption | reflexivity].
Qed.

Lemma tabUpdated_cases url tabTitle delivered probe s :
  Run.step (Run.TabUpdated url tabTitle delivered probe) s = s
  \/ (status s = running
      /\ Run.step (Run.TabUpdated url tabTitle delivered probe) s =
         advanced (match currentPackage s with
                   | Some p => set_skipped (Js.pushUnique (skipped s) p) s
                   | None => s
                   end)).
Proof.
  unfold advanced. unfold_handlers. crunch; auto.
  all: right; (split; [now destruct (status s) | reflexivity]).
Qed.

Lemma observed_cases d pkg s :
  Run.step (Run.Observed d pkg) s = s
  \/ Run.step (Run.Observed d pkg) s =
     set_completed (Js.pushUnique (completed s) pkg) s.
Proof. unfold_handlers. crunch; auto. Qed.

End StepCases.

(** ** What the outcome writes do to the buckets *)

Section BucketWrites.
Import Popup Progress.

Lemma onlyAdds_same l : Spec.onlyAdds l l.
Proof. now left. Qed.

Lemma onlyAdds_pushUnique l p : Spec.onlyAdds l (Js.pushUnique l p).
Proof.
  unfold Js.pushUnique. destruct (Js.includes l p) eqn:E; [now left |].
  right. exists p. now split.
Qed.

(** C1, amended: when the Controller's [packageResult] handler takes the
    already-configured branch (the name goes to [skipped]) or the success
    branch (the name goes to [completed]), the name is taken out of the
    other of these two buckets; no other name changes bucket, [failed] is
    left alone, and so these two branches keep [completed] and [skipped]
    disjoint.  The not-found branch and the failure branch of the handler,
    the [next] command, and the two direct writes of the Page Agent (on a
    page load and from its result observer) leave two of the buckets as
    they are and at most push one name, which was not in it, on the third;
    they take nothing out. *)
Theorem packageResult_moves_between_skipped_and_completed s m :
  let s' := stateOf (handlePackageResult m s) in
  let p := Msg.packageName m in
  let moves :=
    (Msg.alreadyConfigured m && negb (Msg.completed m)) || negb (Msg.notFound m) in
  (Msg.success m = true -> moves = true ->
   (if Msg.alreadyConfigured m && negb (Msg.completed m)
    then In p (skipped s') /\ ~ In p (completed s')
    else In p (completed s') /\ ~ In p (skipped s'))
   /\ (forall q, q <> p ->
         (In q (completed s') <-> In q (completed s))
         /\ (In q (skipped s') <-> In q (skipped s)))
   /\ failed s' = failed s
   /\ ((forall q, ~ (In q (completed s) /\ In q (skipped s))) ->
       forall q, ~ (In q (completed s') /\ In q (skipped s'))))
  /\ (Msg.success m = true -> moves = false ->
      completed s' = completed s /\ failed s' = failed s
      /\ Spec.onlyAdds (skipped s) (skipped s'))
  /\ (Msg.success m = false ->
      completed s' = completed s /\ skipped s' = skipped s
      /\ Spec.onlyAdds (failed s) (failed s'))
  /\ (let n := stateOf (handleNext s) in
      failed n = failed s /\ skipped n = skipped s
      /\ Spec.onlyAdds (completed s) (completed n))
  /\ (forall pv,
        let a := Run.step (Run.PageLoad pv) s in
        failed a = failed s
        /\ ((completed a = completed s /\ Spec.onlyAdds (skipped s) (skipped a))
            \/ (skipped a = skipped s /\ Spec.onlyAdds (completed s) (completed a))))
  /\ (forall d pkg,
        let a := Run.step (Run.Observed d pkg) s in
        failed a = failed s /\ skipped a = skipped s
        /\ Spec.onlyAdds (completed s) (completed a)).
Proof.
  intros s' p moves. split; [| split; [| split; [| split; [| split]]]].
  - intros Hok Hbr.
    destruct (buckets_of_packageResult s m Hok) as (Hc & Hs & Hf).
    subst s' moves. rewrite Hc, Hs, Hf. clear Hc Hs Hf.
    unfold Run.bucketsAfterSuccess. fold p.
    destruct (Msg.alreadyConfigured m && negb (Msg.completed m)) eqn:Eb; cbn in Hbr.
    + cbn. split; [split; [apply pushUnique_In; now right | rewrite without_In; tauto] |].
      split; [intros q Hne; rewrite without_In, pushUnique_In; tauto |].
      split; [reflexivity |].
      intros Hd q. rewrite without_In, pushUnique_In.
      intros [[Hq1 Hne] [Hq2 | Hq2]]; [apply (Hd q); tauto | contradiction].
    + apply negb_true_iff in Hbr. rewrite Hbr. cbn.
      split; [split; [apply pushUnique_In; now right | rewrite without_In; tauto] |].
      split; [intros q Hne; rewrite without_In, pushUnique_In; tauto |].
      split; [reflexivity |].
      intros Hd q. rewrite without_In, pushUnique_In.
      intros [[Hq1 | Hq1] [Hq2 Hne]]; [apply (Hd q); tauto | contradiction].
  - intros Hok Hbr.
    destruct (buckets_of_packageResult s m Hok) as (Hc & Hs & Hf).
    subst s' moves. rewrite Hc, Hs, Hf. clear Hc Hs Hf.
    unfold Run.bucketsAfterSuccess. fold p.
    apply orb_false_iff in Hbr. destruct Hbr as [-> Hnf].
    apply negb_false_iff in Hnf. rewrite Hnf. cbn.
    split; [reflexivity |]. split; [reflexivity |]. apply onlyAdds_pushUnique.
  - intros Hko. subst s'. rewrite (handlePackageResult_failure s m Hko). cbn.
    split; [reflexivity |]. split; [reflexivity |]. apply onlyAdds_pushUnique.
  - cbv zeta. rewrite handleNext_state. cbv zeta.
    destruct (currentPackage s) as [q |].
    + destruct (Js.truthy (Some q) && negb (Js.includes (completed s) q)
                && negb (Js.includes (failed s) q)) eqn:E;
        destruct (List.length (packages s) <=? S (currentIndex s)); cbn;
        (split; [reflexivity |]); (split; [reflexivity |]);
        try apply onlyAdds_same.
      all: right; exists q; split; [| reflexivity].
      all: apply andb_true_iff in E; destruct E as [E _];
        apply andb_true_iff in E; destruct E as [_ E];
        now apply negb_true_iff in E.
    + destruct (List.length (packages s) <=? S (currentIndex s)); cbn;
        (split; [reflexivity |]); (split; [reflexivity |]); apply onlyAdds_same.
  - intros pv a. subst a.
    destruct (pageLoad_cases pv s) as [-> | (_ & q & _ & _ & [-> | [-> | [_ ->]]])].
    + split; [reflexivity |]. left. split; [reflexivity | apply onlyAdds_same].
    + unfold advanced. destruct (_ <=? _); cbn.
      all: split; [reflexivity |]; left; split; [reflexivity | apply onlyAdds_pushUnique].
    + unfold advanced. destruct (_ <=? _); cbn.
      all: split; [reflexivity |]; right; split; [reflexivity | apply onlyAdds_pushUnique].
    + unfold advanced. destruct (_ <=? _); cbn.
      all: split; [reflexivity |]; left; split; [reflexivity | apply onlyAdds_same].
  - intros d pkg a. subst a.
    destruct (observed_cases d pkg s) as [-> | ->].
    + split; [reflexivity |]. split; [reflexivity | apply onlyAdds_same].
    + cbn. split; [reflexivity |]. split; [reflexivity | apply onlyAdds_pushUnique].
Qed.

End BucketWrites.

Lemma packageResult_moves_between_skipped_and_completed_witness :
  skipped (stateOf (Popup.handlePackageResult (Content.completedMsg "a")
                                              Examples.skippedAtCursor)) = []
  /\ In "a" (completed (stateOf (Popup.handlePackageResult (Content.completedMsg "a")
                                                            Examples.skippedAtCursor))).
Proof.
  pose proof (proj1 (packageResult_moves_between_skipped_and_completed
                       Examples.skippedAtCursor (Content.completedMsg "a"))
                    eq_refl eq_refl)
    as (Hin & _).
  cbn in Hin. split; [reflexivity | exact (proj1 Hin)].
Defined.


Section Invariants.
Import Progress.

Lemma advanced_fields s :
  packages (advanced s) = packages s /\ config (advanced s) = config s
  /\ completed (advanced s) = completed s /\ failed (advanced s) = failed s
  /\ skipped (advanced s) = skipped s
  /\ currentIndex (advanced s) = S (currentIndex s)
  /\ (status (advanced s) =
      if List.length (packages s) <=? S (currentIndex s) then idle else status s).
Proof.
  unfold advanced. destruct (List.length (packages s) <=? S (currentIndex s));
    cbn; repeat split.
Qed.

Lemma NoDup_push l x : Js.includes l x = false -> NoDup l -> NoDup (Js.push l x).
Proof.
  intros Hx Hl. apply includes_false in Hx. unfold Js.push.
  apply NoDup_app; [exact Hl | repeat constructor; intros [] |].
  intros y Hy [<- | []]. contradiction.
Qed.

Lemma NoDup_pushUnique l x : NoDup l -> NoDup (Js.pushUnique l x).
Proof.
  unfold Js.pushUnique. destruct (Js.includes l x) eqn:E; [auto |].
  now apply NoDup_push.
Qed.

Lemma NoDup_without l x : NoDup l -> NoDup (Js.without l x).
Proof. apply NoDup_filter. Qed.

Create HintDb buckets.
#[local] Hint Resolve NoDup_push NoDup_pushUnique NoDup_without : buckets.

(** X6. No operation of a run ever puts a name twice in a bucket. *)
Theorem buckets_stay_duplicate_free op s :
  bucketsNoDup s -> bucketsNoDup (Run.step op s).
Proof.
  unfold bucketsNoDup. intros (Hc & Hf & Hs).
  destruct op as [| | | m | | f | f | pv | d pkg | url t dl pr].
  - unfold_handlers. crunch. auto.
  - unfold_handlers. crunch; auto.
  - cbn [Run.step]. rewrite handleNext_state. cbn zeta.
    destruct (List.length (packages s) <=? S (currentIndex s)),
      (currentPackage s) as [p |]; cbn -[Js.includes Js.push]; auto.
    all: destruct (negb (String.eqb p "")); cbn -[Js.includes Js.push]; auto.
    all: destruct (Js.includes (completed s) p) eqn:E1;
      cbn -[Js.includes Js.push]; auto.
    all: destruct (Js.includes (failed s) p); cbn -[Js.includes Js.push];
      auto with buckets.
  - cbn [Run.step]. destruct (Msg.success m) eqn:Hm.
    + rewrite (handlePackageResult_success s m Hm). cbn zeta.
      unfold Run.bucketsAfterSuccess.
      destruct (Run.advancesOn m s), (S (currentIndex s) <? List.length (packages s)),
        (Msg.alreadyConfigured m && negb (Msg.completed m)), (Msg.notFound m);
        cbn -[Js.pushUnique Js.without]; auto with buckets.
    + rewrite (handlePackageResult_failure s m Hm). cbn -[Js.pushUnique].
      auto with buckets.
  - unfold_handlers. crunch; auto.
  - unfold_handlers. crunch; auto.
  - unfold_handlers. crunch; auto.
  - destruct (pageLoad_cases pv s) as [-> | (_ & p & _ & _ & [-> | [-> | [_ ->]]])];
      auto; destruct (advanced_fields
                        (set_skipped (Js.pushUnique (skipped s) p) s))
                as (_ & _ & E1 & E2 & E3 & _);
      destruct (advanced_fields
                  (set_completed (Js.pushUnique (completed s) p) s))
        as (_ & _ & E4 & E5 & E6 & _);
      destruct (advanced_fields s) as (_ & _ & E7 & E8 & E9 & _);
      rewrite ?E1, ?E2, ?E3, ?E4, ?E5, ?E6, ?E7, ?E8, ?E9;
      cbn -[Js.pushUnique]; auto with buckets.
  - destruct (observed_cases d pkg s) as [-> | ->]; cbn -[Js.pushUnique];
      auto with buckets.
  - destruct (tabUpdated_cases url t dl pr s) as [-> | [_ ->]]; auto.
    match goal with
    | |- context [advanced ?x] =>
        destruct (advanced_fields x) as (_ & _ & E1 & E2 & E3 & _)
    end.
    rewrite E1, E2, E3. destruct (currentPackage s); cbn -[Js.pushUnique];
      auto with buckets.
Qed.

Ltac arith :=
  repeat match goal with
         | H : (_ <=? _) = true |- _ => apply Nat.leb_le in H
         | H : (_ <=? _) = false |- _ => apply Nat.leb_gt in H
         | H : (_ <? _) = true |- _ => apply Nat.ltb_lt in H
         | H : (_ <? _) = false |- _ => apply Nat.ltb_ge in H
         | H : Status_eqb ?a running = true |- _ =>
             assert (a = running) by (destruct a; cbn in H; congruence); clear H
         end.

Ltac bounds :=
  cbn; arith; repeat split; intros; try discriminate; try lia; try tauto.

(** As long as [next] is pressed only while its button is enabled and
    the package area is not edited, an operation keeps the cursor within
    the list, and on a package whenever the run is running. *)
Lemma cursor_stays_in_bounds op s :
  permitted op s = true -> cursorInBounds s -> cursorInBounds (Run.step op s).
Proof.
  unfold cursorInBounds. intros Hop (Hle & Hrun).
  destruct op as [| | | m | | f | f | pv | d pkg | url t dl pr];
    try discriminate Hop.
  - unfold_handlers. crunch. bounds.
  - unfold_handlers. crunch; bounds.
  - cbn in Hop. unfold Popup.nextDisabled in Hop.
    apply negb_true_iff, orb_false_iff in Hop. destruct Hop as [Hst _].
    apply negb_false_iff in Hst. arith.
    cbn [Run.step]. rewrite handleNext_state. cbn zeta.
    destruct (List.length (packages s) <=? S (currentIndex s)) eqn:E,
      (currentPackage s) as [p |]; try
      destruct (Js.truthy (Some p) && negb (Js.includes (completed s) p)
                && negb (Js.includes (failed s) p));
      bounds.
  - cbn [Run.step]. destruct (Msg.success m) eqn:Hm.
    + rewrite (handlePackageResult_success s m Hm). cbn zeta.
      destruct (Run.advancesOn m s) eqn:Ea.
      * unfold Run.advancesOn in Ea. rewrite Hm in Ea.
        apply andb_true_iff in Ea. destruct Ea as [_ Hst]. arith.
        unfold Run.bucketsAfterSuccess.
        destruct (S (currentIndex s) <? List.length (packages s)) eqn:E,
          (Msg.alreadyConfigured m && negb (Msg.completed m)), (Msg.notFound m);
          bounds.
      * unfold Run.bucketsAfterSuccess.
        destruct (Msg.alreadyConfigured m && negb (Msg.completed m)), (Msg.notFound m);
          bounds.
    + rewrite (handlePackageResult_failure s m Hm). bounds.
  - unfold_handlers. crunch; bounds.
  - unfold_handlers. crunch; bounds.
  - destruct (pageLoad_cases pv s) as [-> | (Hst & p & _ & _ & Hcase)]; [tauto |].
    assert (E : exists x, Run.step (Run.PageLoad pv) s = advanced x
                          /\ packages x = packages s /\ currentIndex x = currentIndex s
                          /\ status x = status s).
    { destruct Hcase as [-> | [-> | [_ ->]]]; eexists; repeat split. }
    destruct E as (x & -> & Ep & Ei & Es).
    destruct (advanced_fields x) as (E1 & _ & _ & _ & _ & E2 & E3).
    rewrite E1, E2, E3, Ep, Ei, Es.
    destruct (List.length (packages s) <=? S (currentIndex s)) eqn:E; bounds.
  - destruct (observed_cases d pkg s) as [-> | ->]; bounds.
  - destruct (tabUpdated_cases url t dl pr s) as [-> | [Hst ->]]; [tauto |].
    match goal with
    | |- context [advanced ?x] =>
        destruct (advanced_fields x) as (E1 & _ & _ & _ & _ & E2 & E3);
        assert (Ex : packages x = packages s /\ currentIndex x = currentIndex s
                     /\ status x = status s)
          by (destruct (currentPackage s); repeat split)
    end.
    destruct Ex as (Ep & Ei & Es). rewrite E1, E2, E3, Ep, Ei, Es.
    destruct (List.length (packages s) <=? S (currentIndex s)) eqn:E; bounds.
Qed.

Lemma start_in_bounds f s :
  Run.startAccepted f = true -> cursorInBounds (Run.start f s).
Proof.
  intros H. rewrite (start_accepted f s H). unfold cursorInBounds. cbn.
  unfold Run.startAccepted in H. apply andb_true_iff in H. destruct H as [H _].
  apply negb_true_iff, Nat.eqb_neq in H. lia.
Qed.

Lemma run_in_bounds ops : forall s,
  allPermitted ops s = true -> cursorInBounds s -> cursorInBounds (Run.run ops s).
Proof.
  induction ops as [| op ops IH]; intros s Hall Hs; cbn in *; [exact Hs |].
  apply andb_true_iff in Hall. destruct Hall as [Hop Hrest].
  apply IH; [exact Hrest | now apply cursor_stays_in_bounds].
Qed.

(** X7. In a run begun by an accepted [start] in which [next] is pressed
    only while its button is enabled and the package area is not edited,
    the cursor never leaves the list, and while the run is running there
    is a package at the cursor. *)
Theorem running_run_has_current_package f s0 ops :
  Run.startAccepted f = true ->
  allPermitted ops (Run.start f s0) = true ->
  let s := Run.run ops (Run.start f s0) in
  currentIndex s <= List.length (packages s)
  /\ (status s = running -> exists p, currentPackage s = Some p).
Proof.
  intros Hacc Hall.
  pose proof (run_in_bounds ops _ Hall (start_in_bounds f s0 Hacc)) as Hin.
  cbv zeta. generalize dependent (Run.run ops (Run.start f s0)).
  intros s [Hle Hrun].
  split; [exact Hle |]. intros Hst. specialize (Hrun Hst).
  unfold currentPackage.
  destruct (nth_error (packages s) (currentIndex s)) as [p |] eqn:E; [now exists p |].
  apply nth_error_None in E. lia.
Qed.

(** X8. While the run is paused or idle nothing automatic moves it: a
    report reaching the Controller, its advance timer, a page load and a
    tab update leave cursor and status as they are and neither navigate
    nor arm a timer; the last three do not touch the record at all. *)
Theorem automation_waits_while_not_running op s :
  automatic op = true ->
  status s <> running ->
  currentIndex (Run.step op s) = currentIndex s
  /\ status (Run.step op s) = status s
  /\ schedules (effects op s) = false
  /\ (match op with Run.Result _ => True | _ => Run.step op s = s end).
Proof.
  intros Ha Hst.
  assert (Hb : Status_eqb (status s) running = false)
    by (destruct (status s); cbn; congruence).
  destruct op as [| | | m | | f | f | pv | d pkg | url t dl pr];
    try discriminate Ha; cbn [Run.step effects].
  - unfold Popup.handlePackageResult. unfold_m. cbn_m.
    destruct (Msg.success m); cbn_m.
    + destruct (Msg.alreadyConfigured m && negb (Msg.completed m)); cbn_m;
        [| destruct (Msg.notFound m); cbn_m];
        rewrite Hb, ?andb_false_r; cbn_m; repeat split.
    + repeat split.
  - unfold Popup.advanceTimer. unfold_m. cbn_m. rewrite Hb. cbn. repeat split.
  - unfold Content.handlePageLoad, storedAfter. rewrite Hb. cbn. repeat split.
  - unfold ServiceWorker.onTabUpdated, storedAfter. rewrite Hb.
    destruct (negb (Js.strIncludes url "npmjs.com/package/")
              || negb (Js.strIncludes url "/access")); cbn; repeat split.
Qed.

(** X9. The Page Agent and the Coordinator never change the package list,
    the configuration or [failed], and never take a name out of
    [completed] or [skipped]. *)
Theorem agent_and_coordinator_only_add op s :
  match op with
  | Run.PageLoad _ | Run.Observed _ _ | Run.TabUpdated _ _ _ _ =>
      packages (Run.step op s) = packages s
      /\ config (Run.step op s) = config s
      /\ failed (Run.step op s) = failed s
      /\ incl (completed s) (completed (Run.step op s))
      /\ incl (skipped s) (skipped (Run.step op s))
  | _ => True
  end.
Proof.
  assert (Hpu : forall l x, incl l (Js.pushUnique l x))
    by (intros l x y Hy; apply pushUnique_In; now left).
  destruct op as [| | | m | | f | f | pv | d pkg | url t dl pr]; try exact I.
  - destruct (pageLoad_cases pv s) as [-> | (_ & p & _ & _ & [-> | [-> | [_ ->]]])];
      [repeat split; apply incl_refl | ..];
      match goal with
      | |- context [advanced ?x] =>
          destruct (advanced_fields x) as (E1 & E2 & E3 & E4 & E5 & _)
      end; rewrite E1, E2, E3, E4, E5; cbn -[Js.pushUnique];
      repeat split; auto using incl_refl.
  - destruct (observed_cases d pkg s) as [-> | ->]; cbn -[Js.pushUnique];
      repeat split; auto using incl_refl.
  - destruct (tabUpdated_cases url t dl pr s) as [-> | [_ ->]];
      [repeat split; apply incl_refl |].
    match goal with
    | |- context [advanced ?x] =>
        destruct (advanced_fields x) as (E1 & E2 & E3 & E4 & E5 & _)
    end. rewrite E1, E2, E3, E4, E5.
    destruct (currentPackage s); cbn -[Js.pushUnique];
      repeat split; auto using incl_refl.
Qed.

(** A page load for another package than the one at the cursor does
    nothing to the record. *)
Lemma pageLoad_stale pv s :
  currentPackage s <> Content.urlPackage pv -> Run.step (Run.PageLoad pv) s = s.
Proof.
  intros Hne. destruct (pageLoad_cases pv s) as [E | (_ & p & Hc & Hu & _)];
    [exact E | congruence].
Qed.

(** X10. Handling the same page load twice moves the cursor once: when
    the package after the cursor is not the one the page is about, the
    second handling finds the tab stale and leaves the record alone. *)
Theorem page_load_is_handled_once pv s :
  nth_error (packages s) (S (currentIndex s)) <> Content.urlPackage pv ->
  Run.step (Run.PageLoad pv) (Run.step (Run.PageLoad pv) s)
  = Run.step (Run.PageLoad pv) s.
Proof.
  intros Hnext.
  destruct (pageLoad_cases pv s) as [E | (_ & p & _ & _ & Hcase)];
    [now rewrite !E |].
  apply pageLoad_stale. unfold currentPackage.
  assert (E : exists x, Run.step (Run.PageLoad pv) s = advanced x
                        /\ packages x = packages s
                        /\ currentIndex x = currentIndex s).
  { destruct Hcase as [-> | [-> | [_ ->]]]; eexists; repeat split. }
  destruct E as (x & -> & Ep & Ei).
  destruct (advanced_fields x) as (E1 & _ & _ & _ & _ & E2 & _).
  now rewrite E1, E2, Ep, Ei.
Qed.

End Invariants.

Section AgentBranches.
Import Progress Content.

Variables (s : State) (pv : PageView) (p : string).
Hypothesis Hrun : status s = running.
Hypothesis Hclear : hasTurnstileChallenge (onLoad pv) = false.
Hypothesis Haccess : isAccessPage (pathname pv) = true.
Hypothesis Hurl : urlPackage pv = Some p.
Hypothesis Hcur : currentPackage s = Some p.
Hypothesis Hfound : isNotFoundPage (settled pv) = false.

Ltac enter :=
  unfold handlePageLoad, handlePageLoadBody, advanceTrace, advanced, advance;
  rewrite Hrun; unfold_m; cbn_m; rewrite Hclear, Haccess, Hurl, Hcur;
  rewrite String.eqb_refl; cbn_m; rewrite Hfound; cbn_m.

(** X11. A page that already shows the success notice: the package goes
    to [completed] (once), the cursor moves on, and the report says
    completed. *)
Theorem success_notice_completes :
  checkForSuccess (settled pv) = true ->
  handlePageLoad (Some s) pv =
  advanceTrace (set_completed (Js.pushUnique (completed s) p) s) (completedMsg p).
Proof.
  intros Hok. enter. rewrite Hok. cbn_m.
  destruct (List.length (packages s) <=? S (currentIndex s)); reflexivity.
Qed.

(** X12. Configure mode, page already configured: a package completed in
    this run is left out of [skipped] and reported as completed; any other
    is put in [skipped] (once) and reported as already configured.  Either
    way the cursor moves on. *)
Theorem already_configured_is_skipped_unless_completed :
  checkForSuccess (settled pv) = false ->
  mode (config s) <> Some "delete" ->
  isAlreadyConfigured (config s) (settled pv) = true ->
  handlePageLoad (Some s) pv =
  if Js.includes (completed s) p
  then advanceTrace s (alreadyConfiguredMsg p false true)
  else advanceTrace (set_skipped (Js.pushUnique (skipped s) p) s)
                    (alreadyConfiguredMsg p true false).
Proof.
  intros Hok Hmode Hconf. enter. rewrite Hok. cbn_m.
  assert (Hm : match mode (config s) with
               | Some m => String.eqb m "delete"
               | None => false
               end = false).
  { destruct (mode (config s)) as [m |]; [| reflexivity].
    apply String.eqb_neq. congruence. }
  rewrite Hm. unfold configureMode. unfold_m. cbn_m. rewrite Hconf.
  unfold advance. unfold_m.
  destruct (Js.includes (completed s) p); cbn_m;
    destruct (List.length (packages s) <=? S (currentIndex s)); reflexivity.
Qed.

(** X13. Delete mode, no challenge and no Delete control: nothing is
    configured, so the package goes to [skipped] (once), the cursor moves
    on, and the report carries [alreadyConfigured]. *)
Theorem nothing_to_delete_is_skipped :
  checkForSuccess (settled pv) = false ->
  mode (config s) = Some "delete" ->
  hasTurnstileChallenge (settled pv) = false ->
  hasDeleteButton (settled pv) = false ->
  handlePageLoad (Some s) pv =
  advanceTrace (set_skipped (Js.pushUnique (skipped s) p) s)
               (alreadyConfiguredMsg p true false).
Proof.
  intros Hok Hmode Hch Hdel. enter. rewrite Hok. cbn_m. rewrite Hmode.
  change (String.eqb "delete" "delete") with true. cbn_m.
  unfold deleteMode, advance. unfold_m. rewrite Hch. cbn_m. rewrite Hdel. cbn_m.
  destruct (List.length (packages s) <=? S (currentIndex s)); reflexivity.
Qed.

(** X14. Configure mode, form needed: the Page Agent never stores the
    record and never navigates; it reports a failure exactly when the
    form's first field shows up neither at once nor after the reveal
    click, or when no field could be filled, and is silent otherwise. *)
Theorem form_branch_leaves_the_record :
  checkForSuccess (settled pv) = false ->
  mode (config s) <> Some "delete" ->
  isAlreadyConfigured (config s) (settled pv) = false ->
  let tr := handlePageLoad (Some s) pv in
  persisted tr = [] /\ schedules tr = false
  /\ sent tr =
     if negb (formAppears pv || formAppearsAfterReveal pv)
     then [failureMsg p "Could not find form fields"]
     else if negb (fillForm (atFill pv))
          then [failureMsg p "Failed to fill form"]
          else [].
Proof.
  intros Hok Hmode Hconf. enter. rewrite Hok. cbn_m.
  assert (Hm : match mode (config s) with
               | Some m => String.eqb m "delete"
               | None => false
               end = false).
  { destruct (mode (config s)) as [m |]; [| reflexivity].
    apply String.eqb_neq. congruence. }
  rewrite Hm. unfold configureMode, setupSuccessObserver. unfold_m. cbn_m.
  rewrite Hconf. cbn_m.
  destruct (formAppears pv); cbn_m;
    [| destruct (clickGitHubActionsButton (atReveal pv)); cbn_m;
       destruct (formAppearsAfterReveal pv); cbn_m];
    destruct (fillForm (atFill pv)); cbn_m;
    try destruct (observing pv); cbn_m;
    try destruct (autoSubmit (config s)); cbn_m;
    try destruct (clickSetupButton (atSubmit pv)); cbn_m;
    repeat split.
Qed.

End AgentBranches.

Lemma success_notice_completes_witness :
  Content.handlePageLoad (Some Examples.started) MoreExamples.successPage =
  [Persist (mkState running ["a"; "b"] 1 ["a"] [] [] defaultConfig);
   NavigateAfter 500 "https://www.npmjs.com/package/b/access";
   Send (Content.completedMsg "a")].
Proof.
  exact (success_notice_completes Examples.started MoreExamples.successPage "a"
           eq_refl eq_refl eq_refl eq_refl eq_refl eq_refl eq_refl).
Defined.

Lemma already_configured_is_skipped_unless_completed_witness :
  Content.handlePageLoad (Some Examples.started) MoreExamples.configuredPage =
  [Persist (mkState running ["a"; "b"] 1 [] [] ["a"] defaultConfig);
   NavigateAfter 500 "https://www.npmjs.com/package/b/access";
   Send (Content.alreadyConfiguredMsg "a" true false)].
Proof.
  refine (already_configured_is_skipped_unless_completed
            Examples.started MoreExamples.configuredPage "a"
            eq_refl eq_refl eq_refl eq_refl eq_refl eq_refl eq_refl _ eq_refl).
  discriminate.
Defined.

Lemma nothing_to_delete_is_skipped_witness :
  Content.handlePageLoad (Some MoreExamples.deleting) MoreExamples.plainPage =
  Progress.advanceTrace
    (set_skipped ["a"] MoreExamples.deleting) (Content.alreadyConfiguredMsg "a" true false).
Proof.
  exact (nothing_to_delete_is_skipped MoreExamples.deleting MoreExamples.plainPage "a"
           eq_refl eq_refl eq_refl eq_refl eq_refl eq_refl eq_refl eq_refl eq_refl eq_refl).
Defined.

Lemma form_branch_leaves_the_record_witness :
  Progress.sent (Content.handlePageLoad (Some Examples.started) MoreExamples.plainPage)
  = [Content.failureMsg "a" "Could not find form fields"].
Proof.
  refine (proj2 (proj2 (form_branch_leaves_the_record
                          Examples.started MoreExamples.plainPage "a"
                          eq_refl eq_refl eq_refl eq_refl eq_refl eq_refl eq_refl _ eq_refl))).
  discriminate.
Defined.

Section CoordinatorSkip.
Import Progress ServiceWorker.

(** X15. The Coordinator acts only on a finished load of a package access
    page while the run is running, and then only when the tab title looks
    like a 404 or the page script could not be reached and the injected
    probe found the not-found text: it then puts the package at the
    cursor in [skipped], moves the cursor, stores the record and, unless
    the list is exhausted, navigates at once.  Otherwise it does nothing. *)
Theorem coordinator_skips_only_a_404 s url tabTitle delivered probe p :
  currentPackage s = Some p ->
  let relevant :=
    Js.strIncludes url "npmjs.com/package/" && Js.strIncludes url "/access"
    && Status_eqb (status s) running in
  let is404 :=
    Js.strIncludes tabTitle "404" || Js.strIncludes tabTitle "Not Found"
    || String.eqb tabTitle "" in
  let probed := negb delivered && match probe with Some true => true | _ => false end in
  onTabUpdated (Some s) url tabTitle delivered probe =
  if relevant && (is404 || probed)
  then let x := set_skipped (Js.pushUnique (skipped s) p) s in
       Persist (advanced x)
       :: (if List.length (packages s) <=? S (currentIndex s) then []
           else [Navigate (accessUrl (nth (S (currentIndex s)) (packages s) ""))])
  else [].
Proof.
  intros Hcur. cbv zeta. unfold onTabUpdated, handle404Skip, advanced.
  destruct (Js.strIncludes url "npmjs.com/package/"); cbn_m; [| reflexivity].
  destruct (Js.strIncludes url "/access"); cbn_m; [| reflexivity].
  destruct (Status_eqb (status s) running); cbn_m; [| reflexivity].
  destruct (Js.strIncludes tabTitle "404" || Js.strIncludes tabTitle "Not Found"
            || String.eqb tabTitle "") eqn:E404; cbn_m.
  - unfold_m. cbn_m. rewrite Hcur. cbn_m.
    destruct (List.length (packages s) <=? S (currentIndex s)); reflexivity.
  - destruct delivered; cbn_m; [reflexivity |].
    destruct probe as [[|] |]; cbn_m; try reflexivity.
    unfold_m. cbn_m. rewrite Hcur. cbn_m.
    destruct (List.length (packages s) <=? S (currentIndex s)); reflexivity.
Qed.

End CoordinatorSkip.

Lemma coordinator_skips_only_a_404_witness :
  ServiceWorker.onTabUpdated (Some Examples.started)
    "https://www.npmjs.com/package/a/access" "404 - npm" true None =
  [Persist (mkState running ["a"; "b"] 1 [] [] ["a"] defaultConfig);
   Navigate "https://www.npmjs.com/package/b/access"].
Proof.
  exact (coordinator_skips_only_a_404 Examples.started
           "https://www.npmjs.com/package/a/access" "404 - npm" true None "a" eq_refl).
Defined.

Section PendingCount.
Import PopupUi.

Lemma bucket_size_in_list (P l : list string) :
  NoDup l -> incl l P -> NoDup P ->
  List.length l = List.length (filter (Js.includes l) P).
Proof.
  intros Hl Hin HP. apply Permutation_length.
  apply NoDup_Permutation; [exact Hl | now apply NoDup_filter |].
  intros x. rewrite filter_In, includes_In. split; [| tauto].
  intros Hx. split; [now apply Hin | exact Hx].
Qed.

Lemma list_splits_in_four s (P : list string) :
  Spec.exclusive s ->
  List.length P =
  List.length (filter (Js.includes (completed s)) P)
  + List.length (filter (Js.includes (failed s)) P)
  + List.length (filter (Js.includes (skipped s)) P)
  + List.length (filter (fun p => negb (Js.includes (completed s) p)
                                   && negb (Js.includes (failed s) p)
                                   && negb (Js.includes (skipped s) p)) P).
Proof.
  intros Hex. induction P as [| x P IH]; [reflexivity |].
  specialize (Hex x). unfold Run.bucketCount in Hex. cbn [filter].
  destruct (Js.includes (completed s) x), (Js.includes (failed s) x),
    (Js.includes (skipped s) x); cbn in *; lia.
Qed.

(** X16. The pending count shown by [updateUI] is the number of items the
    pending tab lists, provided the package list and the buckets hold no
    name twice, the buckets hold names of the list only, and no name is
    in two buckets. *)
Theorem pending_count_matches_pending_tab s :
  NoDup (packages s) ->
  Progress.bucketsNoDup s ->
  incl (completed s) (packages s) ->
  incl (failed s) (packages s) ->
  incl (skipped s) (packages s) ->
  Spec.exclusive s ->
  pendingCount (updateUI s) = List.length (resultItems "pending" s).
Proof.
  intros HP (Hc & Hf & Hk) Ic If Ik Hex.
  unfold updateUI, resultItems. cbn [pendingCount].
  change (String.eqb "pending" "completed") with false.
  change (String.eqb "pending" "failed") with false.
  change (String.eqb "pending" "skipped") with false.
  change (String.eqb "pending" "pending") with true. cbv iota.
  pose proof (list_splits_in_four s (packages s) Hex) as Hsplit.
  rewrite <- (bucket_size_in_list _ _ Hc Ic HP) in Hsplit.
  rewrite <- (bucket_size_in_list _ _ Hf If HP) in Hsplit.
  rewrite <- (bucket_size_in_list _ _ Hk Ik HP) in Hsplit.
  lia.
Qed.

End PendingCount.

Lemma pending_count_matches_pending_tab_witness :
  PopupUi.pendingCount (PopupUi.updateUI MoreExamples.mixedRun) = 1.
Proof.
  rewrite (pending_count_matches_pending_tab MoreExamples.mixedRun).
  - reflexivity.
  - repeat constructor; cbn; intuition discriminate.
  - repeat split; repeat constructor; cbn; intuition discriminate.
  - intros x [<- | []]. cbn. auto.
  - intros x [<- | []]. cbn. auto.
  - intros x [].
  - intros x. unfold Run.bucketCount. cbn -[Js.includes].
    change (Js.includes [] x) with false.
    unfold Js.includes. cbn.
    destruct (String.eqb_spec x "a"), (String.eqb_spec x "b"); subst; cbn;
      try discriminate; lia.
Defined.

Section PublisherRuns.
Import Publisher PublisherTrace.
Variable op : nat -> string.
Variable pnpm : nat -> string -> string -> bool.

(** X17. The publisher ends with status 0 or 1, and with 0 exactly when
    the list file exists, the secrets CLI is installed and every passcode
    asked for is non-empty.  When the file or the CLI is missing it only
    prints one error line: no passcode is asked for, nothing is published. *)
Theorem publisher_exit_status PACKAGES_FILE file opInstalled :
  let r := main op pnpm PACKAGES_FILE file opInstalled in
  (exitCode r = 0%Z \/ exitCode r = 1%Z)
  /\ (exitCode r = 0%Z <->
      exists content, file = Some content /\ opInstalled = true
        /\ forall a, In a (attempts 0 (readLines content)) -> op (fst a) <> "")
  /\ (file = None \/ opInstalled = false ->
      List.length (trace r) = 1 /\ opCalls (trace r) = [] /\ publishes (trace r) = []).
Proof.
  cbv zeta. unfold main.
  destruct file as [content |]; [destruct opInstalled |]; cbn [negb].
  - set (lines := readLines content).
    set (TOTAL := List.length lines).
    set (tr0 := [Echo ("Publishing " ++ showNat TOTAL ++ " packages...")%string; Echo ""]).
    pose proof (publishLoop_spec op pnpm TOTAL lines 0 tr0 [] []) as Hspec.
    destruct (publishLoop op pnpm 0 TOTAL lines tr0 [] []) as [r | r].
    + destruct Hspec as (_ & Hall & _). cbn [exitCode].
      split; [now left |]. split.
      * split; [intros _; exists content; auto | reflexivity].
      * intros [H | H]; discriminate H.
    + destruct Hspec as (He & pre & pkg & post & Hl & _ & Hemp & _).
      split; [now right |]. split.
      * split; [intros H; rewrite He in H; discriminate H |].
        intros (c & [= <-] & _ & Hall). exfalso.
        apply (Hall (S (List.length pre), pkg)); [| exact Hemp].
        fold lines. rewrite Hl, attempts_app. apply in_or_app. right. cbn. now left.
      * intros [H | H]; discriminate H.
  - cbn. split; [now right |]. split.
    + split; [discriminate |]. intros (c & _ & H & _). discriminate H.
    + intros _. repeat split.
  - cbn. split; [now right |]. split.
    + split; [discriminate |]. intros (c & H & _). discriminate H.
    + intros _. repeat split.
Qed.

Lemma slept_app tr1 tr2 : slept (tr1 ++ tr2) = slept tr1 + slept tr2.
Proof.
  induction tr1 as [| e tr1 IH]; [reflexivity |].
  destruct e; cbn; rewrite IH; lia.
Qed.

Lemma opCalls_app tr1 tr2 : opCalls (tr1 ++ tr2) = opCalls tr1 ++ opCalls tr2.
Proof.
  induction tr1 as [| e tr1 IH]; [reflexivity |].
  destruct e; cbn; now rewrite IH.
Qed.

Lemma publishLoop_totals TOTAL lines : forall i tr succeeded failed,
  match publishLoop op pnpm i TOTAL lines tr succeeded failed with
  | inl r =>
      slept (trace r) =
        slept tr + SLEEP_SECONDS
                   * List.length (filter (fun a => fst a <? TOTAL) (attempts i lines))
      /\ opCalls (trace r) = opCalls tr ++ map fst (attempts i lines)
  | inr _ => True
  end.
Proof.
  induction lines as [| pkg rest IH]; intros i tr succeeded failed.
  - cbn. rewrite app_nil_r. split; [lia | reflexivity].
  - cbn [publishLoop]. destruct (String.eqb (op (S i)) ""); [exact I |].
    match goal with
    | |- match publishLoop _ _ _ _ _ ?tr' ?s' ?f' with _ => _ end =>
        specialize (IH (S i) tr' s' f');
        assert (Hs : slept tr' = slept tr + (if S i <? TOTAL then SLEEP_SECONDS else 0))
          by (destruct (S i <? TOTAL); rewrite !slept_app; unfold SLEEP_SECONDS;
              cbn; lia);
        assert (Ho : opCalls tr' = opCalls tr ++ [S i])
          by (destruct (S i <? TOTAL); rewrite !opCalls_app; cbn;
              now rewrite ?app_nil_r);
        destruct (publishLoop op pnpm (S i) TOTAL rest tr' s' f') as [r | r]
    end; [| exact I].
    destruct IH as [IHs IHo]. rewrite IHs, IHo, Hs, Ho.
    cbn [attempts filter map fst]. rewrite <- app_assoc. split; [| reflexivity].
    unfold SLEEP_SECONDS. destruct (S i <? TOTAL); cbn [List.length].
    all: lia.
Qed.

Lemma all_but_last_wait (lines : list string) : forall i,
  List.length (filter (fun a => fst a <? i + List.length lines) (attempts i lines))
  = List.length lines - 1.
Proof.
  induction lines as [| x rest IH]; intros i; [reflexivity |].
  cbn [attempts filter List.length fst].
  specialize (IH (S i)).
  replace (i + S (List.length rest)) with (S i + List.length rest) by lia.
  destruct (S i <? S i + List.length rest) eqn:E.
  - apply Nat.ltb_lt in E. cbn [List.length]. rewrite IH. lia.
  - apply Nat.ltb_ge in E. rewrite IH. lia.
Qed.

Lemma attempts_names (lines : list string) : forall i,
  map snd (attempts i lines) = lines.
Proof. induction lines as [| x rest IH]; intros i; cbn; [| rewrite IH]; reflexivity. Qed.

Lemma filter_both_ways {A} (f : A -> bool) (l : list A) :
  Permutation (filter f l ++ filter (fun a => negb (f a)) l) l.
Proof.
  induction l as [| x l IH]; [constructor |].
  cbn. destruct (f x); cbn.
  - now constructor.
  - apply Permutation_sym, Permutation_cons_app, Permutation_sym, IH.
Qed.

(** X18. A publisher run that ends with status 0 has asked for one fresh
    passcode per line of the list file and published each line once, in
    order, with the passcode asked for in its iteration; SUCCEEDED and
    FAILED together hold exactly the lines of the file; and the script has
    slept five seconds between two publishes and not after the last. *)
Theorem completed_publisher_run_accounts_for_every_line PACKAGES_FILE content :
  let r := main op pnpm PACKAGES_FILE (Some content) true in
  let lines := readLines content in
  exitCode r = 0%Z ->
  publishes (trace r) = map (fun a => (snd a, op (fst a))) (attempts 0 lines)
  /\ opCalls (trace r) = seq 1 (List.length lines)
  /\ Permutation (SUCCEEDED r ++ FAILED r) lines
  /\ slept (trace r) = SLEEP_SECONDS * (List.length lines - 1).
Proof.
  cbv zeta. unfold main. cbn [negb].
  set (lines := readLines content).
  set (TOTAL := List.length lines).
  set (tr0 := [Echo ("Publishing " ++ showNat TOTAL ++ " packages...")%string; Echo ""]).
  pose proof (publishLoop_spec op pnpm TOTAL lines 0 tr0 [] []) as Hspec.
  pose proof (publishLoop_totals TOTAL lines 0 tr0 [] []) as Htot.
  destruct (publishLoop op pnpm 0 TOTAL lines tr0 [] []) as [r | r].
  - destruct Hspec as (_ & _ & Hs & Hf & Hp & _). destruct Htot as [Hsl Hop].
    cbn [exitCode trace SUCCEEDED FAILED]. intros _.
    assert (Hsum : forall s f, publishes (summary s f) = [] /\ opCalls (summary s f) = []
                               /\ slept (summary s f) = 0).
    { intros s f. unfold summary, failedBlock.
      destruct (0 <? List.length f); cbn;
        rewrite ?publishes_app, ?opCalls_app, ?slept_app; cbn;
        repeat split; induction f; cbn; auto. }
    destruct (Hsum (SUCCEEDED r) (FAILED r)) as (E1 & E2 & E3).
    rewrite publishes_app, opCalls_app, slept_app, E1, E2, E3, !app_nil_r, Nat.add_0_r.
    rewrite Hp, Hop, Hsl, Hs, Hf. cbn [app publishes opCalls slept tr0].
    split; [reflexivity |]. split; [| split].
    + clear. generalize 0 at 1 2. induction lines as [| x l IH]; intros i; cbn;
        [reflexivity | now rewrite IH].
    + apply (Permutation_trans (l' := map snd (attempts 0 lines)));
        [| rewrite attempts_names; apply Permutation_refl].
      rewrite <- map_app. apply Permutation_map. unfold rejected.
      apply filter_both_ways.
    + pose proof (all_but_last_wait lines 0) as Hw. cbn [Nat.add] in Hw.
      fold TOTAL in Hw. rewrite Hw. unfold SLEEP_SECONDS. lia.
  - destruct Hspec as (He & _). intros H. rewrite He in H. discriminate H.
Qed.

End PublisherRuns.

Lemma completed_publisher_run_accounts_for_every_line_witness :
  PublisherTrace.slept
    (Publisher.trace (Publisher.main Examples.passcode Examples.publishFailsForB
                        "unpublished-packages.txt" (Some Examples.listFile) true)) = 5.
Proof.
  exact (proj2 (proj2 (proj2
           (completed_publisher_run_accounts_for_every_line
              Examples.passcode Examples.publishFailsForB
              "unpublished-packages.txt" Examples.listFile eq_refl)))).
Defined.

Section Selection.
Import CheckerMain.
Variable manifest : string -> option bool.

Lemma select_fold data : forall acc,
  fold_left (fun acc pkg =>
               if isPrivate manifest pkg then (fst acc, Js.push (snd acc) (fst pkg))
               else (Js.push (fst acc) (fst pkg), snd acc)) data acc =
  (fst acc ++ map fst (filter (fun pkg => negb (isPrivate manifest pkg)) data),
   snd acc ++ map fst (filter (isPrivate manifest) data)).
Proof.
  induction data as [| pkg data IH]; intros [pk sk]; cbn.
  - now rewrite !app_nil_r.
  - rewrite IH. unfold Js.push. destruct (isPrivate manifest pkg); cbn;
      now rewrite <- ?app_assoc.
Qed.

Lemma packagesData_names listing n dir :
  In (n, dir) (packagesData listing) ->
  Js.startsWith n "@dxos/" = true /\ In (mkListed (Some n) dir) listing.
Proof.
  unfold packagesData. rewrite in_flat_map. intros [[[m |] d] [Hin H]]; cbn in H.
  - destruct (Js.startsWith m "@dxos/") eqn:E; [| contradiction].
    destruct H as [[= <- <-] | []]. auto.
  - contradiction.
Qed.

(** X19. The Node checker probes a listed package exactly when its name
    starts with [@dxos/] and its manifest is missing or not marked
    private; the names so selected keep the order of the listing, and
    every other [@dxos/] entry is counted as private. *)
Theorem selection_keeps_public_dxos_packages listing :
  let data := packagesData listing in
  select manifest listing =
    (map fst (filter (fun pkg => negb (isPrivate manifest pkg)) data),
     map fst (filter (isPrivate manifest) data))
  /\ (forall n, In n (fst (select manifest listing)) ->
        Js.startsWith n "@dxos/" = true
        /\ exists dir, In (mkListed (Some n) dir) listing /\ manifest dir <> Some true)
  /\ Permutation (fst (select manifest listing) ++ snd (select manifest listing))
                 (map fst data).
Proof.
  cbv zeta. unfold select. rewrite select_fold. cbn [fst snd app].
  split; [reflexivity |]. split.
  - intros n Hn. apply in_map_iff in Hn. destruct Hn as [[m dir] [E Hin]].
    cbn in E. subst m. apply filter_In in Hin. destruct Hin as [Hin Hp].
    destruct (packagesData_names _ _ _ Hin) as [Hs Hl].
    split; [exact Hs |]. exists dir. split; [exact Hl |].
    unfold isPrivate in Hp. cbn in Hp. intros E. rewrite E in Hp. discriminate Hp.
  - rewrite <- map_app. apply Permutation_map.
    apply Permutation_trans with
      (filter (isPrivate manifest) (packagesData listing)
       ++ filter (fun a => negb (isPrivate manifest a)) (packagesData listing));
      [apply Permutation_app_comm | apply filter_both_ways].
Qed.

End Selection.

Section ListFile.
Import Publisher PublisherTrace.

Lemma str_app_assoc (a b c : string) : ((a ++ b) ++ c = a ++ (b ++ c))%string.
Proof. induction a as [| x a IH]; cbn; [reflexivity | now rewrite IH]. Qed.

Lemma printfLines_join l :
  l <> [] ->
  (Js.join ShellChecker.LFs l ++ ShellChecker.LFs)%string = ShellChecker.printfLines l.
Proof.
  induction l as [| x l IH]; [congruence |]. intros _.
  destruct l as [| y l].
  - reflexivity.
  - change (Js.join ShellChecker.LFs (x :: y :: l))
      with (x ++ ShellChecker.LFs ++ Js.join ShellChecker.LFs (y :: l))%string.
    change (ShellChecker.printfLines (x :: y :: l))
      with (x ++ ShellChecker.LFs ++ ShellChecker.printfLines (y :: l))%string.
    rewrite <- IH by discriminate.
    now rewrite !str_app_assoc.
Qed.

Lemma split_printfLines l :
  Forall (fun p => ~ In Js.LF (list_ascii_of_string p)) l ->
  Js.split Js.LF (ShellChecker.printfLines l) = l ++ [""].
Proof.
  induction 1 as [| p l Hp _ IH]; [reflexivity |].
  change (ShellChecker.printfLines (p :: l))
    with (p ++ String Js.LF (ShellChecker.printfLines l))%string.
  rewrite split_line by exact Hp. now rewrite IH.
Qed.

(** Reading a file of lines written one name per line gives the names back. *)
Lemma readLines_printfLines l :
  Forall plainLine l -> readLines (ShellChecker.printfLines l) = l.
Proof.
  intros Hl. unfold readLines. rewrite split_printfLines.
  - rewrite removelast_last. induction Hl as [| p l [Hp _] _ IH]; [reflexivity |].
    cbn. now rewrite Hp, IH.
  - eapply Forall_impl; [| exact Hl]. intros p [_ H]. exact H.
Qed.

(** X20. The publisher reads back what the Node checker wrote: when the
    unpublished names have no blank at either end and no line feed, the
    lines the publisher loops over are exactly the unpublished list, in
    order.  The checker writes no file when that list is empty. *)
Theorem publisher_reads_the_checker_file (results : Checker.Results) :
  Forall plainLine (Checker.unpublished results) ->
  match Checker.unpublishedFile results with
  | Some content => readLines content = Checker.unpublished results
  | None => Checker.unpublished results = []
  end.
Proof.
  intros Hl. unfold Checker.unpublishedFile.
  destruct (Checker.unpublished results) as [| x l] eqn:E; [reflexivity |].
  cbn [List.length Nat.ltb Nat.leb].
  change (String Js.LF "") with ShellChecker.LFs.
  rewrite printfLines_join by discriminate. now apply readLines_printfLines.
Qed.

End ListFile.

Lemma publisher_reads_the_checker_file_witness :
  exists content,
    Checker.unpublishedFile ScriptExamples.unpublishedAB = Some content
    /\ Publisher.readLines content = ["@dxos/a"; "@dxos/b"].
Proof.
  eexists. split; [reflexivity |].
  apply (publisher_reads_the_checker_file ScriptExamples.unpublishedAB).
  repeat constructor; cbn; intuition discriminate.
Defined.

Section ShellTraces.
Import ShellChecker.

Lemma sh_writes_app tr1 tr2 : writes (tr1 ++ tr2) = writes tr1 ++ writes tr2.
Proof.
  induction tr1 as [| e tr1 IH]; [reflexivity |].
  destruct e; cbn; now rewrite IH.
Qed.

Lemma curlProbes_app tr1 tr2 : curlProbes (tr1 ++ tr2) = curlProbes tr1 ++ curlProbes tr2.
Proof.
  induction tr1 as [| e tr1 IH]; [reflexivity |].
  destruct e; cbn; now rewrite IH.
Qed.

Lemma writes_echo_lines (f : string -> string) l : writes (map (fun x => Echo (f x)) l) = [].
Proof. induction l; cbn; auto. Qed.

Lemma curlProbes_echo_lines (f : string -> string) l :
  curlProbes (map (fun x => Echo (f x)) l) = [].
Proof. induction l; cbn; auto. Qed.

Lemma In_echo_app tr1 tr2 line :
  In (Echo line) (tr1 ++ tr2) <-> In (Echo line) tr1 \/ In (Echo line) tr2.
Proof. apply in_app_iff. Qed.

End ShellTraces.

Section ShellRuns.
Import ShellChecker.
Variable npmView : string -> bool.
Variable curl : string -> Curl.
Variable pkgDir : string -> string.

Lemma checkLoop_spec TOTAL names : forall i tr l,
  match checkLoop npmView curl i TOTAL names tr l with
  | Completed tr' l' =>
      Forall (fun p => curlFails npmView curl p = false) names
      /\ PUBLISHED l' = PUBLISHED l ++ filter (isPublished npmView curl) names
      /\ UNPUBLISHED l' = UNPUBLISHED l ++ filter (isUnpublished npmView curl) names
      /\ ERRORS l' = ERRORS l ++ map (errorText curl) (filter (isError npmView curl) names)
      /\ curlProbes tr' = curlProbes tr ++ filter (fun p => negb (npmView p)) names
      /\ writes tr' = writes tr
      /\ (forall line, In (Echo line) tr' -> In (Echo line) tr)
  | Aborted tr' exitStatus =>
      exists pre p post,
        names = pre ++ p :: post
        /\ Forall (fun p => curlFails npmView curl p = false) pre
        /\ npmView p = false /\ curl p = CurlFailed exitStatus
        /\ curlProbes tr' = curlProbes tr ++ filter (fun p => negb (npmView p)) pre ++ [p]
        /\ writes tr' = writes tr
        /\ (forall line, In (Echo line) tr' -> In (Echo line) tr)
  end.
Proof.
  induction names as [| pkg rest IH]; intros i tr l.
  - cbn. rewrite !app_nil_r. repeat split; auto.
  - cbn [checkLoop].
    unfold isPublished, isUnpublished, isError, curlFails, errorText.
    cbn [filter]. destruct (npmView pkg) eqn:Ev; cbn [negb andb orb].
    + match goal with
      | |- match checkLoop _ _ _ _ _ ?tr' ?l' with _ => _ end =>
          specialize (IH (S i) tr' l');
          destruct (checkLoop npmView curl (S i) TOTAL rest tr' l') as [tr2 l2 | tr2 st]
      end.
      * destruct IH as (Hall & Hp & Hu & He & Hc & Hw & Hecho).
        cbn [PUBLISHED UNPUBLISHED ERRORS] in *. unfold Js.push in *.
        rewrite Hp, Hu, He, Hc, Hw, curlProbes_app, sh_writes_app. cbn.
        rewrite !app_nil_r, <- app_assoc.
        repeat split; auto.
        -- constructor; [now rewrite Ev | exact Hall].
        -- intros line Hl. apply Hecho, in_app_iff in Hl.
           destruct Hl as [Hl | [Hl | [Hl | []]]]; [exact Hl | discriminate ..].
      * destruct IH as (pre & p & post & Hn & Hall & Hv & Hcf & Hc & Hw & Hecho).
        exists (pkg :: pre), p, post. cbn [filter app]. rewrite Ev. cbn [negb].
        rewrite Hc, Hw, curlProbes_app, sh_writes_app. cbn. rewrite !app_nil_r.
        repeat split; auto.
        -- now rewrite Hn.
        -- constructor; [now rewrite Ev | exact Hall].
        -- intros line Hl. apply Hecho, in_app_iff in Hl.
           destruct Hl as [Hl | [Hl | [Hl | []]]]; [exact Hl | discriminate ..].
    + destruct (curl pkg) as [code | st] eqn:Ec.
      * assert (Hcase :
          exists l1, 
            (if String.eqb code "404"
             then checkLoop npmView curl (S i) TOTAL rest
                    ((tr ++ [Printf (CR ++ "[" ++ Publisher.showNat (S i) ++ "/"
                                     ++ Publisher.showNat TOTAL ++ "] Checking " ++ pkg
                                     ++ "...                    ")%string;
                             NpmView pkg]) ++ [CurlProbe pkg])
                    (mkLists (PUBLISHED l) (Js.push (UNPUBLISHED l) pkg) (ERRORS l))
             else if String.eqb code "200"
                  then checkLoop npmView curl (S i) TOTAL rest
                         ((tr ++ [Printf (CR ++ "[" ++ Publisher.showNat (S i) ++ "/"
                                          ++ Publisher.showNat TOTAL ++ "] Checking " ++ pkg
                                          ++ "...                    ")%string;
                                  NpmView pkg]) ++ [CurlProbe pkg])
                         (mkLists (Js.push (PUBLISHED l) pkg) (UNPUBLISHED l) (ERRORS l))
                  else checkLoop npmView curl (S i) TOTAL rest
                         ((tr ++ [Printf (CR ++ "[" ++ Publisher.showNat (S i) ++ "/"
                                          ++ Publisher.showNat TOTAL ++ "] Checking " ++ pkg
                                          ++ "...                    ")%string;
                                  NpmView pkg]) ++ [CurlProbe pkg])
                         (mkLists (PUBLISHED l) (UNPUBLISHED l)
                                  (Js.push (ERRORS l)
                                           (pkg ++ " (HTTP " ++ code ++ ")")%string)))
            = checkLoop npmView curl (S i) TOTAL rest
                ((tr ++ [Printf (CR ++ "[" ++ Publisher.showNat (S i) ++ "/"
                                 ++ Publisher.showNat TOTAL ++ "] Checking " ++ pkg
                                 ++ "...                    ")%string;
                         NpmView pkg]) ++ [CurlProbe pkg]) l1
            /\ PUBLISHED l1 = PUBLISHED l ++ (if String.eqb code "200" then [pkg] else [])
            /\ UNPUBLISHED l1 = UNPUBLISHED l ++ (if String.eqb code "404" then [pkg] else [])
            /\ ERRORS l1 = ERRORS l ++ (if negb (String.eqb code "404")
                                           && negb (String.eqb code "200")
                                        then [(pkg ++ " (HTTP " ++ code ++ ")")%string]
                                        else [])).
        { destruct (String.eqb_spec code "404") as [-> | H4].
          - eexists. split; [reflexivity |]. cbn. rewrite !app_nil_r. auto.
          - destruct (String.eqb code "200"); eexists; (split; [reflexivity |]);
              cbn; rewrite !app_nil_r; auto. }
        destruct Hcase as (l1 & -> & Hp1 & Hu1 & He1).
        match goal with
        | |- match checkLoop _ _ _ _ _ ?tr' _ with _ => _ end =>
            specialize (IH (S i) tr' l1);
            destruct (checkLoop npmView curl (S i) TOTAL rest tr' l1) as [tr2 l2 | tr2 st]
        end.
        -- destruct IH as (Hall & Hp & Hu & He & Hc & Hw & Hecho).
           rewrite Hp, Hu, He, Hc, Hw, Hp1, Hu1, He1, !curlProbes_app, !sh_writes_app.
           cbn [curlProbes writes app]. rewrite !app_nil_r, <- !app_assoc.
           split; [constructor; [now rewrite Ev, Ec | exact Hall] |].
           split; [destruct (String.eqb code "200"); reflexivity |].
           split; [destruct (String.eqb code "404"); reflexivity |].
           split; [destruct (String.eqb code "404"), (String.eqb code "200");
                   cbn; rewrite ?Ec; reflexivity |].
           split; [reflexivity |]. split; [reflexivity |].
           intros line Hl. apply Hecho in Hl. rewrite !in_app_iff in Hl. cbn in Hl.
           intuition discriminate.
        -- destruct IH as (pre & p & post & Hn & Hall & Hv & Hcf & Hc & Hw & Hecho).
           exists (pkg :: pre), p, post. cbn [filter app]. rewrite Ev. cbn [negb].
           rewrite Hc, Hw, !curlProbes_app, !sh_writes_app. cbn [curlProbes writes app].
           rewrite !app_nil_r, <- !app_assoc.
           split; [now rewrite Hn |].
           split; [constructor; [now rewrite Ev, Ec | exact Hall] |].
           repeat split; auto.
           intros line Hl. apply Hecho in Hl. rewrite !in_app_iff in Hl. cbn in Hl.
           intuition discriminate.
      * exists [], pkg, rest. cbn [filter app].
        rewrite !curlProbes_app, !sh_writes_app. cbn. rewrite !app_nil_r.
        repeat split; auto.
        intros line Hl. rewrite !in_app_iff in Hl. cbn in Hl. intuition discriminate.
Qed.

Lemma writes_option2 l : writes (flat_map (option2 pkgDir) l) = [].
Proof.
  induction l as [| x l IH]; [reflexivity |].
  cbn [flat_map]. rewrite sh_writes_app, IH. unfold option2.
  destruct (String.eqb (pkgDir x) ""); reflexivity.
Qed.

Lemma curlProbes_option2 l : curlProbes (flat_map (option2 pkgDir) l) = [].
Proof.
  induction l as [| x l IH]; [reflexivity |].
  cbn [flat_map]. rewrite curlProbes_app, IH. unfold option2.
  destruct (String.eqb (pkgDir x) ""); reflexivity.
Qed.

Lemma report_effects l :
  curlProbes (report pkgDir l) = []
  /\ writes (report pkgDir l) =
     match UNPUBLISHED l with
     | [] => []
     | _ => [("unpublished-packages.txt", printfLines (UNPUBLISHED l))]
     end.
Proof.
  unfold report, unpublishedBlock, errorsBlock.
  destruct (ERRORS l) as [| e es], (UNPUBLISHED l) as [| u us];
    cbn [List.length Nat.ltb Nat.leb];
    rewrite ?curlProbes_app, ?sh_writes_app, ?writes_echo_lines, ?curlProbes_echo_lines,
      ?writes_option2, ?curlProbes_option2; cbn;
    rewrite ?curlProbes_app, ?sh_writes_app, ?writes_echo_lines, ?curlProbes_echo_lines,
      ?writes_option2, ?curlProbes_option2; cbn; auto.
Qed.

(** X21. When the shell checker runs to its end, every name is in exactly
    one of its three lists: published when [npm view] succeeds or the
    registry answers 200, unpublished when it answers 404, an error (with
    the status code) otherwise; the lists keep the order of the names, and
    the registry is asked only about names [npm view] did not find. *)
Theorem shell_checker_sorts_every_name names tr l :
  main npmView curl pkgDir names = Completed tr l ->
  PUBLISHED l = filter (isPublished npmView curl) names
  /\ UNPUBLISHED l = filter (isUnpublished npmView curl) names
  /\ ERRORS l = map (errorText curl) (filter (isError npmView curl) names)
  /\ List.length (PUBLISHED l) + List.length (UNPUBLISHED l) + List.length (ERRORS l)
     = List.length names
  /\ curlProbes tr = filter (fun p => negb (npmView p)) names.
Proof.
  unfold main.
  match goal with
  | |- match checkLoop _ _ _ ?T _ ?tr0 ?l0 with _ => _ end = _ -> _ =>
      pose proof (checkLoop_spec T names 0 tr0 l0) as Hspec;
      destruct (checkLoop npmView curl 0 T names tr0 l0) as [tr1 l1 | tr1 st]
  end; [| discriminate].
  intros [= <- <-].
  destruct Hspec as (Hall & Hp & Hu & He & Hc & _).
  cbn [PUBLISHED UNPUBLISHED ERRORS app] in *.
  rewrite Hp, Hu, He, curlProbes_app, Hc.
  destruct (report_effects l1) as [-> _]. rewrite app_nil_r.
  repeat split; auto.
  rewrite length_map. clear - Hall.
  induction Hall as [| p rest Hp _ IH]; [reflexivity |].
  unfold isPublished, isUnpublished, isError, curlFails in *. cbn [filter].
  destruct (npmView p); cbn [negb andb orb] in *; [cbn; lia |].
  destruct (curl p) as [c | st]; [| discriminate].
  destruct (String.eqb_spec c "404") as [-> | H4]; [cbn; lia |].
  destruct (String.eqb c "200"); cbn; lia.
Qed.

(** X22. Under [set -e] a failing [curl] ends the shell checker on the
    spot with curl's exit status: nothing is reported and no file is
    written.  The script runs to its end exactly when [curl] fails for no
    name that [npm view] did not find. *)
Theorem shell_checker_stops_when_curl_fails names :
  match main npmView curl pkgDir names with
  | Completed _ _ => Forall (fun p => curlFails npmView curl p = false) names
  | Aborted tr exitStatus =>
      (exists pre p post,
          names = pre ++ p :: post
          /\ Forall (fun p => curlFails npmView curl p = false) pre
          /\ npmView p = false /\ curl p = CurlFailed exitStatus)
      /\ writes tr = [] /\ ~ In (Echo "RESULTS") tr
  end.
Proof.
  unfold main.
  match goal with
  | |- match match checkLoop _ _ _ ?T _ ?tr0 ?l0 with _ => _ end with _ => _ end =>
      pose proof (checkLoop_spec T names 0 tr0 l0) as Hspec;
      destruct (checkLoop npmView curl 0 T names tr0 l0) as [tr1 l1 | tr1 st]
  end.
  - now destruct Hspec as (Hall & _).
  - destruct Hspec as (pre & p & post & Hn & Hall & Hv & Hc & _ & Hw & Hecho).
    split; [now exists pre, p, post |]. split; [exact Hw |].
    intros Hin. apply Hecho in Hin. cbn in Hin.
    destruct Hin as [H | [H | [H | []]]]; discriminate H.
Qed.

(** X23. A shell checker run that reaches its end writes
    [unpublished-packages.txt] exactly when some name is unpublished; the
    file has one unpublished name per line, which is the very content the
    Node checker writes for the same list, and the publisher reads it
    back as that list. *)
Theorem shell_checker_list_file names tr l :
  main npmView curl pkgDir names = Completed tr l ->
  writes tr = match UNPUBLISHED l with
              | [] => []
              | _ => [("unpublished-packages.txt", printfLines (UNPUBLISHED l))]
              end
  /\ (UNPUBLISHED l <> [] ->
      forall published,
        Checker.unpublishedFile (Checker.mkResults published (UNPUBLISHED l))
        = Some (printfLines (UNPUBLISHED l)))
  /\ (Forall PublisherTrace.plainLine (UNPUBLISHED l) ->
      Publisher.readLines (printfLines (UNPUBLISHED l)) = UNPUBLISHED l).
Proof.
  unfold main.
  match goal with
  | |- match checkLoop _ _ _ ?T _ ?tr0 ?l0 with _ => _ end = _ -> _ =>
      pose proof (checkLoop_spec T names 0 tr0 l0) as Hspec;
      destruct (checkLoop npmView curl 0 T names tr0 l0) as [tr1 l1 | tr1 st]
  end; [| discriminate].
  intros [= <- <-]. destruct Hspec as (_ & _ & _ & _ & _ & Hw & _).
  rewrite sh_writes_app, Hw. destruct (report_effects l1) as [_ ->]. cbn [writes app].
  split; [reflexivity |]. split.
  - intros Hne published. unfold Checker.unpublishedFile. cbn [Checker.unpublished].
    destruct (UNPUBLISHED l1) as [| u us] eqn:E; [congruence |].
    cbn [List.length Nat.ltb Nat.leb]. f_equal.
    change (String Js.LF "") with LFs. apply printfLines_join. discriminate.
  - apply readLines_printfLines.
Qed.

End ShellRuns.

Lemma shell_checker_sorts_every_name_witness :
  exists tr,
    ShellChecker.main ScriptExamples.npmKnowsA ScriptExamples.curlSays
                      ScriptExamples.noDir ScriptExamples.names
    = ShellChecker.Completed tr (ShellChecker.mkLists ["@dxos/a"] ["@dxos/b"]
                                                     ["@dxos/c (HTTP 503)"])
    /\ ShellChecker.curlProbes tr = ["@dxos/b"; "@dxos/c"].
Proof.
  eexists. split; [reflexivity |].
  exact (proj2 (proj2 (proj2 (proj2
           (shell_checker_sorts_every_name
              ScriptExamples.npmKnowsA ScriptExamples.curlSays ScriptExamples.noDir
              ScriptExamples.names _ _ eq_refl))))).
Defined.

Lemma shell_checker_list_file_witness :
  exists tr l,
    ShellChecker.main ScriptExamples.npmKnowsA ScriptExamples.curlSays
                      ScriptExamples.noDir ScriptExamples.names
    = ShellChecker.Completed tr l
    /\ ShellChecker.writes tr =
       [("unpublished-packages.txt", ("@dxos/b" ++ ShellChecker.LFs)%string)].
Proof.
  eexists. eexists. split; [reflexivity |].
  exact (proj1 (shell_checker_list_file
                  ScriptExamples.npmKnowsA ScriptExamples.curlSays ScriptExamples.noDir
                  ScriptExamples.names _ _ eq_refl)).
Defined.

Section Address.
Import ContentUrl.

Ltac next_char t :=
  destruct t as [| ? t]; cbn [append String.prefix] in *;
  [ try reflexivity; try discriminate
  | match goal with
    | |- context [ascii_dec ?a ?b] =>
        destruct (ascii_dec a b) as [<- | ?]; [| try reflexivity; try discriminate]
    end ].

Ltac each_byte c :=
  destruct c as [[|] [|] [|] [|] [|] [|] [|] [|]].

(** What the parser and the regular expression do with a literal byte. *)
Lemma literal_byte c :
  isPathLiteral c = true ->
  isSlash c = Ascii.eqb c "/" /\ endsPath c = false
  /\ encodePathByte c = String c EmptyString
  /\ isTabOrNewline c = false /\ isC0ControlOrSpace c = false
  /\ isLineTerminator c = false /\ (forall b d, isLineTerminator3 c b d = false)
  /\ c <> "%"%char.
Proof.
  each_byte c; intros H; try discriminate H; clear H;
    repeat split; try reflexivity; discriminate.
Qed.

Lemma lowerAscii_percent c : Js.lowerAscii c = "%"%char -> c = "%"%char.
Proof. each_byte c; intros H; try discriminate H; reflexivity. Qed.

Lemma lowerAscii_dot c : Js.lowerAscii c = "."%char -> c = "."%char.
Proof. each_byte c; intros H; try discriminate H; reflexivity. Qed.

(** Without a percent sign, only [.] and [..] are dot segments. *)
Lemma no_dot segment :
  (forall c, In c (list_ascii_of_string segment) -> c <> "%"%char) ->
  segment <> "." -> segment <> ".." ->
  isSingleDot segment = false /\ isDoubleDot segment = false.
Proof.
  intros Hpc H1 H2.
  assert (Hhead : forall t, Js.toLowerCase segment <> String "%" t).
  { intros t E. destruct segment as [| c s]; [discriminate E |].
    cbn [Js.toLowerCase] in E. injection E as Ec _.
    apply lowerAscii_percent in Ec. apply (Hpc c); [now left | exact Ec]. }
  assert (Hsnd : forall a t, Js.toLowerCase segment <> String a (String "%" t)).
  { intros a t E. destruct segment as [| c [| d s]]; try discriminate E.
    cbn [Js.toLowerCase] in E. injection E as _ Ed _.
    apply lowerAscii_percent in Ed. apply (Hpc d); [right; now left | exact Ed]. }
  assert (Hdd : Js.toLowerCase segment <> "..").
  { intros E. destruct segment as [| c [| d [| e s]]]; try discriminate E.
    cbn [Js.toLowerCase] in E. injection E as Ec Ed.
    apply lowerAscii_dot in Ec, Ed. subst. now apply H2. }
  unfold isSingleDot, isDoubleDot. split.
  - destruct (String.eqb_spec segment ".") as [E | _]; [contradiction |].
    destruct (String.eqb_spec (Js.toLowerCase segment) "%2e") as [E | _];
      [exfalso; exact (Hhead _ E) | reflexivity].
  - destruct (String.eqb_spec (Js.toLowerCase segment) "..") as [E | _];
      [contradiction |].
    destruct (String.eqb_spec (Js.toLowerCase segment) ".%2e") as [E | _];
      [exfalso; exact (Hsnd _ _ E) |].
    destruct (String.eqb_spec (Js.toLowerCase segment) "%2e.") as [E | _];
      [exfalso; exact (Hhead _ E) |].
    destruct (String.eqb_spec (Js.toLowerCase segment) "%2e%2e") as [E | _];
      [exfalso; exact (Hhead _ E) | reflexivity].
Qed.

Lemma chars_app a b :
  list_ascii_of_string (a ++ b)
  = list_ascii_of_string a ++ list_ascii_of_string b.
Proof. induction a as [| c a IH]; cbn; [reflexivity | now rewrite IH]. Qed.

Lemma str_app_nil a : (a ++ "")%string = a.
Proof. induction a as [| c a IH]; cbn; [reflexivity | now rewrite IH]. Qed.

Lemma dropWhile_fixed f l :
  match l with c :: _ => f c = false | [] => True end -> dropWhile f l = l.
Proof. destruct l as [| c l]; cbn; [reflexivity | now intros ->]. Qed.

Lemma filter_fixed (f : ascii -> bool) l :
  (forall c, In c l -> f c = true) -> filter f l = l.
Proof.
  induction l as [| c l IH]; cbn; intros H; [reflexivity |].
  rewrite (H c) by now left. rewrite IH; [reflexivity |]. intros x Hx. apply H. now right.
Qed.

(** The parser's first pass leaves alone an input that neither starts nor
    ends with a C0 control or a space and holds no tab or newline. *)
Lemma preprocess_fixed s :
  match list_ascii_of_string s with
  | c :: _ => isC0ControlOrSpace c = false
  | [] => True
  end ->
  match rev (list_ascii_of_string s) with
  | c :: _ => isC0ControlOrSpace c = false
  | [] => True
  end ->
  (forall c, In c (list_ascii_of_string s) -> isTabOrNewline c = false) ->
  preprocess s = s.
Proof.
  intros Hhead Hlast Hin. unfold preprocess.
  rewrite (dropWhile_fixed _ _ Hhead), (dropWhile_fixed _ _ Hlast), rev_involutive.
  rewrite filter_fixed; [apply string_of_chars |].
  intros c Hc. now rewrite (Hin c Hc).
Qed.

Lemma preprocess_accessUrl pkg :
  (forall c, In c (list_ascii_of_string pkg) -> isPathLiteral c = true) ->
  preprocess (accessUrl pkg) = accessUrl pkg.
Proof.
  intros Hlit. apply preprocess_fixed.
  - reflexivity.
  - unfold accessUrl. rewrite !chars_app, !rev_app_distr. reflexivity.
  - unfold accessUrl. rewrite !chars_app. intros c Hc.
    apply in_app_or in Hc. destruct Hc as [Hc | Hc].
    + cbn in Hc. repeat (destruct Hc as [<- | Hc]; [reflexivity |]). contradiction.
    + apply in_app_or in Hc. destruct Hc as [Hc | Hc].
      * apply (literal_byte c (Hlit c Hc)).
      * cbn in Hc. repeat (destruct Hc as [<- | Hc]; [reflexivity |]). contradiction.
Qed.

Lemma serializePath_app p q :
  serializePath (p ++ q) = (serializePath p ++ serializePath q)%string.
Proof.
  induction p as [| x p IH]; [reflexivity |].
  change (serializePath ((x :: p) ++ q))
    with (String "/" (x ++ serializePath (p ++ q)))%string.
  change (serializePath (x :: p)) with (String "/" (x ++ serializePath p))%string.
  rewrite IH. cbn [append]. now rewrite str_app_assoc.
Qed.

(** Serializing the segments of a text gives the text back, after a slash. *)
Lemma serializePath_split x :
  serializePath (Js.split "/" x) = String "/" x.
Proof.
  induction x as [| c x IH]; [reflexivity |].
  cbn [Js.split]. destruct (Ascii.eqb_spec c "/") as [-> | Hc].
  - change (serializePath ("" :: Js.split "/" x))
      with (String "/" (serializePath (Js.split "/" x))).
    now rewrite IH.
  - destruct (Js.split "/" x) as [| h r]; [discriminate IH |].
    change (serializePath (String c h :: r))
      with (String "/" (String c (h ++ serializePath r)))%string.
    change (serializePath (h :: r)) with (String "/" (h ++ serializePath r))%string in IH.
    injection IH as IH. now rewrite IH.
Qed.

(** A segment of literal bytes that is neither [.] nor [..] is put on the
    path as it is. *)
Lemma closeSegment_literal path buffer slash :
  (forall c, In c (list_ascii_of_string buffer) -> isPathLiteral c = true) ->
  buffer <> "." -> buffer <> ".." ->
  closeSegment path buffer slash = path ++ [buffer].
Proof.
  intros Hlit H1 H2. unfold closeSegment.
  destruct (no_dot buffer) as [-> ->]; auto.
  intros c Hc. apply (literal_byte c (Hlit c Hc)).
Qed.

(** The path state on literal bytes up to a slash: the segments are the
    pieces between the slashes, as they are. *)
Lemma pathState_literal s : forall rest path buffer,
  (forall c, In c (list_ascii_of_string s) -> isPathLiteral c = true) ->
  (forall c, In c (list_ascii_of_string buffer) ->
             isPathLiteral c = true /\ c <> "/"%char) ->
  (forall segment, In segment (Js.split "/" (buffer ++ s)) ->
                   segment <> "." /\ segment <> "..") ->
  pathState (s ++ String "/" rest) path buffer
  = pathState rest (path ++ Js.split "/" (buffer ++ s)) "".
Proof.
  induction s as [| c t IH]; intros rest path buffer Hs Hb Hdots.
  - rewrite str_app_nil in *.
    assert (Hsplit : Js.split "/" buffer = [buffer]).
    { apply split_last. intros Hin. now apply (Hb _ Hin). }
    rewrite Hsplit in *. cbn [append pathState].
    change (isSlash "/") with true. cbv iota.
    rewrite closeSegment_literal; [reflexivity | ..].
    + intros c Hc. apply (Hb c Hc).
    + apply (Hdots buffer). now left.
    + apply (Hdots buffer). now left.
  - cbn [append pathState].
    destruct (literal_byte c) as (Hslash & Hends & Henc & _); [apply Hs; now left |].
    rewrite Hslash. destruct (Ascii.eqb_spec c "/") as [-> | Hc].
    + assert (Hsplit : Js.split "/" (buffer ++ String "/" t) = buffer :: Js.split "/" t).
      { apply split_line. intros Hin. now apply (Hb _ Hin). }
      rewrite Hsplit in *.
      rewrite closeSegment_literal.
      * rewrite (IH rest (path ++ [buffer]) "").
        -- cbn [append]. rewrite <- app_assoc. reflexivity.
        -- intros x Hx. apply Hs. now right.
        -- intros x [].
        -- intros segment Hin. apply Hdots. now right.
      * intros x Hx. apply (Hb x Hx).
      * apply (Hdots buffer). now left.
      * apply (Hdots buffer). now left.
    + rewrite Hends, Henc.
      rewrite (IH rest path (buffer ++ String c "")%string).
      * rewrite str_app_assoc. reflexivity.
      * intros x Hx. apply Hs. now right.
      * intros x Hx. rewrite chars_app in Hx. apply in_app_or in Hx.
        destruct Hx as [Hx | [<- | []]]; [now apply Hb |].
        split; [apply Hs; now left | exact Hc].
      * intros segment Hin. apply Hdots. rewrite str_app_assoc in Hin. exact Hin.
Qed.

(** The pathname of the access page of a literal name is the address
    without its origin. *)
Lemma pathname_accessUrl pkg :
  (forall c, In c (list_ascii_of_string pkg) -> isPathLiteral c = true) ->
  (forall segment, In segment (Js.split "/" pkg) -> segment <> "." /\ segment <> "..") ->
  pathname (accessUrl pkg) = Some (accessPath pkg).
Proof.
  intros Hlit Hdots. unfold pathname. rewrite (preprocess_accessUrl pkg Hlit).
  unfold accessUrl. cbn [append stripPrefix Ascii.eqb Bool.eqb]. cbv iota.
  change (isSlash "/") with true. cbv iota. f_equal.
  change (String "p" (String "a" (String "c" (String "k" (String "a" (String "g"
            (String "e" (String "/" (pkg ++ "/access")))))))))%string
    with ("package" ++ String "/" (pkg ++ String "/" "access"))%string.
  rewrite (pathState_literal "package").
  - rewrite (pathState_literal pkg).
    + assert (Hacc : forall path, pathState "access" path "" = path ++ ["access"])
        by (intros path; reflexivity).
      rewrite Hacc. cbn [append].
      rewrite !serializePath_app, !serializePath_split, !str_app_assoc. reflexivity.
    + exact Hlit.
    + intros c [].
    + exact Hdots.
  - intros c Hc. cbn in Hc.
    repeat (destruct Hc as [<- | Hc]; [reflexivity |]). contradiction.
  - intros c [].
  - intros segment [<- | []]. split; discriminate.
Qed.

(** [/access] cannot start inside a name and end in the [/access] that
    follows it. *)
Lemma no_overlap t :
  t <> "" -> String.prefix "/access" t = false ->
  String.prefix "/access" (t ++ "/access") = false.
Proof.
  intros Hne H. destruct t as [| c t]; [congruence |].
  cbn [append String.prefix] in *.
  destruct (ascii_dec "/" c) as [<- | ?]; [| reflexivity].
  do 6 (try next_char t).
  destruct t; cbn in H; discriminate H.
Qed.

Lemma atLineTerminator_literal c t :
  isPathLiteral c = true -> atLineTerminator (String c t) = false.
Proof.
  intros H. destruct (literal_byte c H) as (_ & _ & _ & _ & _ & H1 & H3 & _).
  destruct t as [| b [| d t]]; cbn [atLineTerminator]; rewrite ?H1, ?H3; reflexivity.
Qed.

Lemma lazyUntilAccess_name pkg :
  pkg <> "" ->
  (forall c, In c (list_ascii_of_string pkg) -> isPathLiteral c = true) ->
  Js.strIncludes pkg "/access" = false ->
  lazyUntilAccess (pkg ++ "/access") = Some pkg.
Proof.
  induction pkg as [| c t IH]; [congruence |]. intros _ Hlit Hinc.
  cbn [append lazyUntilAccess].
  rewrite (atLineTerminator_literal c) by (apply Hlit; now left).
  cbn [Js.strIncludes] in Hinc. apply orb_false_iff in Hinc. destruct Hinc as [_ Hinc].
  destruct t as [| d t].
  - reflexivity.
  - assert (Hp : String.prefix "/access" (String d t) = false).
    { cbn [Js.strIncludes] in Hinc. apply orb_false_iff in Hinc. tauto. }
    rewrite (no_overlap (String d t)) by (congruence || exact Hp).
    rewrite IH; [reflexivity | discriminate | | exact Hinc].
    intros x Hx. apply Hlit. now right.
Qed.

Lemma strIncludes_app_r s p t :
  Js.strIncludes t p = true -> Js.strIncludes (s ++ t) p = true.
Proof.
  intros H. induction s as [| c s IH]; [exact H |].
  cbn [append Js.strIncludes]. rewrite IH. apply orb_true_r.
Qed.

(** X24. The Page Agent recognises the page the Controller opens.  Take a
    package name that is not empty, is made of bytes the URL parser leaves
    as they are (printable ASCII other than the space, the double quote
    and the characters # % < > ? \ ^ ` { }), has no segment [.] or [..]
    between its slashes and does not contain [/access].  Then the
    pathname the browser derives from the address the Controller
    navigates to is [/package/], the name and [/access]; it counts as an
    access page, and the name read from it is the decoded package name,
    so that the stale-tab check compares the right names. *)
Theorem agent_reads_the_opened_package decodeURIComponent pkg :
  pkg <> "" ->
  (forall c, In c (list_ascii_of_string pkg) -> isPathLiteral c = true) ->
  (forall segment, In segment (Js.split "/" pkg) -> segment <> "." /\ segment <> "..") ->
  Js.strIncludes pkg "/access" = false ->
  exists path,
    pathname (accessUrl pkg) = Some path
    /\ path = ("/package/" ++ pkg ++ "/access")%string
    /\ Content.isAccessPage path = true
    /\ getPackageName decodeURIComponent path = Some (decodeURIComponent pkg).
Proof.
  intros Hne Hlit Hdots Hinc. exists (accessPath pkg).
  split; [now apply pathname_accessUrl |]. split; [reflexivity |]. split.
  - unfold Content.isAccessPage, accessPath.
    apply (strIncludes_app_r "/package/"), strIncludes_app_r. reflexivity.
  - unfold getPackageName, accessPath.
    change ("/package/" ++ pkg ++ "/access")%string
      with (String "/" (String "p" (String "a" (String "c" (String "k" (String "a"
             (String "g" (String "e" (String "/" (pkg ++ "/access"))))))))))%string.
    cbn [firstMatch]. unfold matchAt. cbn [stripPrefix Ascii.eqb Bool.eqb].
    cbv iota. rewrite lazyUntilAccess_name by assumption. reflexivity.
Qed.

(** A name with a fragment or query mark is outside that: the parser cuts
    the path there, and the page is not taken for an access page. *)
Example fragment_cuts_the_path :
  pathname (accessUrl "b#x") = Some "/package/b"
  /\ Content.isAccessPage "/package/b" = false
  /\ pathname (accessUrl "a?b") = Some "/package/a".
Proof. repeat split; reflexivity. Qed.

End Address.

Lemma agent_reads_the_opened_package_witness :
  ContentUrl.pathname (accessUrl "@dxos/app") = Some "/package/@dxos/app/access"
  /\ ContentUrl.getPackageName (fun s => s) "/package/@dxos/app/access"
     = Some "@dxos/app".
Proof.
  destruct (agent_reads_the_opened_package (fun s => s) "@dxos/app")
    as (path & Hpath & -> & _ & Hname).
  - discriminate.
  - intros c Hc. cbn in Hc.
    repeat (destruct Hc as [<- | Hc]; [reflexivity |]). contradiction.
  - intros segment Hin. cbn in Hin.
    repeat (destruct Hin as [<- | Hin]; [split; discriminate |]). contradiction.
  - reflexivity.
  - split; [exact Hpath | exact Hname].
Defined.

Section ChallengePolling.
Import Content.

Lemma checkChallenge_first challengeAt fuel : forall k,
  1 <= fuel -> 242 <= fuel + k -> k <= 241 ->
  exists cleared looks,
    checkChallenge fuel challengeAt k = Some (cleared, looks)
    /\ k <= looks <= 241
    /\ (forall j, k <= j < looks -> challengeAt j = true)
    /\ (if cleared then challengeAt looks = false
        else looks = 241 /\ challengeAt 241 = true).
Proof.
  induction fuel as [| fuel IH]; intros k Hf Hk Hle; [lia |].
  cbn -[Z.mul Z.ltb Z.of_nat]. destruct (challengeAt k) eqn:Ec; cbn -[Z.mul Z.ltb Z.of_nat].
  - unfold challengeTimeout.
    destruct (120000 <? 500 * Z.of_nat k)%Z eqn:Et.
    + apply Z.ltb_lt in Et. assert (k = 241) by lia. subst k.
      exists false, 241. repeat split; try lia. exact Ec.
    + apply Z.ltb_ge in Et.
      destruct (IH (S k)) as (c & n & Hr & Hn & Hbefore & Hc); try lia.
      exists c, n. split; [exact Hr |]. split; [lia |]. split; [| exact Hc].
      intros j Hj. destruct (Nat.eq_dec j k) as [-> | Hne]; [exact Ec |].
      apply Hbefore. lia.
  - exists true, k. repeat split; try lia. exact Ec.
Qed.

(** X25. The challenge wait always ends, after at most 242 looks half a
    second apart: it reports the challenge gone at the first look that
    does not see it, and gives up, reporting it still there, at the look
    taken 120.5 s after the start when every look saw it. *)
Theorem challenge_wait_is_bounded challengeAt :
  exists cleared looks,
    waitForChallengeCompletion challengeAt = Some (cleared, looks)
    /\ looks <= 241
    /\ (forall j, j < looks -> challengeAt j = true)
    /\ (if cleared then challengeAt looks = false
        else looks = 241 /\ challengeAt 241 = true).
Proof.
  destruct (checkChallenge_first challengeAt 242 0) as (c & n & Hr & Hn & Hb & Hc);
    try lia.
  exists c, n. repeat split; try assumption; try lia.
  intros j Hj. apply Hb. lia.
Qed.

End ChallengePolling.

Lemma start_rejected_without_github_fields_witness :
  packages (stateOf (Popup.handleStart MoreExamples.noOwnerForm defaultState)) = ["a"; "b"]
  /\ status (stateOf (Popup.handleStart MoreExamples.noOwnerForm defaultState)) = idle.
Proof.
  assert (Hne : Popup.parsePackages (Popup.f_packages MoreExamples.noOwnerForm) <> [])
    by (vm_compute; discriminate).
  destruct (start_rejected_without_github_fields MoreExamples.noOwnerForm defaultState
              Hne (or_introl eq_refl)) as (Hs & _ & _ & _ & _ & Hp & _).
  split; [exact Hp | exact Hs].
Defined.

Lemma buckets_stay_duplicate_free_witness :
  Progress.bucketsNoDup
    (Run.step (Run.Result (Content.completedMsg "a")) Examples.skippedAtCursor).
Proof.
  apply buckets_stay_duplicate_free.
  repeat split; repeat constructor; cbn; intuition.
Defined.

Lemma running_run_has_current_package_witness :
  currentIndex (Run.run Examples.notFoundThenNext
                  (Run.start Examples.manualForm defaultState)) <= 2.
Proof.
  exact (proj1 (running_run_has_current_package Examples.manualForm defaultState
                  Examples.notFoundThenNext eq_refl eq_refl)).
Defined.

Lemma automation_waits_while_not_running_witness :
  Run.step (Run.PageLoad Examples.notFoundPage) MoreExamples.pausedRun
  = MoreExamples.pausedRun.
Proof.
  refine (proj2 (proj2 (proj2 (automation_waits_while_not_running
                                 (Run.PageLoad Examples.notFoundPage)
                                 MoreExamples.pausedRun eq_refl _)))).
  discriminate.
Defined.

Lemma page_load_is_handled_once_witness :
  Run.step (Run.PageLoad Examples.notFoundPage)
    (Run.step (Run.PageLoad Examples.notFoundPage) Examples.started)
  = mkState running ["a"; "b"] 1 [] [] ["a"] defaultConfig.
Proof.
  rewrite (page_load_is_handled_once Examples.notFoundPage Examples.started).
  - reflexivity.
  - discriminate.
Defined.
